(** * bookplayer: the media browser of [main.py], embedded in Rocq

  The development follows the layout of [main.py]: the Python built-ins
  the code relies on ([Py]), [pathlib] paths and the media tree
  ([PathLib]), the state a request works on, the progress store
  ([ProgressStore]), the session helpers and the request handlers.  Floats
  are binary64 ([PrimFloat]), dicts are finite maps, and a handler is a
  function from the state to an outcome and the next state. *)

From Stdlib Require Import ZArith List String Ascii Bool Lia Floats.
From Stdlib Require Import Sorted Permutation DecimalString.
From stdpp Require Import base gmap strings list.

Set Warnings "-inexact-float".

Local Open Scope string_scope.
Local Open Scope list_scope.

(** ** Python primitives *)
Module Py.

(** Exceptions that the handlers raise or let through.  [OSError] carries
    its [errno]. *)
Inductive exn :=
| HTTPException (status_code : Z) (detail : string)
| RuntimeError (message : string)
| ValueError (message : string)
| JSONDecodeError (message : string)
| UnicodeDecodeError (reason : string)
| RecursionError (message : string)
| OSError (errno : Z).

(** The outcome of a call: a value, or a raised exception. *)
Inductive outcome (A : Type) :=
| Return (a : A)
| Raise (e : exn).
Arguments Return {A} a.
Arguments Raise {A} e.

(** Values that live in a session dict (a signed JSON cookie). *)
Inductive value :=
| VNone
| VBool (b : bool)
| VInt (z : Z)
| VStr (s : string).

(** [bool(v)]. *)
Definition truthy (v : value) : bool :=
  match v with
  | VNone => false
  | VBool b => b
  | VInt z => negb (Z.eqb z 0)
  | VStr s => negb (String.eqb s "")
  end.

(** [bool(d.get(key))] on an optional value: a missing key is [None]. *)
Definition truthy_opt (o : option value) : bool :=
  match o with
  | None => false
  | Some v => truthy v
  end.

(** [try: body except json.JSONDecodeError: handler], for calls that
    leave the state alone. *)
Definition try_except_JSONDecodeError {A} (body handler : outcome A)
    : outcome A :=
  match body with
  | Raise (JSONDecodeError _) => handler
  | r => r
  end.

(** *** str methods, on byte strings

    A str is held as its bytes in UTF-8, where a byte that does not belong
    to a well-formed sequence stands for the one character that the
    [surrogateescape] handler makes of it. *)

Definition is_upper (c : ascii) : bool :=
  let n := nat_of_ascii c in (65 <=? n)%nat && (n <=? 90)%nat.

Definition lower_char (c : ascii) : ascii :=
  if is_upper c then ascii_of_nat (nat_of_ascii c + 32) else c.

(** [s.lower()] for a text whose letters are ASCII: the bytes of other
    characters are kept.  It decides [s.lower() in allowed] for every [s]
    when the texts in [allowed] are ASCII without the letter k, the only
    ASCII letter that is the lower case of a character outside ASCII. *)
Fixpoint lower (s : string) : string :=
  match s with
  | EmptyString => EmptyString
  | String c s' => String (lower_char c) (lower s')
  end.

(** [s.startswith(p)]. *)
Definition startswith (s p : string) : bool := String.prefix p s.

(** [s.endswith(c)] for one character. *)
Fixpoint endswith_char (s : string) (c : ascii) : bool :=
  match s with
  | EmptyString => false
  | String d EmptyString => Ascii.eqb d c
  | String _ s' => endswith_char s' c
  end.

(** [c in s] for one character. *)
Fixpoint has_char (c : ascii) (s : string) : bool :=
  match s with
  | EmptyString => false
  | String d s' => Ascii.eqb d c || has_char c s'
  end.

Definition byte_in (lo hi : nat) (c : ascii) : bool :=
  let n := nat_of_ascii c in (lo <=? n)%nat && (n <=? hi)%nat.

(** The number of bytes of the well-formed UTF-8 sequence that [s] starts
    with, and 0 when it starts with none: no overlong forms, no surrogates,
    nothing above U+10FFFF. *)
Definition utf8_sequence (s : string) : nat :=
  match s with
  | EmptyString => 0
  | String a s1 =>
      let n := nat_of_ascii a in
      if (n <? 128)%nat then 1
      else if byte_in 194 223 a then
        match s1 with
        | String b _ => if byte_in 128 191 b then 2 else 0
        | _ => 0
        end
      else if byte_in 224 239 a then
        match s1 with
        | String b (String c _) =>
            let lo := if (n =? 224)%nat then 160 else 128 in
            let hi := if (n =? 237)%nat then 159 else 191 in
            if byte_in lo hi b && byte_in 128 191 c then 3 else 0
        | _ => 0
        end
      else if byte_in 240 244 a then
        match s1 with
        | String b (String c (String d _)) =>
            let lo := if (n =? 240)%nat then 144 else 128 in
            let hi := if (n =? 244)%nat then 143 else 191 in
            if byte_in lo hi b && byte_in 128 191 c && byte_in 128 191 d
            then 4 else 0
        | _ => 0
        end
      else 0
  end%nat.

(** [ord] of the character that [s] starts with: the code point of its
    UTF-8 sequence, and U+DC00 plus the byte for a byte that starts none. *)
Definition code_point (s : string) : N :=
  match s with
  | EmptyString => 0
  | String a s1 =>
      let n := N_of_ascii a in
      match utf8_sequence s, s1 with
      | 1%nat, _ => n
      | 2%nat, String b _ => (n - 192) * 64 + (N_of_ascii b - 128)
      | 3%nat, String b (String c _) =>
          (n - 224) * 4096 + (N_of_ascii b - 128) * 64 + (N_of_ascii c - 128)
      | 4%nat, String b (String c (String d _)) =>
          (n - 240) * 262144 + (N_of_ascii b - 128) * 4096
          + (N_of_ascii c - 128) * 64 + (N_of_ascii d - 128)
      | _, _ => 56320 + n
      end
  end%N.

(** The characters of [s], once [skip] more bytes of the current character
    have gone by. *)
Fixpoint code_points_from (skip : nat) (s : string) : list N :=
  match s with
  | EmptyString => []
  | String _ s' =>
      match skip with
      | S k => code_points_from k s'
      | O => code_point s :: code_points_from (Nat.pred (utf8_sequence s)) s'
      end
  end.

(** [[ord(c) for c in s]]. *)
Definition code_points (s : string) : list N := code_points_from 0 s.

(** [len(s)]: the number of characters. *)
Definition len (s : string) : nat := List.length (code_points s).

(** The order of sequences, item by item. *)
Fixpoint list_compare (a b : list N) : comparison :=
  match a, b with
  | [], [] => Eq
  | [], _ :: _ => Lt
  | _ :: _, [] => Gt
  | x :: a', y :: b' =>
      match N.compare x y with
      | Eq => list_compare a' b'
      | c => c
      end
  end.

(** [a < b] on str: by code points. *)
Definition str_lt (a b : string) : bool :=
  match list_compare (code_points a) (code_points b) with
  | Lt => true
  | _ => false
  end.

(** [repr(s)] for a text without quotes, backslashes and control
    characters. *)
Definition repr (s : string) : string := "'" ++ s ++ "'".

(** The ASCII characters [str.isspace] accepts. *)
Definition isspace (c : ascii) : bool :=
  let n := nat_of_ascii c in
  ((9 <=? n)%nat && (n <=? 13)%nat) || ((28 <=? n)%nat && (n <=? 32)%nat).

Fixpoint lstrip (s : string) : string :=
  match s with
  | EmptyString => EmptyString
  | String c s' => if isspace c then lstrip s' else s
  end.

(** Removes trailing whitespace: a character is dropped when it is a space
    and everything after it was dropped. *)
Fixpoint rstrip (s : string) : string :=
  match s with
  | EmptyString => EmptyString
  | String c s' =>
      match rstrip s' with
      | EmptyString => if isspace c then EmptyString else String c EmptyString
      | r => String c r
      end
  end.

(** [s.strip()]. *)
Definition strip (s : string) : string := rstrip (lstrip s).

(** [s.split(sep)] for a one-character separator. *)
Fixpoint split (sep : ascii) (s : string) : list string :=
  match s with
  | EmptyString => [EmptyString]
  | String c s' =>
      if Ascii.eqb c sep then EmptyString :: split sep s'
      else match split sep s' with
           | [] => [String c EmptyString]
           | w :: ws => String c w :: ws
           end
  end.

(** [sep.join(parts)]. *)
Fixpoint join (sep : string) (parts : list string) : string :=
  match parts with
  | [] => EmptyString
  | [p] => p
  | p :: rest => p ++ sep ++ join sep rest
  end.

(** [s.rfind(c)]: the last index of [c], if any. *)
Fixpoint rfind (c : ascii) (s : string) : option nat :=
  match s with
  | EmptyString => None
  | String d s' =>
      match rfind c s' with
      | Some i => Some (S i)
      | None => if Ascii.eqb d c then Some 0%nat else None
      end
  end.

(** [s[i:]]. *)
Fixpoint drop_chars (i : nat) (s : string) : string :=
  match i, s with
  | O, _ => s
  | S i', EmptyString => EmptyString
  | S i', String _ s' => drop_chars i' s'
  end.

(** *** float built-ins *)

(** [math.isfinite(a)]. *)
Definition isfinite (a : float) : bool := PrimFloat.is_finite a.

(** [a > b] on floats. *)
Definition float_gt (a b : float) : bool := PrimFloat.ltb b a.

(** [a >= b] on floats. *)
Definition float_ge (a b : float) : bool := PrimFloat.leb b a.

(** [max(a, b)]: the first argument is kept unless the second is greater. *)
Definition max (a b : float) : float := if float_gt b a then b else a.

(** *** sorted *)

Section Sorted.
Context {A K : Type} (key : A -> K) (lt : K -> K -> bool).

(** Puts [x] after the leading elements whose key is below the key of [x]
    and in front of everything else. *)
Fixpoint insert_by (x : A) (l : list A) : list A :=
  match l with
  | [] => [x]
  | y :: l' => if lt (key y) (key x) then y :: insert_by x l' else x :: l
  end.

(** [sorted(l, key=key)]: a stable sort that compares keys with [<]; here
    by insertion from the right, so that an element stays in front of the
    later elements whose key is not below its own. *)
Fixpoint sorted (l : list A) : list A :=
  match l with
  | [] => []
  | x :: l' => insert_by x (sorted l')
  end.
End Sorted.

(** [<] on pairs of a bool and a str, as Python compares tuples. *)
Definition bool_lt (a b : bool) : bool := negb a && b.

Definition pair_lt (x y : bool * string) : bool :=
  bool_lt (fst x) (fst y)
  || (Bool.eqb (fst x) (fst y) && str_lt (snd x) (snd y)).

(** *** base64 *)

Definition b64_alphabet : string :=
  "ABCDEFGHIJKLMNOPQRSTUVWXYZabcdefghijklmnopqrstuvwxyz0123456789-_".

Definition b64_char (i : N) : ascii :=
  match String.get (N.to_nat i) b64_alphabet with
  | Some c => c
  | None => "="%char
  end.

(** [base64.urlsafe_b64encode(data).rstrip(b"=")]: three bytes give four
    characters; one or two bytes left over give two or three. *)
Fixpoint urlsafe_b64encode_nopad (data : list ascii) : string :=
  match data with
  | [] => EmptyString
  | [a] =>
      let n := N_of_ascii a in
      String (b64_char (n / 4)) (String (b64_char ((n mod 4) * 16)) EmptyString)
  | [a; b] =>
      let n := (N_of_ascii a * 256 + N_of_ascii b)%N in
      String (b64_char (n / 1024))
        (String (b64_char ((n / 16) mod 64))
           (String (b64_char ((n mod 16) * 4)) EmptyString))
  | a :: b :: c :: rest =>
      let n := (N_of_ascii a * 65536 + N_of_ascii b * 256 + N_of_ascii c)%N in
      String (b64_char (n / 262144))
        (String (b64_char ((n / 4096) mod 64))
           (String (b64_char ((n / 64) mod 64))
              (String (b64_char (n mod 64))
                 (urlsafe_b64encode_nopad rest))))
  end%N.

(** A str that [hmac.compare_digest] accepts: ASCII only. *)
Fixpoint isascii (s : string) : bool :=
  match s with
  | EmptyString => true
  | String c s' => (nat_of_ascii c <? 128)%nat && isascii s'
  end.

End Py.


(** ** pathlib on POSIX, and the file system it reads *)
Module PathLib.

(** What a path starts with: nothing, [/], or exactly two slashes (which
    POSIX keeps apart from [/]). *)
Inductive anchor := Relative | Root | DoubleRoot.

(** A parsed path: its anchor and its components.  Parsing drops empty
    components and [.]; it keeps [..]. *)
Record Path := mkPath { path_anchor : anchor; parts : list string }.

#[global] Instance anchor_eq_dec : EqDecision anchor.
Proof. solve_decision. Defined.

#[global] Instance Path_eq_dec : EqDecision Path.
Proof. solve_decision. Defined.

(** [posixpath.splitroot]: the anchor and what follows it. *)
Definition splitroot (p : string) : anchor * string :=
  match p with
  | String "/" (String "/" (String "/" _)) => (Root, Py.drop_chars 1 p)
  | String "/" (String "/" rest) => (DoubleRoot, rest)
  | String "/" rest => (Root, rest)
  | _ => (Relative, p)
  end.

Definition keep_component (c : string) : bool :=
  negb (String.eqb c "") && negb (String.eqb c ".").

(** [Path(s)]. *)
Definition parse (s : string) : Path :=
  let (a, rel) := splitroot s in
  mkPath a (List.filter keep_component (Py.split "/" rel)).

(** [p / other]: an anchored [other] replaces [p]. *)
Definition joinpath (p : Path) (other : string) : Path :=
  let q := parse other in
  match path_anchor q with
  | Relative => mkPath (path_anchor p) (parts p ++ parts q)
  | _ => q
  end.

(** [p.name]. *)
Definition name (p : Path) : string := List.last (parts p) "".

(** [PurePath.suffix] of a file name: from the last dot, unless that dot is
    the first or the last character. *)
Definition suffix_of_name (n : string) : string :=
  match Py.rfind "." n with
  | Some i =>
      if (0 <? i)%nat && (i <? String.length n - 1)%nat
      then Py.drop_chars i n else ""
  | None => ""
  end.

(** [p.suffix]. *)
Definition suffix (p : Path) : string := suffix_of_name (name p).

(** [p.parents]: the proper ancestors, nearest first. *)
Definition parents (p : Path) : list Path :=
  List.map (fun k => mkPath (path_anchor p) (firstn k (parts p)))
           (List.rev (List.seq 0 (List.length (parts p)))).

(** [str(p)]. *)
Definition to_string (p : Path) : string :=
  match path_anchor p, parts p with
  | Relative, [] => "."
  | Relative, ps => Py.join "/" ps
  | Root, ps => "/" ++ Py.join "/" ps
  | DoubleRoot, ps => "//" ++ Py.join "/" ps
  end.

(** The components of [p] after those of [q], when [q] is a prefix of [p]. *)
Fixpoint strip_prefix (q p : list string) : option (list string) :=
  match q, p with
  | [], _ => Some p
  | _ :: _, [] => None
  | a :: q', b :: p' => if String.eqb a b then strip_prefix q' p' else None
  end.

(** [p.relative_to(other)]; [None] stands for its [ValueError]. *)
Definition relative_to (p other : Path) : option Path :=
  if decide (path_anchor p = path_anchor other) then
    match strip_prefix (parts other) (parts p) with
    | Some rest => Some (mkPath Relative rest)
    | None => None
    end
  else None.

(** *** posixpath *)

(** [posixpath.join(a, b)]: an anchored [b] replaces [a]. *)
Definition posix_join (a b : string) : string :=
  if Py.startswith b "/" then b
  else if String.eqb a "" || Py.endswith_char a "/" then a ++ b
  else a ++ "/" ++ b.

(** The loop of [posixpath.normpath] for a path that starts at the root:
    empty components and [.] are dropped, [..] takes the last component
    away and is dropped at the root. *)
Fixpoint normal_components (stack rest : list string) : list string :=
  match rest with
  | [] => stack
  | c :: rest' =>
      if negb (keep_component c) then normal_components stack rest'
      else if String.eqb c ".." then normal_components (removelast stack) rest'
      else normal_components (stack ++ [c]) rest'
  end.

(** *** The file system *)

Inductive file_kind := Directory | RegularFile | Special.

(** What [os.stat] gives for a path, links followed: what is there, or the
    error.  [Missing] stands for the errors that [Path.exists] reads as
    "not there" ([ENOENT], [ENOTDIR], [EBADF]), [Loop] for [ELOOP], and
    [Failed] for every other [OSError] ([EACCES], [ENAMETOOLONG], ...). *)
Inductive stat_result :=
| Found (kind : file_kind)
| Missing
| Loop
| Failed (errno : Z).

(** The part of the system that [pathlib] looks at.  Paths are absolute
    component lists.  [cwd] is the working directory; [readlink] gives the
    target text of a path that [os.lstat] finds to be a symbolic link;
    [stat] is [os.stat]; [listdir] is [os.listdir], which gives the names
    in a directory in the order the system yields them, or raises;
    [recursion_limit] is how deep the interpreter lets [_joinrealpath] call
    itself. *)
Record FileSystem := mkFS {
  cwd : list string;
  readlink : list string -> option string;
  stat : list string -> stat_result;
  listdir : list string -> Py.outcome (list string);
  recursion_limit : nat
}.

(** A path with a NUL byte: the system calls refuse it with [ValueError]. *)
Definition has_nul (p : list string) : bool :=
  List.existsb (Py.has_char "000") p.

Definition embedded_null_byte : Py.exn := Py.ValueError "embedded null byte".

(** The [path] of [_joinrealpath] as a text: the components after the root
    when [absolute], and relative to the working directory otherwise. *)
Definition path_text (absolute : bool) (path : list string) : string :=
  if absolute then "/" ++ Py.join "/" path else Py.join "/" path.

(** Where that path is in the file system. *)
Definition absolute_components (fs : FileSystem) (absolute : bool)
    (path : list string) : list string :=
  if absolute then path else normal_components (cwd fs) path.

(** The step of [_joinrealpath] for [..]: the last component goes, the
    root stays, and a relative path that is empty or ends in [..] gets one
    more [..]. *)
Definition updir (absolute : bool) (path : list string) : list string :=
  if absolute then removelast path
  else
    match path with
    | [] => [".."]
    | _ => if String.eqb (List.last path "") ".." then path ++ [".."]
           else removelast path
    end.

(** The dict [seen] of [_joinrealpath]: for a link, [None] while it is
    being resolved and the resolved path afterwards. *)
Definition link_cache : Type :=
  list ((bool * list string) * option (bool * list string)).

Fixpoint cache_lookup (key : bool * list string) (seen : link_cache)
    : option (option (bool * list string)) :=
  match seen with
  | [] => None
  | (k, v) :: seen' =>
      if bool_decide (k = key) then Some v else cache_lookup key seen'
  end.

(** What [_joinrealpath] gives: the resolved path and [True], with the
    dict as it is then; or a text and [False], when a link loop was met; or
    the [ValueError] of [os.lstat] on a NUL byte; or the [RecursionError]
    of the interpreter. *)
Inductive walked :=
| Resolved (absolute : bool) (path : list string) (seen : link_cache)
| Unresolved (text : string)
| NulByte
| TooDeep.

(** [posixpath._joinrealpath(path, rest, strict=False, seen)], with [rest]
    split at the slashes.  A name that is a link is looked up in [seen]:
    resolved before, its path is taken; being resolved, the walk ends with
    the text of the path so far joined with the rest as it stands;
    otherwise its target is walked, from the root when it starts with a
    slash. *)
Fixpoint joinrealpath (fs : FileSystem) (depth : nat) (absolute : bool)
    (path rest : list string) (seen : link_cache) {struct depth} : walked :=
  (fix walk (absolute : bool) (path rest : list string) (seen : link_cache)
       {struct rest} : walked :=
     match rest with
     | [] => Resolved absolute path seen
     | name :: rest' =>
         if negb (keep_component name) then walk absolute path rest' seen
         else if String.eqb name ".." then
           walk absolute (updir absolute path) rest' seen
         else
           let newpath := path ++ [name] in
           if has_nul newpath then NulByte
           else
             match readlink fs (absolute_components fs absolute newpath) with
             | None => walk absolute newpath rest' seen
             | Some target =>
                 match cache_lookup (absolute, newpath) seen with
                 | Some (Some (a, p)) => walk a p rest' seen
                 | Some None =>
                     Unresolved
                       (posix_join (path_text absolute newpath)
                          (Py.join "/" rest'))
                 | None =>
                     match depth with
                     | O => TooDeep
                     | S depth' =>
                         let seen1 := ((absolute, newpath), None) :: seen in
                         let inner :=
                           if Py.startswith target "/" then
                             joinrealpath fs depth' true []
                               (Py.split "/" (Py.drop_chars 1 target)) seen1
                           else
                             joinrealpath fs depth' absolute path
                               (Py.split "/" target) seen1 in
                         match inner with
                         | Resolved a p seen2 =>
                             walk a p rest'
                               (((absolute, newpath), Some (a, p)) :: seen2)
                         | Unresolved text =>
                             Unresolved (posix_join text (Py.join "/" rest'))
                         | NulByte => NulByte
                         | TooDeep => TooDeep
                         end
                     end
                 end
             end
     end) absolute path rest seen.

(** [os.path.realpath(p)]: the walk from the empty path, then
    [abspath]. *)
Definition realpath (fs : FileSystem) (p : Path) : Py.outcome Path :=
  let absolute := negb (bool_decide (path_anchor p = Relative)) in
  match joinrealpath fs (recursion_limit fs) absolute [] (parts p) [] with
  | Resolved a path _ =>
      Py.Return (mkPath Root (absolute_components fs a path))
  | Unresolved text =>
      Py.Return
        (if Py.startswith text "/" then
           let (a, rel) := splitroot text in
           mkPath a (normal_components [] (Py.split "/" rel))
         else mkPath Root (normal_components (cwd fs) (Py.split "/" text)))
  | NulByte => Py.Raise embedded_null_byte
  | TooDeep => Py.Raise (Py.RecursionError "maximum recursion depth exceeded")
  end.

(** The error of [resolve] for a path that [os.stat] refuses with
    [ELOOP]. *)
Definition symlink_loop (p : Path) : Py.exn :=
  Py.RuntimeError ("Symlink loop from " ++ Py.repr (to_string p)).

(** [p.resolve()]: [realpath], then a [stat] of the result, whose [ELOOP]
    becomes a [RuntimeError]; its other errors are passed over. *)
Definition resolve (fs : FileSystem) (p : Path) : Py.outcome Path :=
  match realpath fs p with
  | Py.Raise e => Py.Raise e
  | Py.Return s =>
      if has_nul (parts s) then Py.Raise embedded_null_byte
      else
        match stat fs (parts s) with
        | Loop => Py.Raise (symlink_loop s)
        | _ => Py.Return s
        end
  end.

(** [p.exists()], [p.is_dir()], [p.is_file()] on an absolute path: false
    for what is missing, for a link loop and for a path with a NUL byte;
    another error of [os.stat] is raised. *)
Definition exists_ (fs : FileSystem) (p : Path) : Py.outcome bool :=
  if has_nul (parts p) then Py.Return false
  else
    match stat fs (parts p) with
    | Found _ => Py.Return true
    | Missing | Loop => Py.Return false
    | Failed errno => Py.Raise (Py.OSError errno)
    end.

Definition is_dir (fs : FileSystem) (p : Path) : Py.outcome bool :=
  if has_nul (parts p) then Py.Return false
  else
    match stat fs (parts p) with
    | Found Directory => Py.Return true
    | Found _ | Missing | Loop => Py.Return false
    | Failed errno => Py.Raise (Py.OSError errno)
    end.

Definition is_file (fs : FileSystem) (p : Path) : Py.outcome bool :=
  if has_nul (parts p) then Py.Return false
  else
    match stat fs (parts p) with
    | Found RegularFile => Py.Return true
    | Found _ | Missing | Loop => Py.Return false
    | Failed errno => Py.Raise (Py.OSError errno)
    end.

(** [p.iterdir()], run to its end: the children as paths, or the error of
    [os.listdir]. *)
Definition iterdir (fs : FileSystem) (p : Path) : Py.outcome (list Path) :=
  match listdir fs (parts p) with
  | Py.Raise e => Py.Raise e
  | Py.Return names =>
      Py.Return
        (List.map (fun n => mkPath (path_anchor p) (parts p ++ [n])) names)
  end.

End PathLib.

(** ** Program state and the sequencing of effects *)

(** A progress record, as [ProgressStore.set] writes it. *)
Record ProgressRecord := mkRecord {
  position : float;
  duration : float;
  played : bool
}.

(** The text of [progress.json] as the store leaves it, or as a write that
    was cut short leaves it, seen through [json.loads]: a [Document] is a
    text that [json.loads] reads as the given mapping (the type the code
    declares for it, and what [json.dumps] wrote); [Blank] is the empty
    text or white space only; [Malformed] is any other text that
    [json.loads] rejects with [JSONDecodeError]. *)
Inductive file_content :=
| Blank
| Malformed
| Document (data : gmap string ProgressRecord).

(** What else can be found at the path of [progress.json] when the file
    is damaged: bytes that are not UTF-8, which [read_text] rejects with
    [UnicodeDecodeError], and a text on which [json.loads] raises an
    exception [e] of its own ([RecursionError] for brackets nested too
    deep, [ValueError] for a number with too many digits). *)
Inductive disk_content :=
| Held (c : file_content)
| Undecodable (reason : string)
| Rejected (e : Py.exn).

(** [os.urandom]: the bytes the system hands out, and how many were taken. *)
Record Entropy := mkEntropy {
  source : nat -> ascii;
  cursor : nat
}.

(** What a request can read and change: its session, the progress file
    ([None]: the file does not exist) and the entropy pool.  The progress
    file is one that the store can have left; what the store does with
    any other file is [ProgressStore.load_file]. *)
Record State := mkState {
  session : gmap string Py.value;
  progress_file : option file_content;
  entropy : Entropy
}.

(** A computation that may change the state and may raise. *)
Definition M (A : Type) : Type := State -> Py.outcome A * State.

Definition ret {A} (a : A) : M A := fun st => (Py.Return a, st).

Definition raise {A} (e : Py.exn) : M A := fun st => (Py.Raise e, st).

Definition bind {A B} (m : M A) (k : A -> M B) : M B :=
  fun st =>
    match m st with
    | (Py.Return a, st') => k a st'
    | (Py.Raise e, st') => (Py.Raise e, st')
    end.

Notation "x <- m ;; k" := (bind m (fun x => k))
  (at level 100, m at next level, right associativity).
Notation "m ;;; k" := (bind m (fun _ => k))
  (at level 100, right associativity).

(** Lifts the outcome of a call that reads no state. *)
Definition lift {A} (o : Py.outcome A) : M A := fun st => (o, st).

(** ** ProgressStore *)
Module ProgressStore.

Definition read_file : M (option file_content) :=
  fun st => (Py.Return (progress_file st), st).

Definition write_file (c : file_content) : M unit :=
  fun st => (Py.Return tt,
             mkState (session st) (Some c) (entropy st)).

(** [storage_path.read_text(encoding="utf-8")]. *)
Definition read_text (f : disk_content) : Py.outcome disk_content :=
  match f with
  | Undecodable reason => Py.Raise (Py.UnicodeDecodeError reason)
  | _ => Py.Return f
  end.

(** [not content.strip()]: the text is empty or white space.  What
    [json.dumps] writes starts with a brace. *)
Definition is_blank (content : disk_content) : bool :=
  match content with
  | Held Blank => true
  | _ => false
  end.

(** [json.loads(content)]. *)
Definition json_loads (content : disk_content)
    : Py.outcome (gmap string ProgressRecord) :=
  match content with
  | Held (Document data) => Py.Return data
  | Held _ => Py.Raise (Py.JSONDecodeError "Expecting value")
  | Undecodable reason => Py.Raise (Py.UnicodeDecodeError reason)
  | Rejected e => Py.Raise e
  end.

(** [json.dumps(data, indent=2)]. *)
Definition json_dumps (data : gmap string ProgressRecord) : file_content :=
  Document data.

(** The body of [_load], for what is at the storage path ([None]: nothing
    is). *)
Definition load_file (file : option disk_content)
    : Py.outcome (gmap string ProgressRecord) :=
  match file with
  | None => Py.Return ∅
  | Some f =>
      Py.try_except_JSONDecodeError
        match read_text f with
        | Py.Raise e => Py.Raise e
        | Py.Return content =>
            if is_blank content then Py.Return ∅ else json_loads content
        end
        (Py.Return ∅)
  end.

Definition _load : M (gmap string ProgressRecord) :=
  file <- read_file ;;
  lift (load_file (Held <$> file)).

Definition _save (data : gmap string ProgressRecord) : M unit :=
  write_file (json_dumps data).

Definition get (key : string) : M (option ProgressRecord) :=
  data <- _load ;;
  ret (data !! key).

Definition set (key : string) (position duration : float) (played : bool)
    : M unit :=
  let payload := mkRecord position duration played in
  data <- _load ;;
  _save (<[key := payload]> data).

End ProgressStore.

(** ** The application *)

Import PathLib.

(** What the process is started with and the library calls whose results
    the handlers only pass on or compare: the media tree, [MEDIA_ROOT]
    (resolved at start-up), [AUTH_PASSWORD], [urllib.parse.quote] and
    [unquote], [mimetypes.guess_type], and [str.lower] on the name of a
    file, with the case mapping of Unicode. *)
Record Deployment := mkDeployment {
  media_tree : FileSystem;
  MEDIA_ROOT : Path;
  AUTH_PASSWORD : string;
  quote : string -> string;
  unquote : string -> string;
  guess_type : string -> option string;
  str_lower : string -> string
}.

Definition AUDIO_EXTENSIONS : list string :=
  [".mp3"; ".wav"; ".ogg"; ".m4a"; ".flac"; ".aac"; ".opus"].

Definition CSRF_SESSION_KEY : string := "csrf_token".

(** The request line: where the application is served, the path and the
    query string. *)
Record Request := mkRequest {
  base_url : string;
  url_path : string;
  url_query : string
}.

(** [request.url_for(name)]. *)
Definition url_for (request : Request) (route : string) : string :=
  base_url request ++
  (if String.eqb route "login" then "/login"
   else if String.eqb route "logout" then "/logout"
   else "/").

Record ProgressPayload := mkPayload {
  file : string;
  payload_position : float;
  payload_duration : float
}.

Record DirectoryEntry := mkDirectoryEntry {
  dir_name : string;
  dir_path : string
}.

Record AudioEntry := mkAudioEntry {
  audio_name : string;
  audio_path : string;
  audio_played : bool
}.

(** The dict [list_directory] returns. *)
Record Listing := mkListing {
  directories : list DirectoryEntry;
  audio_files : list AudioEntry
}.

(** Template contexts, without the request. *)
Inductive Context :=
| LoginContext (next_path : string) (error : option string)
    (csrf_token : Py.value)
| IndexContext (current_path : string) (breadcrumbs : list DirectoryEntry)
    (listing : Listing) (parent_path : option string) (media_root : string)
    (csrf_token : Py.value).

Inductive Response :=
| TemplateResponse (template : string) (context : Context) (status_code : Z)
| RedirectResponse (url : string) (status_code : Z)
| JSONProgress (position duration : float) (played : bool)
| JSONStatus (status : string) (position duration : float) (played : bool)
| FileResponse (path : Path) (media_type : option string) (filename : string)
    (headers : list (string * string)).

(** *** Session and entropy *)

Definition session_get (key : string) : M (option Py.value) :=
  fun st => (Py.Return (session st !! key), st).

Definition session_set (key : string) (v : Py.value) : M unit :=
  fun st => (Py.Return tt,
             mkState (<[key := v]> (session st)) (progress_file st) (entropy st)).

Definition session_pop (key : string) : M unit :=
  fun st => (Py.Return tt,
             mkState (delete key (session st)) (progress_file st) (entropy st)).

Definition session_clear : M unit :=
  fun st => (Py.Return tt, mkState ∅ (progress_file st) (entropy st)).

(** [secrets.token_bytes(n)]: the next [n] bytes of the pool. *)
Definition token_bytes (n : nat) : M (list ascii) :=
  fun st =>
    let e := entropy st in
    (Py.Return (List.map (source e) (List.seq (cursor e) n)),
     mkState (session st) (progress_file st)
             (mkEntropy (source e) (cursor e + n))).

(** [secrets.token_urlsafe(n)]. *)
Definition token_urlsafe (n : nat) : M string :=
  tok <- token_bytes n ;;
  ret (Py.urlsafe_b64encode_nopad tok).

Definition ensure_csrf_token : M Py.value :=
  token <- session_get CSRF_SESSION_KEY ;;
  if negb (Py.truthy_opt token) then
    fresh <- token_urlsafe 32 ;;
    session_set CSRF_SESSION_KEY (Py.VStr fresh) ;;;
    ret (Py.VStr fresh)
  else ret (default Py.VNone token).

(** [secrets.compare_digest(a, b)] with [a] a str: a [TypeError] (here
    [None]) unless [b] is a str and both are ASCII. *)
Definition compare_digest (a : string) (b : Py.value) : option bool :=
  match b with
  | Py.VStr b' =>
      if Py.isascii a && Py.isascii b' then Some (String.eqb a b') else None
  | _ => None
  end.

Definition validate_csrf_token (token : string) : M bool :=
  expected <- session_get CSRF_SESSION_KEY ;;
  if negb (Py.truthy_opt expected) || String.eqb token "" then ret false
  else
    match compare_digest token (default Py.VNone expected) with
    | Some b => ret b
    | None => ret false
    end.

Definition is_authenticated : M bool :=
  flag <- session_get "authenticated" ;;
  ret (Py.truthy_opt flag).

Definition login_redirect (env : Deployment) (request : Request) : Response :=
  let login_url := url_for request "login" in
  let location :=
    if String.eqb (url_query request) "" then url_path request
    else (url_path request ++ "?" ++ url_query request)%string in
  let target := quote env location in
  RedirectResponse (login_url ++ "?next=" ++ target)%string 303.

(** Where a login leads: [next_path] when, unquoted, it starts with a
    slash, and the index otherwise. *)
Definition login_destination (env : Deployment) (request : Request)
    (next_path : string) : string :=
  let destination := url_for request "index" in
  if String.eqb next_path "" then destination
  else
    let candidate := unquote env next_path in
    if Py.startswith candidate "/" then candidate else destination.

(** [GET /login], with [next_path] the query parameter [next] (or [""]). *)
Definition login_page (env : Deployment) (request : Request)
    (next_path : string) : M Response :=
  authed <- is_authenticated ;;
  if authed then
    ret (RedirectResponse (login_destination env request next_path) 303)
  else
    token <- ensure_csrf_token ;;
    ret (TemplateResponse "login.html" (LoginContext next_path None token) 200).

(** [POST /login]. *)
Definition login_submit (env : Deployment) (request : Request)
    (username password csrf_token next_path : string) : M Response :=
  valid <- validate_csrf_token csrf_token ;;
  if negb valid then
    token <- ensure_csrf_token ;;
    ret (TemplateResponse "login.html"
           (LoginContext next_path (Some "Session expired. Please try again.")
              token)
           400)
  else if String.eqb password (AUTH_PASSWORD env) then
    session_set "authenticated" (Py.VBool true) ;;;
    session_pop CSRF_SESSION_KEY ;;;
    ensure_csrf_token ;;;
    ret (RedirectResponse (login_destination env request next_path) 303)
  else
    token <- ensure_csrf_token ;;
    ret (TemplateResponse "login.html"
           (LoginContext next_path (Some "Invalid username or password") token)
           401).

(** [POST /logout]. *)
Definition logout (request : Request) (csrf_token : string) : M Response :=
  valid <- validate_csrf_token csrf_token ;;
  if negb valid then raise (Py.HTTPException 403 "Invalid CSRF token")
  else
    session_clear ;;;
    ret (RedirectResponse (url_for request "login") 303).

(** *** The media tree *)

(** The error of a path that leaves the media root. *)
Definition PathEscape : Py.exn :=
  Py.HTTPException 400 "Requested path is outside the media root".

Definition validate_within_media_root (env : Deployment) (target : Path)
    : Py.outcome Path :=
  match resolve (media_tree env) target with
  | Py.Raise e => Py.Raise e
  | Py.Return resolved =>
      if negb (bool_decide (MEDIA_ROOT env ∈ parents resolved))
         && negb (bool_decide (resolved = MEDIA_ROOT env))
      then Py.Raise PathEscape
      else Py.Return resolved
  end.

(** [suffix.lower() in AUDIO_EXTENSIONS]. *)
Definition is_audio_suffix (suffix : string) : bool :=
  List.existsb (String.eqb (Py.lower suffix)) AUDIO_EXTENSIONS.

(** [not a or not b] for two calls that may raise; the second is made only
    when the first gave [True]. *)
Definition not_both (a b : Py.outcome bool) : Py.outcome bool :=
  match a with
  | Py.Raise e => Py.Raise e
  | Py.Return false => Py.Return true
  | Py.Return true =>
      match b with
      | Py.Raise e => Py.Raise e
      | Py.Return v => Py.Return (negb v)
      end
  end.

(** The sort key of [list_directory]: [(not p.is_dir(), p.name.lower())]. *)
Definition entry_key (env : Deployment) (p : Path)
    : Py.outcome (bool * string) :=
  match is_dir (media_tree env) p with
  | Py.Raise e => Py.Raise e
  | Py.Return d => Py.Return (negb d, str_lower env (name p))
  end.

(** The keys that [sorted] computes, one for each item and in order,
    before it compares any. *)
Fixpoint entry_keys (env : Deployment) (ps : list Path)
    : Py.outcome (list ((bool * string) * Path)) :=
  match ps with
  | [] => Py.Return []
  | p :: rest =>
      match entry_key env p with
      | Py.Raise e => Py.Raise e
      | Py.Return k =>
          match entry_keys env rest with
          | Py.Raise e => Py.Raise e
          | Py.Return ks => Py.Return ((k, p) :: ks)
          end
      end
  end.

(** [sorted(ps, key=lambda p: (not p.is_dir(), p.name.lower()))]. *)
Definition sorted_entries (env : Deployment) (ps : list Path)
    : Py.outcome (list Path) :=
  match entry_keys env ps with
  | Py.Raise e => Py.Raise e
  | Py.Return ks => Py.Return (List.map snd (Py.sorted fst Py.pair_lt ks))
  end.

(** The loop of [list_directory] over the sorted entries. *)
Fixpoint list_directory_loop (env : Deployment) (entries : list Path)
    (directories : list DirectoryEntry) (audio_files : list AudioEntry)
    : M Listing :=
  match entries with
  | [] => ret (mkListing directories audio_files)
  | entry :: rest =>
      if Py.startswith (name entry) "." then
        list_directory_loop env rest directories audio_files
      else
        match relative_to entry (MEDIA_ROOT env) with
        | None => raise (Py.ValueError "not in the subpath of the media root")
        | Some rel =>
            let rel_path := to_string rel in
            d <- lift (is_dir (media_tree env) entry) ;;
            if d then
              list_directory_loop env rest
                (directories ++ [mkDirectoryEntry (name entry) rel_path])
                audio_files
            else
              f <- lift (is_file (media_tree env) entry) ;;
              if f && is_audio_suffix (suffix entry) then
                progress <- ProgressStore.get rel_path ;;
                let played :=
                  match progress with
                  | Some r => played r
                  | None => false
                  end in
                list_directory_loop env rest directories
                  (audio_files ++ [mkAudioEntry (name entry) rel_path played])
              else list_directory_loop env rest directories audio_files
        end
  end.

Definition list_directory (env : Deployment) (relative_path : string)
    : M Listing :=
  directory <- lift (validate_within_media_root env
                       (joinpath (MEDIA_ROOT env) relative_path)) ;;
  absent <- lift (not_both (exists_ (media_tree env) directory)
                    (is_dir (media_tree env) directory)) ;;
  if absent then raise (Py.HTTPException 404 "Directory not found")
  else
    found <- lift (iterdir (media_tree env) directory) ;;
    entries <- lift (sorted_entries env found) ;;
    list_directory_loop env entries [] [].

Definition get_audio_file (env : Deployment) (relative_path : string)
    : Py.outcome Path :=
  match validate_within_media_root env
          (joinpath (MEDIA_ROOT env) relative_path) with
  | Py.Raise e => Py.Raise e
  | Py.Return file_path =>
      match not_both (exists_ (media_tree env) file_path)
              (is_file (media_tree env) file_path) with
      | Py.Raise e => Py.Raise e
      | Py.Return true => Py.Raise (Py.HTTPException 404 "Audio file not found")
      | Py.Return false =>
          if negb (is_audio_suffix (suffix file_path))
          then Py.Raise (Py.HTTPException 400 "Unsupported file type")
          else Py.Return file_path
      end
  end.

(** [Path(s).parts]: the anchor, when there is one, then the components. *)
Definition parts_with_anchor (p : Path) : list string :=
  match path_anchor p with
  | Relative => parts p
  | Root => "/" :: parts p
  | DoubleRoot => "//" :: parts p
  end.

(** The loop of [breadcrumb]. *)
Fixpoint breadcrumb_loop (accumulator : Path) (ps : list string)
    : list DirectoryEntry :=
  match ps with
  | [] => []
  | part :: rest =>
      let accumulator := joinpath accumulator part in
      mkDirectoryEntry part (to_string accumulator)
      :: breadcrumb_loop accumulator rest
  end.

Definition breadcrumb (relative_path : string) : list DirectoryEntry :=
  if String.eqb relative_path "" then []
  else breadcrumb_loop (mkPath Relative [])
         (parts_with_anchor (parse relative_path)).

(** [p.parent]. *)
Definition parent (p : Path) : Path :=
  mkPath (path_anchor p) (removelast (parts p)).

(** *** Routes behind the login *)

Definition not_authenticated : Py.exn :=
  Py.HTTPException 401 "Not authenticated".

(** [GET /]. *)
Definition index (env : Deployment) (request : Request) (path : string)
    : M Response :=
  authed <- is_authenticated ;;
  if negb authed then ret (login_redirect env request)
  else
    directory_data <- list_directory env path ;;
    let parent_path :=
      if String.eqb path "" then None
      else
        let parent_str := to_string (parent (parse path)) in
        Some (if String.eqb parent_str "." then "" else parent_str) in
    let media_root :=
      if String.eqb (name (MEDIA_ROOT env)) "" then to_string (MEDIA_ROOT env)
      else name (MEDIA_ROOT env) in
    token <- ensure_csrf_token ;;
    ret (TemplateResponse "index.html"
           (IndexContext path (breadcrumb path) directory_data parent_path
              media_root token)
           200).

(** [GET /media]. *)
Definition media (env : Deployment) (path : string) : M Response :=
  authed <- is_authenticated ;;
  if negb authed then raise not_authenticated
  else
    file_path <- lift (get_audio_file env path) ;;
    let media_type := guess_type env (to_string file_path) in
    ret (FileResponse file_path media_type (name file_path)
           [("Accept-Ranges", "bytes")]).

(** The error of [json.dumps(..., allow_nan=False)]. *)
Definition out_of_range : Py.exn :=
  Py.ValueError "Out of range float values are not JSON compliant".

(** [JSONResponse(content)]: the body is rendered when the response is
    made, and a float that is a NaN or an infinity is refused. *)
Definition JSONResponse (content : Response) : Py.outcome Response :=
  match content with
  | JSONProgress position duration _
  | JSONStatus _ position duration _ =>
      if Py.isfinite position && Py.isfinite duration then Py.Return content
      else Py.Raise out_of_range
  | _ => Py.Return content
  end.

(** [GET /api/progress]. *)
Definition get_progress (env : Deployment) (file : string) : M Response :=
  authed <- is_authenticated ;;
  if negb authed then raise not_authenticated
  else
    lift (get_audio_file env file) ;;;
    progress <- ProgressStore.get file ;;
    match progress with
    | None => lift (JSONResponse (JSONProgress 0 0 false))
    | Some r =>
        lift (JSONResponse (JSONProgress (position r) (duration r) (played r)))
    end.

(** [POST /api/progress]. *)
Definition set_progress (env : Deployment) (payload : ProgressPayload)
    : M Response :=
  authed <- is_authenticated ;;
  if negb authed then raise not_authenticated
  else
    lift (get_audio_file env (file payload)) ;;;
    let position := Py.max (payload_position payload) 0 in
    let duration := Py.max (payload_duration payload) 0 in
    existing <- ProgressStore.get (file payload) ;;
    let played :=
      match existing with
      | Some r => played r
      | None => false
      end in
    let (position, played) :=
      if Py.float_gt duration 0 && Py.float_ge position (duration * 0.95)
      then (0%float, true)
      else (position, played) in
    ProgressStore.set (file payload) position duration played ;;;
    lift (JSONResponse (JSONStatus "ok" position duration played)).

(** *** A sequence of progress updates *)

(** Serves the [POST /api/progress] requests of [payloads] one after the
    other; the responses are dropped. *)
Fixpoint serve_updates (env : Deployment) (payloads : list ProgressPayload)
    (st : State) : State :=
  match payloads with
  | [] => st
  | payload :: rest => serve_updates env rest (snd (set_progress env payload st))
  end.

(** *** Start-up configuration *)

(** [f"{n}"] for an int. *)
Definition format_int (n : Z) : string := NilZero.string_of_int (Z.to_int n).

Definition must_be_set (name : string) : Py.exn :=
  Py.RuntimeError ("Environment variable " ++ name ++ " must be set.")%string.

Definition too_short (name : string) (min_length : Z) : Py.exn :=
  Py.RuntimeError
    ("Environment variable " ++ name ++ " must be at least "
     ++ format_int min_length ++ " characters.")%string.

(** [require_env(name, min_length=...)], with [environ] what [os.getenv]
    reads. *)
Definition require_env (environ : gmap string string) (name : string)
    (min_length : option Z) : Py.outcome string :=
  match environ !! name with
  | None => Py.Raise (must_be_set name)
  | Some value =>
      if String.eqb value "" then Py.Raise (must_be_set name)
      else
        match min_length with
        | Some n =>
            if (Z.of_nat (Py.len value) <? n)%Z
            then Py.Raise (too_short name n)
            else Py.Return value
        | None => Py.Return value
        end
  end.

(** [env_bool(name, default)]. *)
Definition env_bool (environ : gmap string string) (name : string)
    (default : bool) : bool :=
  match environ !! name with
  | None => default
  | Some value =>
      List.existsb (String.eqb (Py.lower (Py.strip value)))
        ["1"; "true"; "yes"; "on"]
  end.

(** The two secrets read when the module is loaded: [SECRET_KEY], then
    [AUTH_PASSWORD]. *)
Definition load_secrets (environ : gmap string string)
    : Py.outcome (string * string) :=
  match require_env environ "PLAYER_SECRET_KEY" (Some 32%Z) with
  | Py.Raise e => Py.Raise e
  | Py.Return secret_key =>
      match require_env environ "PLAYER_PASSWORD" (Some 8%Z) with
      | Py.Raise e => Py.Raise e
      | Py.Return auth_password => Py.Return (secret_key, auth_password)
      end
  end.

(** [SECURE_COOKIES], and the warning issued when it is off. *)
Definition SECURE_COOKIES (environ : gmap string string) : bool :=
  env_bool environ "PLAYER_SECURE_COOKIES" true.

Definition startup_warnings (environ : gmap string string) : list string :=
  if negb (SECURE_COOKIES environ) then
    ["PLAYER_SECURE_COOKIES is disabled; session cookies will not be marked secure."]
  else [].

(** ** Notions the properties are stated with *)

(** [a] is a proper ancestor of [p]: same anchor, and the components of [p]
    are those of [a] followed by at least one more. *)
Definition is_proper_ancestor (a p : Path) : Prop :=
  path_anchor a = path_anchor p
  /\ exists c rest, parts p = parts a ++ c :: rest.

(** The mapping a state's progress file stands for. *)
Definition stored (st : State) : gmap string ProgressRecord :=
  match progress_file st with
  | Some (Document data) => data
  | _ => ∅
  end.

(** Whether the store holds a record for [key] that is marked played:
    [bool(existing.get("played"))] of [set_progress]. *)
Definition was_played (st : State) (key : string) : bool :=
  match stored st !! key with
  | Some r => played r
  | None => false
  end.

(** Whether the session carries the authenticated flag. *)
Definition authenticated (st : State) : bool :=
  Py.truthy_opt (session st !! "authenticated").

(** The token the next [secrets.token_urlsafe(32)] yields: the base64 text
    of the next 32 bytes of the pool. *)
Definition next_token (st : State) : string :=
  Py.urlsafe_b64encode_nopad
    (List.map (source (entropy st)) (List.seq (cursor (entropy st)) 32)).

(** The state after 32 bytes were taken and the token was put in the
    session. *)
Definition with_minted_token (st : State) : State :=
  mkState (<[CSRF_SESSION_KEY := Py.VStr (next_token st)]> (session st))
    (progress_file st)
    (mkEntropy (source (entropy st)) (cursor (entropy st) + 32)).

(** The CSRF token a rendered form carries. *)
Definition form_token (r : Py.outcome Response) : option Py.value :=
  match r with
  | Py.Return (TemplateResponse _ (LoginContext _ _ token) _) => Some token
  | Py.Return (TemplateResponse _ (IndexContext _ _ _ _ _ token) _) => Some token
  | _ => None
  end.


(** The state right after a successful login: the flag is set, the old
    token is dropped and a new one is minted. *)
Definition after_login (st : State) : State :=
  with_minted_token
    (mkState (delete CSRF_SESSION_KEY
                (<["authenticated" := Py.VBool true]> (session st)))
       (progress_file st) (entropy st)).


(** Whether a call returned [True]. *)
Definition gives_true (o : Py.outcome bool) : bool :=
  match o with
  | Py.Return true => true
  | _ => false
  end.

(** An entry that can be looked at: [os.stat] raises nothing that
    [is_dir] and [is_file] let through. *)
Definition examinable (env : Deployment) (e : Path) : Prop :=
  exists d, is_dir (media_tree env) e = Py.Return d.

(** The sort key of an entry that can be looked at. *)
Definition key_of (env : Deployment) (e : Path) : bool * string :=
  (negb (gives_true (is_dir (media_tree env) e)), str_lower env (name e)).

(** What [list_directory] shows of an entry: entries whose name starts
    with a dot are skipped, directories are listed, and so are regular files
    with an audio suffix. *)
Definition hidden (e : Path) : bool := Py.startswith (name e) ".".

Definition listed_as_directory (env : Deployment) (e : Path) : bool :=
  negb (hidden e) && gives_true (is_dir (media_tree env) e).

Definition listed_as_audio (env : Deployment) (e : Path) : bool :=
  negb (hidden e) && negb (gives_true (is_dir (media_tree env) e))
  && (gives_true (is_file (media_tree env) e) && is_audio_suffix (suffix e)).

(** [str(entry.relative_to(MEDIA_ROOT))]. *)
Definition rel_path_of (env : Deployment) (e : Path) : string :=
  match relative_to e (MEDIA_ROOT env) with
  | Some rel => to_string rel
  | None => ""
  end.

Definition directory_entry (env : Deployment) (e : Path) : DirectoryEntry :=
  mkDirectoryEntry (name e) (rel_path_of env e).

Definition audio_entry (env : Deployment) (st : State) (e : Path) : AudioEntry :=
  mkAudioEntry (name e) (rel_path_of env e) (was_played st (rel_path_of env e)).

(** [a] does not come after [b] when the names are compared in lower
    case: [not (b.lower() < a.lower())]. *)
Definition name_le (env : Deployment) (a b : string) : Prop :=
  Py.str_lt (str_lower env b) (str_lower env a) = false.

(** The listing that the loop of [list_directory] builds from the entries,
    given which paths the store marks as played. *)
Fixpoint listing_from (env : Deployment) (played_of : string -> bool)
    (entries : list Path) (directories : list DirectoryEntry)
    (audio_files : list AudioEntry) : Py.outcome Listing :=
  match entries with
  | [] => Py.Return (mkListing directories audio_files)
  | entry :: rest =>
      if Py.startswith (name entry) "." then
        listing_from env played_of rest directories audio_files
      else
        match relative_to entry (MEDIA_ROOT env) with
        | None => Py.Raise (Py.ValueError "not in the subpath of the media root")
        | Some rel =>
            let rel_path := to_string rel in
            match is_dir (media_tree env) entry with
            | Py.Raise e => Py.Raise e
            | Py.Return true =>
                listing_from env played_of rest
                  (directories ++ [mkDirectoryEntry (name entry) rel_path])
                  audio_files
            | Py.Return false =>
                match is_file (media_tree env) entry with
                | Py.Raise e => Py.Raise e
                | Py.Return f =>
                    if f && is_audio_suffix (suffix entry) then
                      listing_from env played_of rest directories
                        (audio_files
                         ++ [mkAudioEntry (name entry) rel_path
                               (played_of rel_path)])
                    else listing_from env played_of rest directories audio_files
                end
            end
        end
  end.


(** A media tree without symbolic links, in which [os.stat] therefore
    never meets a loop. *)
Definition link_free (fs : FileSystem) : Prop :=
  (forall q, readlink fs q = None) /\ (forall q, stat fs q <> Loop).




(** [x] does not come after [y] in the order of their keys. *)
Definition not_after {A K : Type} (key : A -> K) (lt : K -> K -> bool)
    (x y : A) : Prop :=
  lt (key y) (key x) = false.

(** The calls of the store's interface, and their effect on the state. *)
Inductive store_call :=
| CallGet (key : string)
| CallSet (key : string) (position duration : float) (played : bool).

Definition run_store_call (c : store_call) (st : State) : State :=
  match c with
  | CallGet key => snd (ProgressStore.get key st)
  | CallSet key position duration played =>
      snd (ProgressStore.set key position duration played st)
  end.

Definition call_key (c : store_call) : string :=
  match c with
  | CallGet key => key
  | CallSet key _ _ _ => key
  end.

(** The same state with another progress file, the same deployment with
    another media tree. *)
Definition with_progress_file (st : State) (f : option file_content) : State :=
  mkState (session st) f (entropy st).

Definition with_media_tree (env : Deployment) (t : FileSystem) : Deployment :=
  mkDeployment t (MEDIA_ROOT env) (AUTH_PASSWORD env) (quote env) (unquote env)
    (guess_type env) (str_lower env).

(** No stored record has a position or a duration below zero. *)
Definition nonnegative_store (st : State) : Prop :=
  forall (k : string) (r : ProgressRecord),
    stored st !! k = Some r ->
    PrimFloat.ltb (position r) 0 = false /\ PrimFloat.ltb (duration r) 0 = false.

(** A path component as parsing leaves it: not empty, not [.], no slash. *)
Definition clean_component (w : string) : Prop :=
  Py.has_char "/" w = false /\ keep_component w = true.

(** Whether a text is white space only. *)
Fixpoint all_space (s : string) : bool :=
  match s with
  | EmptyString => true
  | String c s' => Py.isspace c && all_space s'
  end.

(** ** A small deployment to run the definitions on *)
Module Demo.

(** [/srv/media] holds [B.wav], [.hidden.mp3], [sub/], [a.mp3] and
    [.vault/], in that order; [.vault] cannot be read and nothing below it
    can be looked at ([EACCES]).  [sub] holds [out], a link to [/etc], then
    [notes.txt], [c.MP3], [inner/], and [loopa] and [loopb], two links to
    each other.  [/etc] holds [passwd] and [secret.mp3]. *)
Definition tree_stat (p : list string) : stat_result :=
  if bool_decide (p = []) then Found Directory
  else if bool_decide (p = ["srv"]) then Found Directory
  else if bool_decide (p = ["etc"]) then Found Directory
  else if bool_decide (p = ["etc"; "passwd"]) then Found RegularFile
  else if bool_decide (p = ["etc"; "secret.mp3"]) then Found RegularFile
  else if bool_decide (p = ["srv"; "media"]) then Found Directory
  else if bool_decide (p = ["srv"; "media"; "B.wav"]) then Found RegularFile
  else if bool_decide (p = ["srv"; "media"; ".hidden.mp3"]) then Found RegularFile
  else if bool_decide (p = ["srv"; "media"; "sub"]) then Found Directory
  else if bool_decide (p = ["srv"; "media"; "a.mp3"]) then Found RegularFile
  else if bool_decide (p = ["srv"; "media"; ".vault"]) then Found Directory
  else if bool_decide (p = ["srv"; "media"; ".vault"; "x.mp3"]) then Failed 13
  else if bool_decide (p = ["srv"; "media"; "sub"; "c.MP3"]) then Found RegularFile
  else if bool_decide (p = ["srv"; "media"; "sub"; "notes.txt"]) then Found RegularFile
  else if bool_decide (p = ["srv"; "media"; "sub"; "inner"]) then Found Directory
  else if bool_decide (p = ["srv"; "media"; "sub"; "out"]) then Found Directory
  else if bool_decide (p = ["srv"; "media"; "sub"; "out"; "passwd"]) then Found RegularFile
  else if bool_decide (p = ["srv"; "media"; "sub"; "out"; "secret.mp3"]) then Found RegularFile
  else if bool_decide (p = ["srv"; "media"; "sub"; "loopa"]) then Loop
  else if bool_decide (p = ["srv"; "media"; "sub"; "loopb"]) then Loop
  else if bool_decide (p = ["srv"; "media"; "sub"; "loopa"; "x.mp3"]) then Loop
  else Missing.

Definition tree_readlink (p : list string) : option string :=
  if bool_decide (p = ["srv"; "media"; "sub"; "out"]) then Some "/etc"
  else if bool_decide (p = ["srv"; "media"; "sub"; "loopa"]) then Some "loopb"
  else if bool_decide (p = ["srv"; "media"; "sub"; "loopb"]) then Some "loopa"
  else None.

Definition tree_listdir (p : list string) : Py.outcome (list string) :=
  if bool_decide (p = ["srv"; "media"]) then
    Py.Return ["B.wav"; ".hidden.mp3"; "sub"; "a.mp3"; ".vault"]
  else if bool_decide (p = ["srv"; "media"; "sub"]) then
    Py.Return ["out"; "notes.txt"; "c.MP3"; "inner"; "loopa"; "loopb"]
  else if bool_decide (p = ["srv"; "media"; "sub"; "inner"]) then Py.Return []
  else if bool_decide (p = ["etc"]) then Py.Return ["passwd"; "secret.mp3"]
  else if bool_decide (p = ["srv"; "media"; ".vault"]) then Py.Raise (Py.OSError 13)
  else Py.Raise (Py.OSError 2).

Definition tree : FileSystem :=
  mkFS ["srv"] tree_readlink tree_stat tree_listdir 900.

Definition env : Deployment :=
  mkDeployment tree (mkPath Root ["srv"; "media"]) "correct horse"
    (fun s => s) (fun s => s) (fun _ => Some "audio/mpeg") Py.lower.

Definition pool : Entropy := mkEntropy (fun i => ascii_of_nat i) 0.

(** A session that has not logged in, one that has, and no progress file. *)
Definition anonymous : State := mkState ∅ None pool.

Definition logged_in : State :=
  mkState {[ "authenticated" := Py.VBool true ]} None pool.

Definition request : Request := mkRequest "http://player.test" "/" "path=sub".

(** The anonymous session after [GET /login] gave it a token. *)
Definition at_login_form : State := with_minted_token anonymous.

(** The same deployment on a tree without links. *)
Definition plain_stat (p : list string) : stat_result :=
  match tree_stat p with
  | Loop => Missing
  | r => r
  end.

Definition plain_tree : FileSystem :=
  mkFS ["srv"] (fun _ => None) plain_stat tree_listdir 900.


Definition plain_env : Deployment := with_media_tree env plain_tree.

End Demo.

(** * Verification *)

(** ** Path confinement *)
Section Confinement.
Context (env : Deployment).

Lemma firstn_proper_prefix (l : list string) (k : nat) :
  (k < List.length l)%nat ->
  exists c rest, l = firstn k l ++ c :: rest.
Proof.
  intros Hk.
  destruct (skipn k l) as [|c rest] eqn:Hskip.
  - apply (f_equal (@List.length string)) in Hskip.
    rewrite List.length_skipn in Hskip. simpl in Hskip. lia.
  - exists c, rest. rewrite <- Hskip. symmetry. apply firstn_skipn.
Qed.

(** [a in p.parents] says that [a] is a proper ancestor of [p]. *)
Lemma parents_spec (a p : Path) :
  a ∈ parents p <-> is_proper_ancestor a p.
Proof.
  rewrite list_elem_of_In. unfold parents. rewrite in_map_iff. split.
  - intros (k & <- & Hin). rewrite <- in_rev in Hin.
    apply in_seq in Hin. split; [reflexivity|]. simpl.
    apply firstn_proper_prefix. lia.
  - intros [Hanchor (c & rest & Hparts)].
    exists (List.length (parts a)). split.
    + destruct a as [aa ap]. simpl in *. subst aa. f_equal.
      rewrite Hparts. rewrite firstn_app, Nat.sub_diag, firstn_all.
      simpl. apply app_nil_r.
    + rewrite <- in_rev. apply in_seq. rewrite Hparts, length_app. simpl. lia.
Qed.

(** Once the target resolves, the check keeps it exactly when it is the
    root or below the root. *)
Lemma validate_resolved (target resolved : Path) :
  resolve (media_tree env) target = Py.Return resolved ->
  (resolved = MEDIA_ROOT env \/ is_proper_ancestor (MEDIA_ROOT env) resolved ->
   validate_within_media_root env target = Py.Return resolved)
  /\ (resolved <> MEDIA_ROOT env ->
      ~ is_proper_ancestor (MEDIA_ROOT env) resolved ->
      validate_within_media_root env target = Py.Raise PathEscape).
Proof.
  intros Hres. unfold validate_within_media_root. rewrite Hres.
  rewrite <- parents_spec.
  destruct (bool_decide (MEDIA_ROOT env ∈ parents resolved)) eqn:Hin;
    destruct (bool_decide (resolved = MEDIA_ROOT env)) eqn:Heq; simpl;
    repeat match goal with
           | H : bool_decide _ = true |- _ => apply bool_decide_eq_true in H
           | H : bool_decide _ = false |- _ => apply bool_decide_eq_false in H
           end;
    split; try reflexivity; tauto.
Qed.

(** What the check returns is the resolved target, at or below the root. *)
Lemma validate_return_inv (target resolved : Path) :
  validate_within_media_root env target = Py.Return resolved ->
  resolve (media_tree env) target = Py.Return resolved
  /\ (resolved = MEDIA_ROOT env \/ is_proper_ancestor (MEDIA_ROOT env) resolved).
Proof.
  unfold validate_within_media_root.
  destruct (resolve (media_tree env) target) as [r|]; [|discriminate].
  destruct (bool_decide (MEDIA_ROOT env ∈ parents r)) eqn:Hin;
    destruct (bool_decide (r = MEDIA_ROOT env)) eqn:Heq; simpl;
    try discriminate; intros H; injection H as <-; (split; [reflexivity|]).
  - right. apply parents_spec. eapply bool_decide_eq_true_1. exact Hin.
  - right. apply parents_spec. eapply bool_decide_eq_true_1. exact Hin.
  - left. eapply bool_decide_eq_true_1. exact Heq.
Qed.



(** *** Trees without links *)

Lemma normal_components_app (stack a b : list string) :
  normal_components stack (a ++ b)
  = normal_components (normal_components stack a) b.
Proof.
  revert stack. induction a as [|c a IH]; intros stack; simpl; [reflexivity|].
  destruct (keep_component c); cbn [negb]; [|apply IH].
  destruct (String.eqb c ".."); apply IH.
Qed.

Lemma has_nul_app (a b : list string) :
  has_nul (a ++ b) = has_nul a || has_nul b.
Proof. unfold has_nul. apply existsb_app. Qed.

Lemma has_nul_removelast (a : list string) :
  has_nul a = false -> has_nul (removelast a) = false.
Proof.
  induction a as [|c a IH]; [reflexivity|].
  intros H. change (c :: a) with ([c] ++ a) in H. rewrite has_nul_app in H.
  apply orb_false_iff in H. destruct H as [Hc Ha].
  destruct a as [|d a]; [reflexivity|].
  change (removelast (c :: d :: a)) with ([c] ++ removelast (d :: a)).
  rewrite has_nul_app, Hc. apply IH. exact Ha.
Qed.

Lemma has_nul_normal (stack rest : list string) :
  has_nul stack = false -> has_nul rest = false ->
  has_nul (normal_components stack rest) = false.
Proof.
  revert stack. induction rest as [|c rest IH]; intros stack Hs Hr; simpl;
    [exact Hs|].
  change (c :: rest) with ([c] ++ rest) in Hr. rewrite has_nul_app in Hr.
  apply orb_false_iff in Hr. destruct Hr as [Hc Hr].
  destruct (keep_component c); cbn [negb]; [|apply IH; assumption].
  destruct (String.eqb c "..").
  - apply IH; [apply has_nul_removelast; exact Hs|exact Hr].
  - apply IH; [rewrite has_nul_app, Hs, Hc; reflexivity|exact Hr].
Qed.

Section Plain.
Context (fs : FileSystem).
Hypothesis no_links : forall q, readlink fs q = None.

(** Without links the walk is the one of [normpath]. *)
Lemma joinrealpath_plain (depth : nat) (path rest : list string)
    (seen : link_cache) :
  has_nul path = false -> has_nul rest = false ->
  joinrealpath fs depth true path rest seen
  = Resolved true (normal_components path rest) seen.
Proof.
  revert path. induction rest as [|c rest IH]; intros path Hp Hr.
  - destruct depth; reflexivity.
  - change (c :: rest) with ([c] ++ rest) in Hr. rewrite has_nul_app in Hr.
    apply orb_false_iff in Hr. destruct Hr as [Hc Hr].
    pose proof (IH path Hp Hr) as IHskip.
    pose proof (IH (removelast path) (has_nul_removelast _ Hp) Hr) as IHup.
    assert (Hnew : has_nul (path ++ [c]) = false)
      by (rewrite has_nul_app, Hp, Hc; reflexivity).
    pose proof (IH (path ++ [c]) Hnew Hr) as IHdown.
    destruct depth; simpl in *;
      destruct (keep_component c); cbn [negb]; try exact IHskip;
      destruct (String.eqb c ".."); try exact IHup;
      rewrite Hnew, no_links; exact IHdown.
Qed.

(** A NUL byte in a component stops the walk. *)
Lemma joinrealpath_nul (depth : nat) (path rest : list string)
    (seen : link_cache) :
  has_nul path = false -> has_nul rest = true ->
  joinrealpath fs depth true path rest seen = NulByte.
Proof.
  revert path. induction rest as [|c rest IH]; intros path Hp Hr;
    [discriminate|].
  change (c :: rest) with ([c] ++ rest) in Hr. rewrite has_nul_app in Hr.
  destruct (keep_component c) eqn:Hkeep.
  - destruct (String.eqb_spec c "..") as [->|Hdots].
    + pose proof (IH (removelast path) (has_nul_removelast _ Hp) Hr) as IHup.
      destruct depth; simpl in *; exact IHup.
    + apply String.eqb_neq in Hdots.
      destruct (has_nul [c]) eqn:Hc.
      * assert (Hnew : has_nul (path ++ [c]) = true)
          by (rewrite has_nul_app, Hc; apply orb_true_r).
        destruct depth; simpl in *; rewrite Hkeep, Hdots, Hnew; reflexivity.
      * assert (Hnew : has_nul (path ++ [c]) = false)
          by (rewrite has_nul_app, Hp, Hc; reflexivity).
        pose proof (IH (path ++ [c]) Hnew Hr) as IHdown.
        destruct depth; simpl in *;
          rewrite Hkeep, Hdots, Hnew, no_links; exact IHdown.
  - assert (Hc : has_nul [c] = false).
    { unfold keep_component in Hkeep. apply andb_false_iff in Hkeep.
      destruct Hkeep as [H|H]; apply negb_false_iff, String.eqb_eq in H;
        subst c; reflexivity. }
    rewrite Hc in Hr. pose proof (IH path Hp Hr) as IHskip.
    destruct depth; simpl in *; rewrite Hkeep; exact IHskip.
Qed.

(** Whatever the start, a walk without links ends resolved or at a NUL
    byte. *)
Lemma joinrealpath_no_links (depth : nat) (absolute : bool)
    (path rest : list string) (seen : link_cache) :
  joinrealpath fs depth absolute path rest seen = NulByte
  \/ exists q, joinrealpath fs depth absolute path rest seen
               = Resolved absolute q seen.
Proof.
  revert path. induction rest as [|c rest IH]; intros path.
  - right. exists path. destruct depth; reflexivity.
  - pose proof (IH path) as IHskip.
    pose proof (IH (updir absolute path)) as IHup.
    pose proof (IH (path ++ [c])) as IHdown.
    destruct depth; simpl in *;
      destruct (keep_component c); cbn [negb]; try exact IHskip;
      destruct (String.eqb c ".."); try exact IHup;
      (destruct (has_nul (path ++ [c])); [left; reflexivity|]);
      rewrite no_links; exact IHdown.
Qed.

Hypothesis no_loops : forall q, stat fs q <> Loop.

(** Without links what resolves starts at the root. *)
Lemma resolve_plain_anchor (p r : Path) :
  resolve fs p = Py.Return r -> path_anchor r = Root.
Proof.
  unfold resolve, realpath.
  destruct (joinrealpath_no_links (recursion_limit fs)
              (negb (bool_decide (path_anchor p = Relative))) [] (parts p) [])
    as [->|[q ->]]; [discriminate|].
  cbn [parts]. destruct (has_nul _); [discriminate|].
  destruct (stat fs _); intros [= <-]; reflexivity.
Qed.

(** Without links [resolve] is [normpath], and refuses a NUL byte. *)
Lemma resolve_plain (p : Path) :
  path_anchor p <> Relative ->
  resolve fs p
  = if has_nul (parts p) then Py.Raise embedded_null_byte
    else Py.Return (mkPath Root (normal_components [] (parts p))).
Proof.
  intros Hanchor. unfold resolve, realpath.
  rewrite bool_decide_eq_false_2 by exact Hanchor. cbn [negb].
  destruct (has_nul (parts p)) eqn:Hnul.
  - rewrite joinrealpath_nul by (reflexivity || exact Hnul). reflexivity.
  - rewrite joinrealpath_plain by (reflexivity || exact Hnul).
    cbn [absolute_components parts].
    rewrite has_nul_normal by (reflexivity || exact Hnul).
    pose proof (no_loops (normal_components [] (parts p))) as Hloop.
    destruct (stat fs _); try reflexivity. contradiction.
Qed.
End Plain.

Lemma strip_prefix_app (q r : list string) : strip_prefix q (q ++ r) = Some r.
Proof.
  induction q as [|c q IH]; simpl; [destruct r; reflexivity|].
  rewrite String.eqb_refl. exact IH.
Qed.



(** *** Trees with links: what is resolved is canonical *)
Section Canonical.
Context (fs : FileSystem).





End Canonical.


End Confinement.


(** With the links of the demo tree: [../../etc/passwd] leaves the root,
    and so do an anchored path and a link that points outside; a link loop
    is an error, and so is a NUL byte.  A path that goes into the loop and
    leaves it through [..] is resolved no further: it passes the check with
    the link [out] still in it, and [GET /media] serves what that link
    leads to. *)
Example confinement_with_links :
  validate_within_media_root Demo.env
    (joinpath (MEDIA_ROOT Demo.env) "../../etc/passwd") = Py.Raise PathEscape
  /\ validate_within_media_root Demo.env
       (joinpath (MEDIA_ROOT Demo.env) "/etc/passwd") = Py.Raise PathEscape
  /\ validate_within_media_root Demo.env
       (joinpath (MEDIA_ROOT Demo.env) "sub/out/secret.mp3") = Py.Raise PathEscape
  /\ validate_within_media_root Demo.env
       (joinpath (MEDIA_ROOT Demo.env) "sub/loopa/x.mp3")
     = Py.Raise (Py.RuntimeError "Symlink loop from '/srv/media/sub/loopa/x.mp3'")
  /\ validate_within_media_root Demo.env
       (joinpath (MEDIA_ROOT Demo.env) (String "000" ".mp3"))
     = Py.Raise (Py.ValueError "embedded null byte")
  /\ validate_within_media_root Demo.env
       (joinpath (MEDIA_ROOT Demo.env) "sub/loopa/../out/secret.mp3")
     = Py.Return (mkPath Root ["srv"; "media"; "sub"; "out"; "secret.mp3"])
  /\ joinrealpath Demo.tree (recursion_limit Demo.tree) true []
       (parts (joinpath (MEDIA_ROOT Demo.env) "sub/loopa/../out/secret.mp3")) []
     = Unresolved "/srv/media/sub/loopa/../out/secret.mp3"
  /\ readlink Demo.tree ["srv"; "media"; "sub"; "out"] = Some "/etc"
  /\ fst (media Demo.env "sub/loopa/../out/secret.mp3" Demo.logged_in)
     = Py.Return
         (FileResponse (mkPath Root ["srv"; "media"; "sub"; "out"; "secret.mp3"])
            (Some "audio/mpeg") "secret.mp3" [("Accept-Ranges", "bytes")]).
Proof. repeat split; vm_compute; reflexivity. Qed.

(** ** The progress store *)
Section Store.

(** [_load] always returns, and gives the mapping the file stands for. *)
Lemma load_returns (st : State) :
  ProgressStore._load st = (Py.Return (stored st), st).
Proof.
  unfold ProgressStore._load, bind, ProgressStore.read_file, lift, stored.
  destruct (progress_file st) as [[| |data]|]; reflexivity.
Qed.

Lemma get_returns (key : string) (st : State) :
  ProgressStore.get key st = (Py.Return (stored st !! key), st).
Proof.
  unfold ProgressStore.get, bind. rewrite load_returns. reflexivity.
Qed.

Lemma set_returns (key : string) (pos dur : float) (pl : bool) (st : State) :
  ProgressStore.set key pos dur pl st =
    (Py.Return tt,
     with_progress_file st
       (Some (Document (<[key := mkRecord pos dur pl]> (stored st))))).
Proof.
  unfold ProgressStore.set, bind. rewrite load_returns. reflexivity.
Qed.

Lemma stored_with_document (st : State) (data : gmap string ProgressRecord) :
  stored (with_progress_file st (Some (Document data))) = data.
Proof. reflexivity. Qed.

Lemma stored_after_set (key : string) (pos dur : float) (pl : bool) (st : State) :
  stored (snd (ProgressStore.set key pos dur pl st))
  = <[key := mkRecord pos dur pl]> (stored st).
Proof. rewrite set_returns. reflexivity. Qed.

Lemma stored_after_call_other (c : store_call) (key : string) (st : State) :
  call_key c <> key ->
  stored (run_store_call c st) !! key = stored st !! key.
Proof.
  intros Hne. destruct c as [k|k pos dur pl]; simpl in *.
  - rewrite get_returns. reflexivity.
  - rewrite stored_after_set. apply lookup_insert_ne. exact Hne.
Qed.

(** C3. [set(k, pos, dur, played)] returns, and a [get(k)] right after it
    returns exactly the record [{pos, dur, played}], whatever the store held
    before; calls for other keys in between do not change that. *)
Theorem set_get_roundtrip (st : State) (k : string) (pos dur : float)
    (pl : bool) :
  let st' := snd (ProgressStore.set k pos dur pl st) in
  fst (ProgressStore.set k pos dur pl st) = Py.Return tt
  /\ ProgressStore.get k st' = (Py.Return (Some (mkRecord pos dur pl)), st')
  /\ forall others : list store_call,
       Forall (fun c => call_key c <> k) others ->
       fst (ProgressStore.get k (foldl (fun s c => run_store_call c s) st' others))
       = Py.Return (Some (mkRecord pos dur pl)).
Proof.
  intros st'. subst st'. split; [|split].
  - rewrite set_returns. reflexivity.
  - rewrite get_returns, stored_after_set, lookup_insert_eq. reflexivity.
  - intros others Hothers.
    assert (Hinv : forall s,
               stored s !! k = Some (mkRecord pos dur pl) ->
               stored (foldl (fun s c => run_store_call c s) s others) !! k
               = Some (mkRecord pos dur pl)).
    { induction Hothers as [|c others Hc _ IH]; intros s Hs; simpl.
      - exact Hs.
      - apply IH. rewrite stored_after_call_other by exact Hc. exact Hs. }
    rewrite get_returns. simpl. f_equal. apply Hinv.
    rewrite stored_after_set. apply lookup_insert_eq.
Qed.

(** C6. [_load] gives the empty mapping for a file that is missing, for a
    blank one and for a text on which [json.loads] raises
    [JSONDecodeError], and for nothing else that is broken: bytes that are
    not UTF-8 make [read_text] raise [UnicodeDecodeError], and on some texts
    [json.loads] raises another exception ([RecursionError] for brackets
    nested too deep, [ValueError] for a number with too many digits); both
    happen inside the [try] block, the [except] clause does not name them,
    and [_load] raises them to its caller. *)
Theorem load_lets_other_errors_through :
  ProgressStore.load_file (Some (Undecodable "invalid start byte"))
  = Py.Raise (Py.UnicodeDecodeError "invalid start byte")
  /\ (forall reason,
        ProgressStore.load_file (Some (Undecodable reason))
        = Py.Raise (Py.UnicodeDecodeError reason))
  /\ (forall e,
        (forall message, e <> Py.JSONDecodeError message) ->
        ProgressStore.load_file (Some (Rejected e)) = Py.Raise e)
  /\ (forall message,
        ProgressStore.load_file (Some (Rejected (Py.JSONDecodeError message)))
        = Py.Return ∅)
  /\ ProgressStore.load_file None = Py.Return ∅
  /\ ProgressStore.load_file (Some (Held Blank)) = Py.Return ∅
  /\ ProgressStore.load_file (Some (Held Malformed)) = Py.Return ∅
  /\ (forall data,
        ProgressStore.load_file (Some (Held (Document data))) = Py.Return data).
Proof.
  repeat split.
  intros e Hother. cbn.
  destruct e; try reflexivity. exfalso. eapply Hother. reflexivity.
Qed.

(** The text of 100000 opening brackets, on which [json.loads] raises
    [RecursionError]. *)
Lemma load_lets_other_errors_through_witness :
  let too_deep :=
    Py.RecursionError
      "maximum recursion depth exceeded while decoding a JSON array from a unicode string" in
  ProgressStore.load_file (Some (Rejected too_deep)) = Py.Raise too_deep.
Proof.
  apply load_lets_other_errors_through. discriminate.
Defined.

(** A blank file and a text that does not parse, in a state of the store:
    [_load] gives the empty mapping, [get] finds nothing and [set] writes
    the mapping that holds just the new record. *)
Example corrupt_file_examples :
  Forall (fun content =>
            let st := mkState ∅ (Some content) Demo.pool in
            ProgressStore._load st = (Py.Return ∅, st)
            /\ ProgressStore.get "a.mp3" st = (Py.Return None, st)
            /\ ProgressStore.set "a.mp3" 1 2 false st
               = (Py.Return tt,
                  mkState ∅ (Some (Document {[ "a.mp3" := mkRecord 1 2 false ]}))
                    Demo.pool))
         [Blank; Malformed].
Proof. repeat constructor. Qed.

(** C9. [set(k, ...)] leaves the record of every other key as it was and
    removes no key: the keys of the mapping [_load] returns afterwards are
    the old keys and [k].  No call of the store's interface makes a key
    disappear. *)
Theorem set_frame (st : State) (k : string) (pos dur : float) (pl : bool) :
  let st' := snd (ProgressStore.set k pos dur pl st) in
  (forall s, ProgressStore._load s = (Py.Return (stored s), s))
  /\ (forall k', k' <> k ->
      fst (ProgressStore.get k' st') = fst (ProgressStore.get k' st))
  /\ dom (stored st') = {[ k ]} ∪ dom (stored st)
  /\ forall (calls : list store_call) (s : State),
       dom (stored s) ⊆ dom (stored (foldl (fun s c => run_store_call c s) s calls)).
Proof.
  intros st'. subst st'. split; [exact load_returns|].
  rewrite stored_after_set. split; [|split].
  - intros k' Hne. rewrite !get_returns, stored_after_set. cbn [fst].
    f_equal. apply lookup_insert_ne. congruence.
  - apply dom_insert_L.
  - induction calls as [|c calls IH]; intros s; simpl; [reflexivity|].
    etransitivity; [|apply IH].
    destruct c as [key|key p d b]; simpl.
    + rewrite get_returns. reflexivity.
    + rewrite stored_after_set, dom_insert_L. set_solver.
Qed.
End Store.

(** ** Progress updates *)
Section Progress.
Context (env : Deployment).

Lemma is_authenticated_returns (st : State) :
  is_authenticated st = (Py.Return (authenticated st), st).
Proof. reflexivity. Qed.

(** What [POST /api/progress] stores and answers once the session is
    authenticated and the file is an audio file under the root: the record
    is written first, and the answer is refused afterwards when one of its
    numbers is not finite. *)
Lemma set_progress_stores (payload : ProgressPayload) (st : State) (p : Path) :
  authenticated st = true ->
  get_audio_file env (file payload) = Py.Return p ->
  let position := Py.max (payload_position payload) 0 in
  let duration := Py.max (payload_duration payload) 0 in
  let fired :=
    Py.float_gt duration 0 && Py.float_ge position (duration * 0.95) in
  let position' := if fired then 0%float else position in
  let played' := if fired then true else was_played st (file payload) in
  set_progress env payload st =
    (JSONResponse (JSONStatus "ok" position' duration played'),
     with_progress_file st
       (Some (Document (<[file payload := mkRecord position' duration played']>
                          (stored st))))).
Proof.
  intros Hauth Hfile. cbv zeta.
  unfold set_progress, bind at 1. rewrite is_authenticated_returns, Hauth.
  cbn [negb]. unfold bind at 1, lift. rewrite Hfile.
  unfold bind at 1. rewrite get_returns. fold (was_played st (file payload)).
  destruct (Py.float_gt _ _ && _); unfold bind; rewrite set_returns;
    reflexivity.
Qed.

(** A request that is turned away leaves the state as it was. *)
Lemma set_progress_refused (payload : ProgressPayload) (st : State) :
  authenticated st = false \/ (exists e, get_audio_file env (file payload) = Py.Raise e) ->
  exists e, set_progress env payload st = (Py.Raise e, st).
Proof.
  intros [Hauth|[e Hfile]].
  - exists not_authenticated. unfold set_progress, bind.
    rewrite is_authenticated_returns, Hauth. reflexivity.
  - destruct (authenticated st) eqn:Hauth.
    + exists e. unfold set_progress, bind at 1.
      rewrite is_authenticated_returns, Hauth. cbn [negb].
      unfold bind, lift. rewrite Hfile. reflexivity.
    + exists not_authenticated. unfold set_progress, bind.
      rewrite is_authenticated_returns, Hauth. reflexivity.
Qed.

(** One update never clears the played flag of any key. *)
Lemma set_progress_keeps_played (payload : ProgressPayload) (st : State)
    (k : string) :
  was_played st k = true ->
  was_played (snd (set_progress env payload st)) k = true.
Proof.
  intros Hplayed.
  destruct (authenticated st) eqn:Hauth.
  2:{ destruct (set_progress_refused payload st) as [e ->]; auto. }
  destruct (get_audio_file env (file payload)) as [p|e] eqn:Hfile.
  2:{ destruct (set_progress_refused payload st) as [e' ->]; eauto. }
  rewrite (set_progress_stores payload st p Hauth Hfile). cbn [snd].
  unfold was_played at 1. rewrite stored_with_document.
  destruct (decide (file payload = k)) as [->|Hne].
  - rewrite lookup_insert_eq. simpl. rewrite Hplayed.
    destruct (Py.float_gt _ _ && _); reflexivity.
  - rewrite lookup_insert_ne by exact Hne. exact Hplayed.
Qed.

Lemma serve_updates_keeps_played (later : list ProgressPayload) (st : State)
    (k : string) :
  was_played st k = true -> was_played (serve_updates env later st) k = true.
Proof.
  revert st. induction later as [|payload later IH]; intros st Hplayed; simpl.
  - exact Hplayed.
  - apply IH. apply set_progress_keeps_played. exact Hplayed.
Qed.

(** C2. An accepted update with duration 100 stores [{0, 100, true}] when
    the position is 96, and [{50, 100, false}] when the position is 50 and
    the key was not played before.  Once a key is played, an accepted update
    for it stores [played = true] whatever position it reports, and the flag
    stays set through any later sequence of updates. *)
Theorem progress_update_policy (payload : ProgressPayload) (st : State)
    (p : Path)
    (Hauth : authenticated st = true)
    (Hfile : get_audio_file env (file payload) = Py.Return p)
    (Hdur : payload_duration payload = 100%float) :
  let st' := snd (set_progress env payload st) in
  (payload_position payload = 96%float ->
   fst (ProgressStore.get (file payload) st')
   = Py.Return (Some (mkRecord 0 100 true)))
  /\ (payload_position payload = 50%float ->
      was_played st (file payload) = false ->
      fst (ProgressStore.get (file payload) st')
      = Py.Return (Some (mkRecord 50 100 false)))
  /\ (was_played st (file payload) = true ->
      exists pos,
        fst (ProgressStore.get (file payload) st')
        = Py.Return (Some (mkRecord pos 100 true)))
  /\ (forall (later : list ProgressPayload) (s : State) (k : string),
        was_played s k = true ->
        was_played (serve_updates env later s) k = true).
Proof.
  intros st'. subst st'.
  rewrite (set_progress_stores payload st p Hauth Hfile).
  cbn [snd]. rewrite get_returns. cbn [fst].
  rewrite stored_with_document, lookup_insert_eq, Hdur.
  repeat split.
  - intros ->. reflexivity.
  - intros -> ->. reflexivity.
  - intros ->. destruct (Py.float_gt _ _ && _); eexists; reflexivity.
  - intros later s k. apply serve_updates_keeps_played.
Qed.

(** A duration that is not above zero stays so after [max(duration, 0.0)]. *)
Lemma max_nonpositive (d : float) :
  PrimFloat.leb d 0 = true -> Py.float_gt (Py.max d 0) 0 = false.
Proof.
  unfold Py.max, Py.float_gt. intros Hle.
  destruct (PrimFloat.ltb d 0) eqn:Hlt; [reflexivity|].
  rewrite leb_spec in Hle. rewrite ltb_spec.
  change (Prim2SF 0) with (S754_zero false) in *.
  destruct (Prim2SF d) as [s|s| |s m e]; try destruct s;
    cbv [SFleb SFltb SFcompare] in *; congruence.
Qed.

(** Such a duration is zero after [max(duration, 0.0)], and so finite. *)
Lemma max_nonpositive_finite (d : float) :
  PrimFloat.leb d 0 = true -> Py.isfinite (Py.max d 0) = true.
Proof.
  unfold Py.max, Py.float_gt, Py.isfinite. intros Hle.
  destruct (PrimFloat.ltb d 0) eqn:Hlt; [reflexivity|].
  unfold is_finite, is_nan, is_infinity.
  rewrite !FloatAxioms.eqb_spec, FloatAxioms.abs_spec.
  rewrite FloatAxioms.leb_spec in Hle. rewrite FloatAxioms.ltb_spec in Hlt.
  change (Prim2SF 0) with (S754_zero false) in *.
  change (Prim2SF infinity) with (S754_infinity false).
  destruct (Prim2SF d) as [s|s| |s m e]; try destruct s;
    cbv [SFleb SFltb SFcompare] in Hle, Hlt; try congruence; reflexivity.
Qed.

(** C10. An accepted update whose duration is not above zero never marks
    the file played: the stored flag is the one stored before (false
    without a record), the stored position is [max(position, 0)], not reset,
    and the stored duration is [max(duration, 0)].  The answer carries the
    same values when the position is finite; when it is a NaN or an
    infinity the record is stored all the same and the response is refused
    with a [ValueError].  The guard [duration > 0] decides this: with
    duration 0 the comparison [position >= duration * 0.95] holds for every
    position that is not below zero. *)
Theorem nonpositive_duration_keeps_flag (payload : ProgressPayload)
    (st : State) (p : Path)
    (Hauth : authenticated st = true)
    (Hfile : get_audio_file env (file payload) = Py.Return p)
    (Hdur : PrimFloat.leb (payload_duration payload) 0 = true) :
  let st' := snd (set_progress env payload st) in
  let position := Py.max (payload_position payload) 0 in
  let duration := Py.max (payload_duration payload) 0 in
  fst (ProgressStore.get (file payload) st')
    = Py.Return (Some (mkRecord position duration (was_played st (file payload))))
  /\ fst (set_progress env payload st)
     = (if Py.isfinite position
        then Py.Return (JSONStatus "ok" position duration
                          (was_played st (file payload)))
        else Py.Raise out_of_range)
  /\ Py.float_gt duration 0 = false
  /\ forall pos : float,
       PrimFloat.leb 0 pos = true -> Py.float_ge pos (0 * 0.95) = true.
Proof.
  intros st' position duration. subst st'.
  pose proof (max_nonpositive _ Hdur) as Hguard. fold duration in Hguard.
  pose proof (max_nonpositive_finite _ Hdur) as Hfinite.
  fold duration in Hfinite.
  rewrite (set_progress_stores payload st p Hauth Hfile).
  cbn [fst snd]. rewrite get_returns. cbn [fst].
  rewrite stored_with_document, lookup_insert_eq.
  fold position duration. rewrite Hguard. cbn [andb JSONResponse].
  rewrite Hfinite, andb_true_r.
  repeat split. intros pos Hpos. exact Hpos.
Qed.
End Progress.

(** In the demo, a logged-in session reports 96 of 100 for [a.mp3]. *)
Lemma progress_update_policy_witness :
  fst (ProgressStore.get "a.mp3"
         (snd (set_progress Demo.env (mkPayload "a.mp3" 96 100) Demo.logged_in)))
  = Py.Return (Some (mkRecord 0 100 true)).
Proof.
  apply (progress_update_policy Demo.env (mkPayload "a.mp3" 96 100)
           Demo.logged_in (mkPath Root ["srv"; "media"; "a.mp3"])
           eq_refl eq_refl eq_refl).
  reflexivity.
Defined.

(** In the demo, a logged-in session reports 30 of -5 for [a.mp3]. *)
Lemma nonpositive_duration_keeps_flag_witness :
  fst (ProgressStore.get "a.mp3"
         (snd (set_progress Demo.env (mkPayload "a.mp3" 30 (-5)) Demo.logged_in)))
  = Py.Return (Some (mkRecord 30 0 false)).
Proof.
  apply (nonpositive_duration_keeps_flag Demo.env (mkPayload "a.mp3" 30 (-5))
           Demo.logged_in (mkPath Root ["srv"; "media"; "a.mp3"])
           eq_refl eq_refl eq_refl).
Defined.

(** ** Routes that ask for a login *)
Section Gate.
Context (env : Deployment).

Lemma prefix_append (p s : string) : String.prefix p (p ++ s) = true.
Proof.
  induction p as [|c p IH]; simpl.
  - destruct s; reflexivity.
  - destruct (ascii_dec c c); [exact IH|congruence].
Qed.

(** Without the authenticated flag every route behind the login stops at
    its first check. *)
Lemma refused_without_flag (request : Request) (path : string)
    (payload : ProgressPayload) (st : State) :
  authenticated st = false ->
  index env request path st = (Py.Return (login_redirect env request), st)
  /\ media env path st = (Py.Raise not_authenticated, st)
  /\ get_progress env path st = (Py.Raise not_authenticated, st)
  /\ set_progress env payload st = (Py.Raise not_authenticated, st).
Proof.
  intros Hanon.
  unfold index, media, get_progress, set_progress, bind.
  rewrite is_authenticated_returns, Hanon. repeat split.
Qed.

(** C5. When the session lacks the authenticated flag, [GET /] answers with
    a redirect to the login page, and [GET /media], [GET /api/progress] and
    [POST /api/progress] raise the 401 error; the state, and with it the
    progress file, is left as it was, and the outcome is the same whatever
    the media tree and the progress file hold: neither is looked at. *)
Theorem unauthenticated_is_refused (request : Request) (path : string)
    (payload : ProgressPayload) (st : State)
    (Hanon : authenticated st = false) :
  (index env request path st = (Py.Return (login_redirect env request), st)
   /\ exists next,
        login_redirect env request
        = RedirectResponse (url_for request "login" ++ "?next=" ++ next) 303
        /\ Py.startswith (url_for request "login" ++ "?next=" ++ next)
                          (url_for request "login") = true)
  /\ media env path st = (Py.Raise (Py.HTTPException 401 "Not authenticated"), st)
  /\ get_progress env path st
     = (Py.Raise (Py.HTTPException 401 "Not authenticated"), st)
  /\ set_progress env payload st
     = (Py.Raise (Py.HTTPException 401 "Not authenticated"), st)
  /\ forall (tree : FileSystem) (f : option file_content),
       let env' := with_media_tree env tree in
       let st' := with_progress_file st f in
       index env' request path st' = (fst (index env request path st), st')
       /\ media env' path st' = (fst (media env path st), st')
       /\ get_progress env' path st' = (fst (get_progress env path st), st')
       /\ set_progress env' payload st' = (fst (set_progress env payload st), st').
Proof.
  destruct (refused_without_flag request path payload st Hanon)
    as (Hindex & Hmedia & Hget & Hset).
  split; [split|]; [exact Hindex| |].
  - eexists. split; [reflexivity|]. apply prefix_append.
  - split; [exact Hmedia|]. split; [exact Hget|]. split; [exact Hset|].
    intros tree f env' st'.
    rewrite Hindex, Hmedia, Hget, Hset. cbn [fst].
    unfold index, media, get_progress, set_progress, bind.
    rewrite !is_authenticated_returns.
    change (authenticated st') with (authenticated st). rewrite Hanon.
    repeat split.
Qed.
End Gate.

(** An anonymous session of the demo asks for [sub]. *)
Lemma unauthenticated_is_refused_witness :
  index Demo.env Demo.request "sub" Demo.anonymous
  = (Py.Return
       (RedirectResponse "http://player.test/login?next=/?path=sub" 303),
     Demo.anonymous).
Proof.
  apply (unauthenticated_is_refused Demo.env Demo.request "sub"
           (mkPayload "a.mp3" 96 100) Demo.anonymous eq_refl).
Defined.

(** ** CSRF tokens and login *)
Section Csrf.
Context (env : Deployment).

Lemma b64_nonempty (a : ascii) (l : list ascii) :
  Py.urlsafe_b64encode_nopad (a :: l) <> "".
Proof. destruct l as [|b [|c rest]]; discriminate. Qed.

(** A minted token is never the empty string. *)
Lemma next_token_nonempty (st : State) : String.eqb (next_token st) "" = false.
Proof.
  apply String.eqb_neq. unfold next_token.
  change 32%nat with (S 31). cbn [List.seq List.map]. apply b64_nonempty.
Qed.

Lemma ensure_mints (st : State) :
  Py.truthy_opt (session st !! CSRF_SESSION_KEY) = false ->
  ensure_csrf_token st = (Py.Return (Py.VStr (next_token st)), with_minted_token st).
Proof.
  intros Hnone. unfold ensure_csrf_token, bind at 1, session_get.
  rewrite Hnone. reflexivity.
Qed.

Lemma ensure_keeps (st : State) :
  Py.truthy_opt (session st !! CSRF_SESSION_KEY) = true ->
  ensure_csrf_token st
  = (Py.Return (default Py.VNone (session st !! CSRF_SESSION_KEY)), st).
Proof.
  intros Hsome. unfold ensure_csrf_token, bind at 1, session_get.
  rewrite Hsome. reflexivity.
Qed.

Lemma minted_token_stays (st : State) :
  Py.truthy_opt (session (with_minted_token st) !! CSRF_SESSION_KEY) = true.
Proof.
  unfold with_minted_token. cbn [session]. rewrite lookup_insert_eq.
  unfold Py.truthy_opt, Py.truthy. rewrite next_token_nonempty. reflexivity.
Qed.

(** Calling [ensure_csrf_token] again gives the same token and changes
    nothing more. *)
Lemma ensure_idempotent (st : State) :
  ensure_csrf_token (snd (ensure_csrf_token st)) = ensure_csrf_token st.
Proof.
  destruct (Py.truthy_opt (session st !! CSRF_SESSION_KEY)) eqn:Htok.
  - rewrite (ensure_keeps st Htok). cbn [snd]. apply (ensure_keeps st Htok).
  - rewrite (ensure_mints st Htok). cbn [snd].
    rewrite (ensure_keeps _ (minted_token_stays st)).
    unfold with_minted_token at 1. cbn [session].
    rewrite lookup_insert_eq. reflexivity.
Qed.

Lemma validate_returns (token : string) (st : State) :
  exists b, validate_csrf_token token st = (Py.Return b, st).
Proof.
  unfold validate_csrf_token, bind, session_get.
  destruct (negb _ || _); [eexists; reflexivity|].
  destruct (compare_digest _ _); eexists; reflexivity.
Qed.

(** A token passes exactly when it is the non-empty ASCII string the
    session holds. *)
Lemma validate_accepts (token : string) (st : State) :
  fst (validate_csrf_token token st) = Py.Return true <->
  session st !! CSRF_SESSION_KEY = Some (Py.VStr token)
  /\ token <> "" /\ Py.isascii token = true.
Proof.
  unfold validate_csrf_token, bind, session_get.
  destruct (session st !! CSRF_SESSION_KEY) as [[| b | z | e]|] eqn:Hs;
    cbn -[String.eqb Py.isascii].
  1-3, 5: split; [|intros (? & _); discriminate];
    repeat match goal with
           | |- context [if ?c then _ else _] => destruct c
           end; cbn; discriminate.
  destruct (String.eqb e "") eqn:He; cbn -[String.eqb Py.isascii].
  - apply String.eqb_eq in He. subst e. split; [discriminate|].
    intros (Heq & Hne & _). injection Heq as <-. exfalso. apply Hne.
    reflexivity.
  - destruct (String.eqb token "") eqn:Ht; cbn -[String.eqb Py.isascii].
    + apply String.eqb_eq in Ht. split; [discriminate|]. tauto.
    + apply String.eqb_neq in Ht.
      destruct (Py.isascii token) eqn:Ha; cbn -[String.eqb].
      * destruct (Py.isascii e) eqn:Hb; cbn -[String.eqb].
        -- destruct (String.eqb token e) eqn:Hte.
           ++ apply String.eqb_eq in Hte. subst e. tauto.
           ++ apply String.eqb_neq in Hte. split; [discriminate|].
              intros (Heq & _). congruence.
        -- split; [discriminate|]. intros (Heq & _).
           injection Heq as ->. congruence.
      * split; [discriminate|]. intros (_ & _ & ?). discriminate.
Qed.
End Csrf.

(** ** base64 loses nothing *)
Section Base64.





Lemma encode_one (a : ascii) :
  Py.urlsafe_b64encode_nopad [a]
  = String (Py.b64_char (N_of_ascii a / 4))
      (String (Py.b64_char ((N_of_ascii a mod 4) * 16)) EmptyString).
Proof. reflexivity. Qed.

Lemma encode_two (a b : ascii) :
  Py.urlsafe_b64encode_nopad [a; b]
  = let n := (N_of_ascii a * 256 + N_of_ascii b)%N in
    String (Py.b64_char (n / 1024))
      (String (Py.b64_char ((n / 16) mod 64))
         (String (Py.b64_char ((n mod 16) * 4)) EmptyString)).
Proof. reflexivity. Qed.

Lemma encode_three (a b c : ascii) (rest : list ascii) :
  Py.urlsafe_b64encode_nopad (a :: b :: c :: rest)
  = let n := (N_of_ascii a * 65536 + N_of_ascii b * 256 + N_of_ascii c)%N in
    String (Py.b64_char (n / 262144))
      (String (Py.b64_char ((n / 4096) mod 64))
         (String (Py.b64_char ((n / 64) mod 64))
            (String (Py.b64_char (n mod 64))
               (Py.urlsafe_b64encode_nopad rest)))).
Proof. reflexivity. Qed.






(** Lists of bytes, three at a time. *)
Lemma list_ind3 (P : list ascii -> Prop) :
  P [] -> (forall a, P [a]) -> (forall a b, P [a; b]) ->
  (forall a b c l, P l -> P (a :: b :: c :: l)) ->
  forall l, P l.
Proof.
  intros H0 H1 H2 H3 l.
  enough (P l /\ (forall a, P (a :: l)) /\ (forall a b, P (a :: b :: l)))
    by tauto.
  induction l as [|x l (IH0 & IH1 & IH2)]; [auto|].
  repeat split; auto.
Qed.


Lemma get_isascii (s : string) (n : nat) (c : ascii) :
  Py.isascii s = true -> String.get n s = Some c ->
  (nat_of_ascii c <? 128)%nat = true.
Proof.
  revert n. induction s as [|d s IH]; intros n Hs Hget; [discriminate|].
  cbn [Py.isascii] in Hs. apply andb_true_iff in Hs. destruct Hs as [Hd Hs].
  destruct n as [|n]; simpl in Hget.
  - injection Hget as <-. exact Hd.
  - eapply IH; eassumption.
Qed.

Lemma b64_char_isascii (i : N) : (nat_of_ascii (Py.b64_char i) <? 128)%nat = true.
Proof.
  unfold Py.b64_char.
  destruct (String.get (N.to_nat i) Py.b64_alphabet) as [c|] eqn:Hget.
  - eapply get_isascii; [|exact Hget]. vm_compute. reflexivity.
  - vm_compute. reflexivity.
Qed.

(** The base64 text of any bytes is ASCII. *)
Lemma urlsafe_b64encode_isascii (l : list ascii) :
  Py.isascii (Py.urlsafe_b64encode_nopad l) = true.
Proof.
  induction l as [|a|a b|a b c l IH] using list_ind3.
  - reflexivity.
  - rewrite encode_one. cbn [Py.isascii]. rewrite !b64_char_isascii.
    reflexivity.
  - rewrite encode_two. cbv zeta. cbn [Py.isascii].
    rewrite !b64_char_isascii. reflexivity.
  - rewrite encode_three. cbv zeta. cbn [Py.isascii].
    rewrite !b64_char_isascii, IH. reflexivity.
Qed.
End Base64.

(** ** Login *)
Section Login.
Context (env : Deployment).

Lemma validate_true (token : string) (st : State) :
  fst (validate_csrf_token token st) = Py.Return true ->
  validate_csrf_token token st = (Py.Return true, st).
Proof.
  intros H. destruct (validate_returns token st) as [b Hb].
  rewrite Hb in H |- *. cbn in H. congruence.
Qed.

(** A valid token and the right password: the flag is set and the token
    is replaced by a newly minted one. *)
Lemma login_success (request : Request) (username token next_path : string)
    (st : State) :
  fst (validate_csrf_token token st) = Py.Return true ->
  login_submit env request username (AUTH_PASSWORD env) token next_path st
  = (Py.Return (RedirectResponse (login_destination env request next_path) 303),
     after_login st).
Proof.
  intros Hvalid. unfold login_submit, bind at 1.
  rewrite (validate_true token st Hvalid). cbn [negb].
  rewrite String.eqb_refl.
  unfold bind at 1, session_set. unfold bind at 1, session_pop.
  unfold bind at 1. rewrite ensure_mints.
  - reflexivity.
  - cbn [session]. rewrite lookup_delete_eq. reflexivity.
Qed.

(** A valid token and a wrong password: the form comes back with the token
    the session already holds, and nothing changes. *)
Lemma login_failure (request : Request)
    (username password token next_path : string) (st : State) :
  fst (validate_csrf_token token st) = Py.Return true ->
  password <> AUTH_PASSWORD env ->
  login_submit env request username password token next_path st
  = (Py.Return
       (TemplateResponse "login.html"
          (LoginContext next_path (Some "Invalid username or password")
             (Py.VStr token))
          401),
     st).
Proof.
  intros Hvalid Hwrong. unfold login_submit, bind at 1.
  rewrite (validate_true token st Hvalid). cbn [negb].
  apply String.eqb_neq in Hwrong. rewrite Hwrong.
  apply validate_accepts in Hvalid. destruct Hvalid as (Hs & Hne & _).
  unfold bind. rewrite ensure_keeps.
  - rewrite Hs. reflexivity.
  - rewrite Hs. cbn. apply String.eqb_neq in Hne. rewrite Hne. reflexivity.
Qed.

(** A token other than the one the session holds is rejected. *)
Lemma validate_rejects_other (old held : string) (st : State) :
  session st !! CSRF_SESSION_KEY = Some (Py.VStr held) ->
  held <> old ->
  validate_csrf_token old st = (Py.Return false, st).
Proof.
  intros Hs Hne. unfold validate_csrf_token, bind, session_get. rewrite Hs.
  cbn -[String.eqb Py.isascii].
  destruct (negb (negb (String.eqb held "")) || String.eqb old "");
    [reflexivity|].
  destruct (Py.isascii old && Py.isascii held); [|reflexivity].
  replace (String.eqb old held) with false; [reflexivity|].
  symmetry. apply String.eqb_neq. congruence.
Qed.

Lemma after_login_token (st : State) :
  session (after_login st) !! CSRF_SESSION_KEY = Some (Py.VStr (next_token st)).
Proof.
  unfold after_login, with_minted_token. cbn [session]. apply lookup_insert_eq.
Qed.

Lemma after_login_flag (st : State) : authenticated (after_login st) = true.
Proof.
  unfold authenticated, after_login, with_minted_token. cbn [session].
  rewrite lookup_insert_ne by discriminate.
  rewrite lookup_delete_ne by discriminate.
  rewrite lookup_insert_eq. reflexivity.
Qed.




(** C8, as the code has it. A login with a valid CSRF token and a wrong
    password renders the login form again with status 401 and the message
    "Invalid username or password", the same for every username; the form
    carries the token the session held before the attempt, and the session
    is left as it was: the token is not replaced. *)
Theorem failed_login_keeps_token (request : Request)
    (username password token next_path : string) (st : State)
    (Hvalid : fst (validate_csrf_token token st) = Py.Return true)
    (Hwrong : password <> AUTH_PASSWORD env) :
  let result := login_submit env request username password token next_path st in
  fst result
  = Py.Return
      (TemplateResponse "login.html"
         (LoginContext next_path (Some "Invalid username or password")
            (Py.VStr token))
         401)
  /\ snd result = st
  /\ form_token (fst result) = session st !! CSRF_SESSION_KEY
  /\ forall other : string,
       fst (login_submit env request other password token next_path st)
       = fst result.
Proof.
  intros result. subst result.
  rewrite (login_failure request username password token next_path st Hvalid Hwrong).
  cbn [fst snd form_token]. repeat split.
  - apply validate_accepts in Hvalid. destruct Hvalid as (Hs & _). symmetry.
    exact Hs.
  - intros other.
    rewrite (login_failure request other password token next_path st Hvalid Hwrong).
    reflexivity.
Qed.
End Login.



(** In the demo the session that saw the login form sends a wrong password. *)
Lemma failed_login_keeps_token_witness :
  form_token
    (fst (login_submit Demo.env Demo.request "reader" "guess"
            (next_token Demo.anonymous) "" Demo.at_login_form))
  = session Demo.at_login_form !! CSRF_SESSION_KEY.
Proof.
  apply (failed_login_keeps_token Demo.env Demo.request "reader" "guess"
           (next_token Demo.anonymous) "" Demo.at_login_form).
  - vm_compute. reflexivity.
  - discriminate.
Defined.

(** C8 as stated fails: after a failed login with a valid token the form
    carries the very token the session held before, not a different one. *)
Lemma failed_login_token_is_not_fresh :
  let st := Demo.at_login_form in
  let token := next_token Demo.anonymous in
  fst (validate_csrf_token token st) = Py.Return true
  /\ "guess" <> AUTH_PASSWORD Demo.env
  /\ session st !! CSRF_SESSION_KEY = Some (Py.VStr token)
  /\ fst (login_submit Demo.env Demo.request "reader" "guess" token "" st)
     = Py.Return
         (TemplateResponse "login.html"
            (LoginContext "" (Some "Invalid username or password")
               (Py.VStr token))
            401)
  /\ ~ (exists fresh,
          form_token
            (fst (login_submit Demo.env Demo.request "reader" "guess" token "" st))
          = Some fresh
          /\ Some fresh <> session st !! CSRF_SESSION_KEY).
Proof.
  cbv zeta. split; [vm_compute; reflexivity|]. split; [discriminate|].
  split; [vm_compute; reflexivity|]. split; [vm_compute; reflexivity|].
  intros (fresh & Hform & Hdiff). apply Hdiff. rewrite <- Hform.
  vm_compute. reflexivity.
Qed.

(** ** Sorting *)
Section SortedFacts.
Context {A K : Type} (key : A -> K) (lt : K -> K -> bool).

Hypothesis lt_asym : forall a b, lt a b = true -> lt b a = false.
Hypothesis not_after_trans :
  forall a b c, lt b a = false -> lt c b = false -> lt c a = false.

Lemma insert_by_perm (x : A) (l : list A) :
  Permutation (Py.insert_by key lt x l) (x :: l).
Proof.
  induction l as [|y l IH]; simpl; [reflexivity|].
  destruct (lt (key y) (key x)); [|reflexivity].
  rewrite IH. apply perm_swap.
Qed.

Lemma sorted_perm (l : list A) : Permutation (Py.sorted key lt l) l.
Proof.
  induction l as [|x l IH]; simpl; [reflexivity|].
  rewrite insert_by_perm, IH. reflexivity.
Qed.

Lemma insert_by_sorted (x : A) (l : list A) :
  StronglySorted (not_after key lt) l ->
  StronglySorted (not_after key lt) (Py.insert_by key lt x l).
Proof.
  induction 1 as [|y l Hsorted IH Hall]; simpl.
  - repeat constructor.
  - destruct (lt (key y) (key x)) eqn:Hyx.
    + constructor; [exact IH|].
      eapply Permutation_Forall; [symmetry; apply insert_by_perm|].
      constructor; [|exact Hall].
      unfold not_after. apply lt_asym. exact Hyx.
    + constructor; [constructor; assumption|].
      constructor; [exact Hyx|].
      eapply List.Forall_impl; [|exact Hall].
      intros z Hz. unfold not_after in *.
      eapply not_after_trans; eassumption.
Qed.

(** [sorted] gives a list in which no element comes after a later one. *)
Lemma sorted_sorted (l : list A) : StronglySorted (not_after key lt) (Py.sorted key lt l).
Proof.
  induction l as [|x l IH]; simpl; [constructor|].
  apply insert_by_sorted. exact IH.
Qed.

(** Filtering and mapping keep the order. *)
Lemma sorted_filter_map {B : Type} (keep : A -> bool) (f : A -> B)
    (R : B -> B -> Prop) (l : list A) :
  (forall x y, keep x = true -> keep y = true -> not_after key lt x y -> R (f x) (f y)) ->
  StronglySorted (not_after key lt) l ->
  StronglySorted R (List.map f (List.filter keep l)).
Proof.
  intros Himpl. induction 1 as [|x l Hsorted IH Hall]; simpl; [constructor|].
  destruct (keep x) eqn:Hx; [|exact IH].
  simpl. constructor; [exact IH|].
  apply List.Forall_forall. intros b Hb.
  apply in_map_iff in Hb. destruct Hb as (y & <- & Hy).
  apply filter_In in Hy. destruct Hy as [Hy Hkeep].
  apply Himpl; [exact Hx|exact Hkeep|].
  rewrite List.Forall_forall in Hall. apply Hall. exact Hy.
Qed.
End SortedFacts.

(** *** The order of the sort keys *)
Section KeyOrder.

Lemma list_compare_antisym (a b : list N) :
  Py.list_compare b a = CompOpp (Py.list_compare a b).
Proof.
  revert b. induction a as [|x a IH]; intros [|y b]; simpl; try reflexivity.
  rewrite (N.compare_antisym x y).
  destruct (N.compare x y); simpl; [apply IH|reflexivity|reflexivity].
Qed.

Lemma list_compare_eq (a b : list N) : Py.list_compare a b = Eq -> a = b.
Proof.
  revert b. induction a as [|x a IH]; intros [|y b]; simpl;
    try discriminate; [reflexivity|].
  destruct (N.compare_spec x y) as [->| |]; try discriminate.
  intros H. f_equal. apply IH. exact H.
Qed.

Lemma list_compare_trans (a b c : list N) :
  Py.list_compare a b = Lt -> Py.list_compare b c = Lt ->
  Py.list_compare a c = Lt.
Proof.
  revert b c. induction a as [|x a IH]; intros [|y b] [|z c]; simpl;
    try discriminate; auto.
  destruct (N.compare_spec x y) as [Hxy|Hxy|Hxy];
    destruct (N.compare_spec y z) as [Hyz|Hyz|Hyz];
    try discriminate; intros Hab Hbc.
  - subst. rewrite N.compare_refl. eapply IH; eassumption.
  - subst. apply N.compare_lt_iff in Hyz. rewrite Hyz. reflexivity.
  - subst. apply N.compare_lt_iff in Hxy. rewrite Hxy. reflexivity.
  - assert (H : (x < z)%N) by lia.
    apply N.compare_lt_iff in H. rewrite H. reflexivity.
Qed.

Lemma str_lt_asym (a b : string) :
  Py.str_lt a b = true -> Py.str_lt b a = false.
Proof.
  unfold Py.str_lt.
  rewrite (list_compare_antisym (Py.code_points a) (Py.code_points b)).
  destruct (Py.list_compare _ _); simpl; congruence.
Qed.

Lemma str_not_after_trans (a b c : string) :
  Py.str_lt b a = false -> Py.str_lt c b = false -> Py.str_lt c a = false.
Proof.
  unfold Py.str_lt. intros Hba Hcb.
  destruct (Py.list_compare (Py.code_points c) (Py.code_points a)) eqn:Hca;
    try reflexivity. exfalso.
  destruct (Py.list_compare (Py.code_points b) (Py.code_points a)) eqn:Hba';
    try discriminate.
  - apply list_compare_eq in Hba'. rewrite Hba', Hca in Hcb. discriminate.
  - rewrite (list_compare_antisym (Py.code_points a) (Py.code_points b))
      in Hba'.
    destruct (Py.list_compare (Py.code_points a) (Py.code_points b)) eqn:Hab;
      try discriminate.
    rewrite (list_compare_trans _ _ _ Hca Hab) in Hcb. discriminate.
Qed.

Lemma pair_lt_asym (a b : bool * string) :
  Py.pair_lt a b = true -> Py.pair_lt b a = false.
Proof.
  destruct a as [[] x], b as [[] y]; unfold Py.pair_lt; simpl;
    try discriminate; try reflexivity; apply str_lt_asym.
Qed.

Lemma pair_not_after_trans (a b c : bool * string) :
  Py.pair_lt b a = false -> Py.pair_lt c b = false -> Py.pair_lt c a = false.
Proof.
  destruct a as [[] x], b as [[] y], c as [[] z]; unfold Py.pair_lt; simpl;
    try discriminate; try reflexivity; apply str_not_after_trans.
Qed.
End KeyOrder.

(** ** The directory listing *)
Section Catalog.
Context (env : Deployment).

(** The entries of a directory at or below the root have a path relative to
    the root. *)
Lemma entries_under_root (directory e : Path) (found : list Path) :
  directory = MEDIA_ROOT env \/ is_proper_ancestor (MEDIA_ROOT env) directory ->
  iterdir (media_tree env) directory = Py.Return found ->
  In e found ->
  is_Some (relative_to e (MEDIA_ROOT env)).
Proof.
  intros Hunder Hfound Hin. unfold iterdir in Hfound.
  destruct (listdir (media_tree env) (parts directory)) as [names|x];
    [|discriminate].
  injection Hfound as <-. apply in_map_iff in Hin.
  destruct Hin as (n & <- & _). unfold relative_to. cbn [path_anchor parts].
  destruct Hunder as [->|[Hanchor (c & rest & Hparts)]].
  - rewrite decide_True by reflexivity. rewrite strip_prefix_app. eauto.
  - rewrite decide_True by (symmetry; exact Hanchor).
    rewrite Hparts, <- app_assoc, strip_prefix_app. eauto.
Qed.

(** [is_dir], [is_file] and [exists] read the same [os.stat]. *)
Lemma is_dir_is_file (fs : FileSystem) (e : Path) (d : bool) :
  is_dir fs e = Py.Return d -> exists f, is_file fs e = Py.Return f.
Proof.
  unfold is_dir, is_file. destruct (has_nul (parts e)); [eauto|].
  destruct (stat fs (parts e)) as [[]| | |]; try discriminate; eauto.
Qed.

Lemma is_dir_exists (fs : FileSystem) (e : Path) :
  is_dir fs e = Py.Return true -> exists_ fs e = Py.Return true.
Proof.
  unfold is_dir, exists_. destruct (has_nul (parts e)); [discriminate|].
  destruct (stat fs (parts e)) as [[]| | |]; try discriminate; reflexivity.
Qed.

Lemma is_file_exists (fs : FileSystem) (e : Path) :
  is_file fs e = Py.Return true -> exists_ fs e = Py.Return true.
Proof.
  unfold is_file, exists_. destruct (has_nul (parts e)); [discriminate|].
  destruct (stat fs (parts e)) as [[]| | |]; try discriminate; reflexivity.
Qed.

(** The loop reads the state through the played flags only, and leaves it
    alone. *)
Lemma loop_is_listing_from (entries : list Path)
    (ds : list DirectoryEntry) (au : list AudioEntry) (st : State) :
  list_directory_loop env entries ds au st
  = (listing_from env (was_played st) entries ds au, st).
Proof.
  revert ds au. induction entries as [|e entries IH]; intros ds au;
    [reflexivity|].
  cbn [list_directory_loop listing_from].
  destruct (Py.startswith (name e) "."); [apply IH|].
  destruct (relative_to e (MEDIA_ROOT env)) as [rel|]; [|reflexivity].
  unfold bind at 1, lift.
  destruct (is_dir (media_tree env) e) as [[|]|x]; [apply IH| |reflexivity].
  unfold bind at 1.
  destruct (is_file (media_tree env) e) as [f|x]; [|reflexivity].
  destruct (f && is_audio_suffix (suffix e)); [|apply IH].
  unfold bind. rewrite get_returns. rewrite IH. reflexivity.
Qed.

(** Over entries that can be looked at, the loop appends, in order, what
    is shown of each. *)
Lemma listing_from_returns (st : State) (entries : list Path)
    (ds : list DirectoryEntry) (au : list AudioEntry) :
  Forall (fun e => is_Some (relative_to e (MEDIA_ROOT env))) entries ->
  Forall (examinable env) entries ->
  listing_from env (was_played st) entries ds au
  = Py.Return
      (mkListing
         (ds ++ List.map (directory_entry env)
                  (List.filter (listed_as_directory env) entries))
         (au ++ List.map (audio_entry env st)
                  (List.filter (listed_as_audio env) entries))).
Proof.
  intros Hall Hexam. revert ds au.
  induction Hall as [|e entries [rel Hrel] _ IH]; intros ds au.
  - simpl. rewrite !app_nil_r. reflexivity.
  - apply Forall_cons_iff in Hexam. destruct Hexam as [[d Hd] Hexam].
    specialize (IH Hexam).
    cbn [listing_from List.filter].
    unfold listed_as_directory, listed_as_audio, hidden.
    destruct (Py.startswith (name e) ".") eqn:Hhid; cbn [negb andb].
    + apply IH.
    + rewrite Hrel, Hd. destruct d; cbn [gives_true negb andb].
      * rewrite IH. cbn [List.map]. unfold directory_entry at 2, rel_path_of.
        rewrite Hrel, <- app_assoc. reflexivity.
      * destruct (is_dir_is_file _ _ _ Hd) as [f Hf]. rewrite Hf.
        destruct f; cbn [gives_true andb]; [|apply IH].
        destruct (is_audio_suffix (suffix e)); [|apply IH].
        rewrite IH. cbn [List.map].
        unfold audio_entry at 2, rel_path_of.
        rewrite Hrel, <- app_assoc. reflexivity.
Qed.

(** The keys are computed exactly when every entry can be looked at. *)
Lemma entry_keys_returns (ps : list Path) :
  Forall (examinable env) ps ->
  entry_keys env ps = Py.Return (List.map (fun e => (key_of env e, e)) ps).
Proof.
  induction 1 as [|e ps [d Hd] _ IH]; [reflexivity|].
  cbn [entry_keys List.map]. unfold entry_key. rewrite Hd, IH.
  unfold key_of. rewrite Hd. destruct d; reflexivity.
Qed.

Lemma entry_keys_inv (ps : list Path) (ks : list ((bool * string) * Path)) :
  entry_keys env ps = Py.Return ks -> Forall (examinable env) ps.
Proof.
  revert ks. induction ps as [|e ps IH]; intros ks; [constructor|].
  cbn [entry_keys]. unfold entry_key.
  destruct (is_dir (media_tree env) e) as [d|x] eqn:Hd; [|discriminate].
  destruct (entry_keys env ps) as [ks'|x]; [|discriminate].
  intros _. constructor; [exists d; exact Hd|]. eapply IH. reflexivity.
Qed.

Lemma insert_by_keyed {A K : Type} (k : A -> K) (lt : K -> K -> bool)
    (x : A) (l : list A) :
  Py.insert_by fst lt (k x, x) (List.map (fun e => (k e, e)) l)
  = List.map (fun e => (k e, e)) (Py.insert_by k lt x l).
Proof.
  induction l as [|y l IH]; [reflexivity|]. cbn [List.map Py.insert_by fst].
  destruct (lt (k y) (k x)); [|reflexivity].
  cbn [List.map]. rewrite IH. reflexivity.
Qed.

(** Sorting the items with their keys is sorting the items by their
    keys. *)
Lemma sorted_keyed {A K : Type} (k : A -> K) (lt : K -> K -> bool)
    (l : list A) :
  List.map snd (Py.sorted fst lt (List.map (fun e => (k e, e)) l))
  = Py.sorted k lt l.
Proof.
  assert (H : Py.sorted fst lt (List.map (fun e => (k e, e)) l)
              = List.map (fun e => (k e, e)) (Py.sorted k lt l)).
  { induction l as [|x l IH]; [reflexivity|].
    cbn [List.map Py.sorted]. rewrite IH. apply insert_by_keyed. }
  rewrite H, List.map_map. cbn [snd]. apply List.map_id.
Qed.

Lemma sorted_entries_returns (ps : list Path) :
  Forall (examinable env) ps ->
  sorted_entries env ps = Py.Return (Py.sorted (key_of env) Py.pair_lt ps).
Proof.
  intros Hexam. unfold sorted_entries. rewrite (entry_keys_returns ps Hexam).
  rewrite sorted_keyed. reflexivity.
Qed.

Lemma sorted_entries_inv (ps visited : list Path) :
  sorted_entries env ps = Py.Return visited -> Forall (examinable env) ps.
Proof.
  unfold sorted_entries.
  destruct (entry_keys env ps) as [ks|x] eqn:Hks; [|discriminate].
  intros _. eapply entry_keys_inv. exact Hks.
Qed.

(** What [list_directory] returns for a directory that passes the checks
    and whose entries can be read and looked at. *)
Lemma list_directory_returns (relative_path : string) (st : State)
    (directory : Path) (found : list Path) :
  validate_within_media_root env (joinpath (MEDIA_ROOT env) relative_path)
  = Py.Return directory ->
  is_dir (media_tree env) directory = Py.Return true ->
  iterdir (media_tree env) directory = Py.Return found ->
  Forall (examinable env) found ->
  let entries := Py.sorted (key_of env) Py.pair_lt found in
  list_directory env relative_path st
  = (Py.Return
       (mkListing
          (List.map (directory_entry env)
             (List.filter (listed_as_directory env) entries))
          (List.map (audio_entry env st)
             (List.filter (listed_as_audio env) entries))),
     st).
Proof.
  intros Hconf Hdir Hfound Hexam entries. unfold list_directory, bind, lift.
  rewrite Hconf, (is_dir_exists _ _ Hdir), Hdir. cbn [not_both negb].
  rewrite Hfound, (sorted_entries_returns _ Hexam). fold entries.
  rewrite loop_is_listing_from.
  assert (Hperm : Permutation entries found) by apply sorted_perm.
  rewrite listing_from_returns; [reflexivity| |].
  - apply validate_return_inv in Hconf. destruct Hconf as [_ Hunder].
    apply List.Forall_forall. intros e He.
    apply (entries_under_root directory e found Hunder Hfound).
    eapply Permutation_in; [exact Hperm|exact He].
  - eapply Permutation_Forall; [symmetry; exact Hperm|exact Hexam].
Qed.

(** When [list_directory] returns, the path passed the checks, the
    directory could be read and every entry could be looked at. *)
Lemma list_directory_inv (relative_path : string) (st : State)
    (listing : Listing) :
  fst (list_directory env relative_path st) = Py.Return listing ->
  exists directory found,
    validate_within_media_root env (joinpath (MEDIA_ROOT env) relative_path)
    = Py.Return directory
    /\ is_dir (media_tree env) directory = Py.Return true
    /\ iterdir (media_tree env) directory = Py.Return found
    /\ Forall (examinable env) found.
Proof.
  unfold list_directory, bind, lift.
  destruct (validate_within_media_root env _) as [directory|x];
    [|discriminate].
  intros H. exists directory.
  destruct (exists_ (media_tree env) directory) as [[|]|x];
    cbn [not_both] in H; try discriminate.
  destruct (is_dir (media_tree env) directory) as [[|]|x];
    cbn [negb] in H; try discriminate.
  destruct (iterdir (media_tree env) directory) as [found|x];
    [|discriminate].
  exists found. split; [reflexivity|]. split; [reflexivity|].
  split; [reflexivity|].
  destruct (sorted_entries env found) as [visited|x] eqn:Hsorted;
    [|discriminate].
  eapply sorted_entries_inv. exact Hsorted.
Qed.

Lemma is_audio_suffix_spec (suffix : string) :
  is_audio_suffix suffix = true <-> In (Py.lower suffix) AUDIO_EXTENSIONS.
Proof.
  unfold is_audio_suffix. rewrite existsb_exists. split.
  - intros (x & Hin & Heq). apply String.eqb_eq in Heq. subst x. exact Hin.
  - intros Hin. exists (Py.lower suffix). split; [exact Hin|].
    apply String.eqb_refl.
Qed.

Lemma sorted_tail_not_before {A : Type} (R : A -> A -> Prop)
    (l1 l2 : list A) (x : A) :
  StronglySorted R (l1 ++ x :: l2) -> Forall (R x) l2.
Proof.
  induction l1 as [|y l1 IH]; simpl; intros Hs;
    apply StronglySorted_inv in Hs; destruct Hs as [Hs Hall].
  - exact Hall.
  - apply IH. exact Hs.
Qed.

Lemma gives_true_spec (o : Py.outcome bool) :
  gives_true o = true <-> o = Py.Return true.
Proof.
  destruct o as [[|]|x]; cbn; split; congruence.
Qed.

(** C7. For a directory that passes confinement, exists and can be read,
    [list_directory] returns a listing exactly when [os.stat] raises no
    error on any entry that [is_dir] lets through.  The listing it returns
    holds a directory entry for exactly the entries that are directories
    and whose name does not start with a dot, and an audio entry for exactly
    the regular files whose name does not start with a dot and whose
    suffix, lowered, is in the allow-list.  Each list is in ascending order
    of the names as [str.lower] gives them, and the loop meets every
    directory before any other entry.  The played flag of an audio entry is
    the one the progress store holds for its path, and false when the store
    has no record. *)
Theorem list_directory_contents (relative_path : string) (st : State)
    (directory : Path) (found : list Path)
    (Hconf : validate_within_media_root env
               (joinpath (MEDIA_ROOT env) relative_path) = Py.Return directory)
    (Hdir : is_dir (media_tree env) directory = Py.Return true)
    (Hfound : iterdir (media_tree env) directory = Py.Return found) :
  let fs := media_tree env in
  ((exists listing,
      list_directory env relative_path st = (Py.Return listing, st))
   <-> Forall (examinable env) found)
  /\ forall listing,
       fst (list_directory env relative_path st) = Py.Return listing ->
       (forall d,
          In d (directories listing) <->
          exists e, In e found
                    /\ Py.startswith (name e) "." = false
                    /\ is_dir fs e = Py.Return true
                    /\ d = mkDirectoryEntry (name e) (rel_path_of env e))
       /\ (forall a,
             In a (audio_files listing) <->
             exists e, In e found
                       /\ Py.startswith (name e) "." = false
                       /\ is_dir fs e = Py.Return false
                       /\ is_file fs e = Py.Return true
                       /\ In (Py.lower (suffix e)) AUDIO_EXTENSIONS
                       /\ a = mkAudioEntry (name e) (rel_path_of env e)
                               (match stored st !! rel_path_of env e with
                                | Some r => played r
                                | None => false
                                end))
       /\ StronglySorted
            (fun d1 d2 => name_le env (dir_name d1) (dir_name d2))
            (directories listing)
       /\ StronglySorted
            (fun a1 a2 => name_le env (audio_name a1) (audio_name a2))
            (audio_files listing)
       /\ exists visited,
            sorted_entries env found = Py.Return visited
            /\ Permutation visited found
            /\ forall before e after,
                 visited = before ++ e :: after ->
                 is_dir fs e = Py.Return false ->
                 Forall (fun later => is_dir fs later = Py.Return false) after.
Proof.
  intros fs.
  assert (Hinv : forall listing,
             fst (list_directory env relative_path st) = Py.Return listing ->
             Forall (examinable env) found).
  { intros listing Hret.
    destruct (list_directory_inv relative_path st listing Hret)
      as (d & l & Hd & _ & Hl & Hexam).
    rewrite Hconf in Hd. injection Hd as <-.
    rewrite Hfound in Hl. injection Hl as <-. exact Hexam. }
  split.
  { split.
    - intros [listing Hret]. apply (Hinv listing). rewrite Hret. reflexivity.
    - intros Hexam. eexists.
      apply (list_directory_returns relative_path st directory found Hconf Hdir
               Hfound Hexam). }
  intros listing Hret.
  pose proof (Hinv listing Hret) as Hexam.
  rewrite (list_directory_returns relative_path st directory found Hconf Hdir
             Hfound Hexam) in Hret.
  cbn [fst] in Hret. injection Hret as <-.
  set (visited := Py.sorted (key_of env) Py.pair_lt found).
  pose proof (sorted_perm (key_of env) Py.pair_lt found) as Hperm.
  fold visited in Hperm.
  pose proof (sorted_sorted (key_of env) Py.pair_lt pair_lt_asym
                pair_not_after_trans found) as Hsorted.
  fold visited in Hsorted.
  assert (Hlook : forall e, In e visited -> examinable env e).
  { intros e He. rewrite List.Forall_forall in Hexam. apply Hexam.
    eapply Permutation_in; eassumption. }
  cbn [directories audio_files]. fold fs visited.
  split; [|split; [|split; [|split]]].
  - intros d. rewrite in_map_iff. split.
    + intros (e & <- & He). apply filter_In in He. destruct He as [He Hshown].
      unfold listed_as_directory, hidden in Hshown.
      apply andb_true_iff in Hshown. destruct Hshown as [Hvis Hd].
      apply negb_true_iff in Hvis. apply gives_true_spec in Hd.
      exists e. repeat split; try assumption.
      eapply Permutation_in; eassumption.
    + intros (e & He & Hvis & Hd & ->). exists e. split; [reflexivity|].
      apply filter_In. split.
      * eapply Permutation_in; [symmetry; exact Hperm|exact He].
      * unfold listed_as_directory, hidden. fold fs. rewrite Hvis, Hd.
        reflexivity.
  - intros a. rewrite in_map_iff. split.
    + intros (e & <- & He). apply filter_In in He. destruct He as [He Hshown].
      unfold listed_as_audio, hidden in Hshown. fold fs in Hshown.
      apply andb_true_iff in Hshown. destruct Hshown as [Hshown Hfs].
      apply andb_true_iff in Hshown. destruct Hshown as [Hvis Hnd].
      apply andb_true_iff in Hfs. destruct Hfs as [Hf Hsuf].
      apply negb_true_iff in Hvis, Hnd.
      apply gives_true_spec in Hf. apply is_audio_suffix_spec in Hsuf.
      destruct (Hlook e He) as [d Hd]. fold fs in Hd.
      rewrite Hd in Hnd. cbn in Hnd. destruct d; [discriminate|].
      exists e. repeat split; try assumption.
      eapply Permutation_in; eassumption.
    + intros (e & He & Hvis & Hd & Hf & Hsuf & ->). exists e.
      split; [reflexivity|]. apply filter_In. split.
      * eapply Permutation_in; [symmetry; exact Hperm|exact He].
      * apply is_audio_suffix_spec in Hsuf.
        unfold listed_as_audio, hidden. fold fs. rewrite Hvis, Hd, Hf, Hsuf.
        reflexivity.
  - apply (sorted_filter_map (key_of env) Py.pair_lt); [|exact Hsorted].
    intros x y Hx Hy Hxy. unfold listed_as_directory in Hx, Hy.
    apply andb_true_iff in Hx, Hy. destruct Hx as [_ Hx], Hy as [_ Hy].
    unfold not_after, key_of, Py.pair_lt in Hxy. cbn [fst snd] in Hxy.
    rewrite Hx, Hy in Hxy. exact Hxy.
  - apply (sorted_filter_map (key_of env) Py.pair_lt); [|exact Hsorted].
    intros x y Hx Hy Hxy. unfold listed_as_audio in Hx, Hy.
    apply andb_true_iff in Hx, Hy. destruct Hx as [Hx _], Hy as [Hy _].
    apply andb_true_iff in Hx, Hy. destruct Hx as [_ Hx], Hy as [_ Hy].
    apply negb_true_iff in Hx, Hy.
    unfold not_after, key_of, Py.pair_lt in Hxy. cbn [fst snd] in Hxy.
    rewrite Hx, Hy in Hxy. exact Hxy.
  - exists visited. split; [apply sorted_entries_returns; exact Hexam|].
    split; [exact Hperm|].
    intros before e after Hsplit He.
    assert (Hafter : forall later, In later after -> In later visited).
    { intros later Hin. rewrite Hsplit. apply in_or_app. right. right.
      exact Hin. }
    rewrite Hsplit in Hsorted.
    apply sorted_tail_not_before in Hsorted.
    rewrite List.Forall_forall in Hsorted |- *.
    intros later Hin. specialize (Hsorted later Hin).
    unfold not_after, key_of, Py.pair_lt in Hsorted.
    cbn [fst snd] in Hsorted. fold fs in Hsorted. rewrite He in Hsorted.
    destruct (Hlook later (Hafter later Hin)) as [d Hd]. fold fs in Hd.
    rewrite Hd in Hsorted |- *. destruct d; [discriminate|reflexivity].
Qed.
End Catalog.

(** The root of the demo holds [a.mp3], [B.wav], [sub/], [.hidden.mp3] and
    [.vault/]: the listing is [sub], then [a.mp3] and [B.wav]. *)
Lemma list_directory_contents_witness :
  exists listing,
    list_directory Demo.env "" Demo.logged_in = (Py.Return listing, Demo.logged_in)
    /\ listing
       = mkListing [mkDirectoryEntry "sub" "sub"]
           [mkAudioEntry "a.mp3" "a.mp3" false;
            mkAudioEntry "B.wav" "B.wav" false]
    /\ StronglySorted
         (fun a1 a2 => name_le Demo.env (audio_name a1) (audio_name a2))
         (audio_files listing).
Proof.
  destruct (list_directory_contents Demo.env "" Demo.logged_in
              (mkPath Root ["srv"; "media"]) _ eq_refl eq_refl eq_refl)
    as (_ & Hprops).
  eexists. split; [vm_compute; reflexivity|]. split; [reflexivity|].
  apply Hprops. vm_compute. reflexivity.
Defined.

(** The listing of that root: [sub], then [a.mp3] and [B.wav]; and with a
    record that marks [a.mp3] played. *)
Example list_directory_demo :
  fst (list_directory Demo.env "" Demo.logged_in)
  = Py.Return
      (mkListing [mkDirectoryEntry "sub" "sub"]
         [mkAudioEntry "a.mp3" "a.mp3" false; mkAudioEntry "B.wav" "B.wav" false])
  /\ fst (list_directory Demo.env "sub" Demo.logged_in)
     = Py.Return
         (mkListing [mkDirectoryEntry "inner" "sub/inner";
                     mkDirectoryEntry "out" "sub/out"]
            [mkAudioEntry "c.MP3" "sub/c.MP3" false])
  /\ fst (list_directory Demo.env ""
            (snd (set_progress Demo.env (mkPayload "a.mp3" 96 100) Demo.logged_in)))
     = Py.Return
         (mkListing [mkDirectoryEntry "sub" "sub"]
            [mkAudioEntry "a.mp3" "a.mp3" true; mkAudioEntry "B.wav" "B.wav" false])
  /\ fst (list_directory Demo.env "a.mp3" Demo.logged_in)
     = Py.Raise (Py.HTTPException 404 "Directory not found")
  /\ fst (list_directory Demo.env ".vault/x.mp3" Demo.logged_in)
     = Py.Raise (Py.OSError 13)
  /\ fst (list_directory Demo.env ".vault" Demo.logged_in)
     = Py.Raise (Py.OSError 13).
Proof. repeat split; vm_compute; reflexivity. Qed.

(** * Further properties of the code *)

(** ** Tokens *)
Section TokenFacts.

(** X1. [validate_csrf_token] always returns and leaves the state as it
    is; its answer is true exactly when the submitted token is the
    non-empty ASCII string that the session holds under [csrf_token]. *)
Theorem validate_csrf_token_exact (token : string) (st : State) :
  exists b,
    validate_csrf_token token st = (Py.Return b, st)
    /\ (b = true <->
        session st !! CSRF_SESSION_KEY = Some (Py.VStr token)
        /\ token <> "" /\ Py.isascii token = true).
Proof.
  destruct (validate_returns token st) as [b Hb]. exists b.
  split; [exact Hb|]. rewrite <- validate_accepts, Hb. cbn [fst].
  split; congruence.
Qed.

(** X2. On a session without a usable token [ensure_csrf_token] mints one
    from the next 32 bytes of the pool and stores it, and
    [validate_csrf_token] accepts that token on the resulting session. *)
Theorem minted_token_is_accepted (st : State)
    (Hnone : Py.truthy_opt (session st !! CSRF_SESSION_KEY) = false) :
  let token := next_token st in
  let st' := snd (ensure_csrf_token st) in
  fst (ensure_csrf_token st) = Py.Return (Py.VStr token)
  /\ session st' !! CSRF_SESSION_KEY = Some (Py.VStr token)
  /\ cursor (entropy st') = (cursor (entropy st) + 32)%nat
  /\ validate_csrf_token token st' = (Py.Return true, st').
Proof.
  intros token st'. subst st'. rewrite (ensure_mints st Hnone). cbn [fst snd].
  assert (Hs : session (with_minted_token st) !! CSRF_SESSION_KEY
               = Some (Py.VStr token)).
  { unfold with_minted_token. cbn [session]. apply lookup_insert_eq. }
  repeat split; [exact Hs|].
  apply validate_true. apply validate_accepts. split; [exact Hs|]. split.
  - apply String.eqb_neq. apply next_token_nonempty.
  - apply urlsafe_b64encode_isascii.
Qed.
End TokenFacts.

(** The anonymous session of the demo gets its token. *)
Lemma minted_token_is_accepted_witness :
  validate_csrf_token (next_token Demo.anonymous)
    (snd (ensure_csrf_token Demo.anonymous))
  = (Py.Return true, snd (ensure_csrf_token Demo.anonymous)).
Proof.
  apply (minted_token_is_accepted Demo.anonymous eq_refl).
Defined.

(** ** Logging in and out *)
Section LoginFacts.
Context (env : Deployment).

Lemma ensure_cases (st : State) :
  ensure_csrf_token st
  = (Py.Return (default Py.VNone (session st !! CSRF_SESSION_KEY)), st)
  \/ ensure_csrf_token st
     = (Py.Return (Py.VStr (next_token st)), with_minted_token st).
Proof.
  destruct (Py.truthy_opt (session st !! CSRF_SESSION_KEY)) eqn:Htok.
  - left. apply ensure_keeps. exact Htok.
  - right. apply ensure_mints. exact Htok.
Qed.

Lemma minting_keeps_flag (st : State) :
  authenticated (with_minted_token st) = authenticated st.
Proof.
  unfold authenticated, with_minted_token. cbn [session].
  rewrite lookup_insert_ne by discriminate. reflexivity.
Qed.

(** [ensure_csrf_token] returns a token and touches neither the flag nor
    the progress file. *)
Lemma ensure_returns (st : State) :
  exists token st',
    ensure_csrf_token st = (Py.Return token, st')
    /\ authenticated st' = authenticated st
    /\ progress_file st' = progress_file st
    /\ session st' !! CSRF_SESSION_KEY = Some token.
Proof.
  destruct (Py.truthy_opt (session st !! CSRF_SESSION_KEY)) eqn:Htok.
  - exists (default Py.VNone (session st !! CSRF_SESSION_KEY)), st.
    split; [apply ensure_keeps; exact Htok|]. repeat split.
    destruct (session st !! CSRF_SESSION_KEY); [reflexivity|discriminate].
  - exists (Py.VStr (next_token st)), (with_minted_token st).
    split; [apply ensure_mints; exact Htok|].
    split; [apply minting_keeps_flag|]. split; [reflexivity|].
    unfold with_minted_token. cbn [session]. apply lookup_insert_eq.
Qed.

(** The branch of [login_submit] for a token that does not validate. *)
Lemma login_submit_invalid (request : Request)
    (username password token next_path : string) (st : State) :
  fst (validate_csrf_token token st) = Py.Return false ->
  exists form_tok st',
    ensure_csrf_token st = (Py.Return form_tok, st')
    /\ login_submit env request username password token next_path st
       = (Py.Return
            (TemplateResponse "login.html"
               (LoginContext next_path
                  (Some "Session expired. Please try again.") form_tok)
               400),
          st').
Proof.
  intros Hinvalid. destruct (validate_returns token st) as [b Hb].
  rewrite Hb in Hinvalid. cbn [fst] in Hinvalid. injection Hinvalid as ->.
  destruct (ensure_returns st) as (tok & st' & Hens & _).
  exists tok, st'. split; [exact Hens|].
  unfold login_submit, bind at 1. rewrite Hb. cbn [negb].
  unfold bind. rewrite Hens. reflexivity.
Qed.

(** X3. [POST /login] leaves a session authenticated only if it was
    authenticated already, or the submitted CSRF token validated and the
    password is [AUTH_PASSWORD]; the username plays no part. *)
Theorem login_needs_token_and_password (request : Request)
    (username password token next_path : string) (st : State) :
  authenticated
    (snd (login_submit env request username password token next_path st)) = true ->
  authenticated st = true
  \/ (fst (validate_csrf_token token st) = Py.Return true
      /\ password = AUTH_PASSWORD env).
Proof.
  intros Hafter. destruct (validate_returns token st) as [[] Hb].
  - destruct (String.eqb_spec password (AUTH_PASSWORD env)) as [Hpw|Hpw].
    + right. split; [rewrite Hb; reflexivity|exact Hpw].
    + left. rewrite login_failure in Hafter;
        [exact Hafter|rewrite Hb; reflexivity|exact Hpw].
  - left.
    destruct (login_submit_invalid request username password token next_path st)
      as (tok & st' & Hens & Hsub); [rewrite Hb; reflexivity|].
    rewrite Hsub in Hafter. cbn [snd] in Hafter.
    destruct (ensure_returns st) as (tok' & st'' & Hens' & Hflag & _).
    rewrite Hens in Hens'. injection Hens' as _ <-.
    rewrite <- Hflag. exact Hafter.
Qed.

(** X4. With a CSRF token that does not validate, [POST /login] answers
    400 with the login form and "Session expired. Please try again.",
    whatever the password, also the right one; the form carries the
    session's token (minted now if the session had none), and the
    authenticated flag and the progress file stay as they were. *)
Theorem login_with_bad_token (request : Request)
    (username password token next_path : string) (st : State)
    (Hinvalid : fst (validate_csrf_token token st) = Py.Return false) :
  let result := login_submit env request username password token next_path st in
  exists form_tok,
    fst result
    = Py.Return
        (TemplateResponse "login.html"
           (LoginContext next_path (Some "Session expired. Please try again.")
              form_tok)
           400)
    /\ session (snd result) !! CSRF_SESSION_KEY = Some form_tok
    /\ authenticated (snd result) = authenticated st
    /\ progress_file (snd result) = progress_file st.
Proof.
  intros result. subst result.
  destruct (login_submit_invalid request username password token next_path st
              Hinvalid) as (tok & st' & Hens & Hsub).
  destruct (ensure_returns st) as (tok' & st'' & Hens' & Hflag & Hfile & Hs).
  rewrite Hens in Hens'. injection Hens' as <- <-.
  exists tok. rewrite Hsub. cbn [fst snd]. repeat split; assumption.
Qed.

(** X5. A login never redirects anywhere but to the index URL or to the
    unquoted [next] value, and to the latter only when it starts with a
    slash: this holds for the redirect of [POST /login] after a good login
    and for the one [GET /login] gives a session that is logged in. *)
Theorem login_redirect_target (request : Request)
    (username token next_path : string) (st : State) :
  let target := login_destination env request next_path in
  (target = url_for request "index"
   \/ (next_path <> "" /\ target = unquote env next_path
       /\ Py.startswith target "/" = true))
  /\ (Py.startswith (unquote env next_path) "/" = false ->
      target = url_for request "index")
  /\ (authenticated st = true ->
      login_page env request next_path st
      = (Py.Return (RedirectResponse target 303), st))
  /\ (fst (validate_csrf_token token st) = Py.Return true ->
      fst (login_submit env request username (AUTH_PASSWORD env) token
             next_path st)
      = Py.Return (RedirectResponse target 303)).
Proof.
  intros target. subst target. unfold login_destination.
  split; [|split; [|split]].
  - destruct (String.eqb_spec next_path "") as [Hempty|Hne]; [left; reflexivity|].
    destruct (Py.startswith (unquote env next_path) "/") eqn:Hslash.
    + right. repeat split; assumption.
    + left. reflexivity.
  - intros Hslash. rewrite Hslash.
    destruct (String.eqb next_path ""); reflexivity.
  - intros Hauth. unfold login_page, bind.
    rewrite is_authenticated_returns, Hauth. reflexivity.
  - intros Hvalid. rewrite (login_success env request username token next_path st Hvalid).
    reflexivity.
Qed.

(** X6. [POST /logout] with a token that does not validate raises 403 and
    changes nothing.  With a valid token it empties the session and
    redirects to the login page: the session is no longer authenticated, no
    token validates on it any more, and the progress file is untouched. *)
Theorem logout_clears_session (request : Request) (token : string) (st : State) :
  (fst (validate_csrf_token token st) = Py.Return false ->
   logout request token st
   = (Py.Raise (Py.HTTPException 403 "Invalid CSRF token"), st))
  /\ (fst (validate_csrf_token token st) = Py.Return true ->
      let st' := snd (logout request token st) in
      fst (logout request token st)
      = Py.Return (RedirectResponse (url_for request "login") 303)
      /\ session st' = ∅
      /\ progress_file st' = progress_file st
      /\ authenticated st' = false
      /\ forall t, validate_csrf_token t st' = (Py.Return false, st')).
Proof.
  destruct (validate_returns token st) as [b Hb]. split.
  - rewrite Hb. cbn [fst]. intros [= ->].
    unfold logout, bind. rewrite Hb. reflexivity.
  - rewrite Hb. cbn [fst]. intros [= ->].
    assert (Hout : logout request token st
                   = (Py.Return (RedirectResponse (url_for request "login") 303),
                      mkState ∅ (progress_file st) (entropy st)))
      by (unfold logout, bind; rewrite Hb; reflexivity).
    cbv zeta. rewrite Hout. cbn [fst snd session progress_file].
    repeat split.
Qed.
End LoginFacts.

(** In the demo the session at the login form logs in with the password. *)
Lemma login_needs_token_and_password_witness :
  authenticated Demo.at_login_form = true
  \/ (fst (validate_csrf_token (next_token Demo.anonymous) Demo.at_login_form)
      = Py.Return true
      /\ "correct horse" = AUTH_PASSWORD Demo.env).
Proof.
  apply (login_needs_token_and_password Demo.env Demo.request "reader"
           "correct horse" (next_token Demo.anonymous) "" Demo.at_login_form).
  vm_compute. reflexivity.
Defined.

(** In the demo a forged token comes with the right password. *)
Lemma login_with_bad_token_witness :
  exists form_tok,
    fst (login_submit Demo.env Demo.request "reader" "correct horse" "forged" ""
           Demo.at_login_form)
    = Py.Return
        (TemplateResponse "login.html"
           (LoginContext "" (Some "Session expired. Please try again.") form_tok)
           400)
    /\ authenticated
         (snd (login_submit Demo.env Demo.request "reader" "correct horse"
                 "forged" "" Demo.at_login_form))
       = false.
Proof.
  destruct (login_with_bad_token Demo.env Demo.request "reader" "correct horse"
              "forged" "" Demo.at_login_form)
    as (tok & Hresp & _ & Hflag & _); [vm_compute; reflexivity|].
  exists tok. split; [exact Hresp|]. rewrite Hflag. reflexivity.
Defined.

(** In the demo a logged-in session opens the login page with
    [next=/?path=sub]. *)
Lemma login_redirect_target_witness :
  login_page Demo.env Demo.request "/?path=sub" Demo.logged_in
  = (Py.Return (RedirectResponse "/?path=sub" 303), Demo.logged_in).
Proof.
  apply (login_redirect_target Demo.env Demo.request "reader" "" "/?path=sub"
           Demo.logged_in).
  reflexivity.
Defined.

(** In the demo the session at the login form logs out with its token. *)
Lemma logout_clears_session_witness :
  authenticated
    (snd (logout Demo.request (next_token Demo.anonymous) Demo.at_login_form))
  = false.
Proof.
  apply (logout_clears_session Demo.request (next_token Demo.anonymous)
           Demo.at_login_form).
  vm_compute. reflexivity.
Defined.

(** ** Files behind the routes *)
Section FileFacts.
Context (env : Deployment).

(** What [exists] and [is_file] give together, since both read
    [os.stat]. *)
Lemma stat_cases (fs : FileSystem) (p : Path) :
  (exists errno, exists_ fs p = Py.Raise (Py.OSError errno)
                 /\ is_file fs p = Py.Raise (Py.OSError errno))
  \/ (exists_ fs p = Py.Return false /\ is_file fs p = Py.Return false)
  \/ (exists_ fs p = Py.Return true /\ is_file fs p = Py.Return false)
  \/ (exists_ fs p = Py.Return true /\ is_file fs p = Py.Return true).
Proof.
  unfold exists_, is_file. destruct (has_nul (parts p)); [tauto|].
  destruct (stat fs (parts p)) as [[]| | |errno]; eauto 6.
Qed.

(** X7. [get_audio_file] returns a path exactly when the joined path passes
    confinement as that path, is a regular file and has a suffix that,
    lowered, is in [AUDIO_EXTENSIONS].  Otherwise it raises, in this order:
    the error of the confinement check; the error of [os.stat], when it
    raises one that [exists] lets through; 404 when the path is not a
    regular file; 400 for any other suffix. *)
Theorem get_audio_file_exact (relative_path : string) :
  let fs := media_tree env in
  let checked :=
    validate_within_media_root env (joinpath (MEDIA_ROOT env) relative_path) in
  (forall p,
     get_audio_file env relative_path = Py.Return p <->
     checked = Py.Return p /\ is_file fs p = Py.Return true
     /\ In (Py.lower (suffix p)) AUDIO_EXTENSIONS)
  /\ (forall e, checked = Py.Raise e -> get_audio_file env relative_path = Py.Raise e)
  /\ (forall p e, checked = Py.Return p -> exists_ fs p = Py.Raise e ->
      get_audio_file env relative_path = Py.Raise e)
  /\ (forall p, checked = Py.Return p -> is_file fs p = Py.Return false ->
      get_audio_file env relative_path
      = Py.Raise (Py.HTTPException 404 "Audio file not found"))
  /\ (forall p, checked = Py.Return p -> is_file fs p = Py.Return true ->
      ~ In (Py.lower (suffix p)) AUDIO_EXTENSIONS ->
      get_audio_file env relative_path
      = Py.Raise (Py.HTTPException 400 "Unsupported file type")).
Proof.
  intros fs checked. subst fs checked. unfold get_audio_file.
  destruct (validate_within_media_root env
              (joinpath (MEDIA_ROOT env) relative_path)) as [q|e0].
  2:{ split; [intros p; split; [intros H|intros (H & Hf & Hin)]
             |split; [intros e H
                     |split; [intros p e H Hx
                             |split; [intros p H Hf|intros p H Hf Hnot]]]];
        try discriminate. injection H as <-. reflexivity. }
  destruct (stat_cases (media_tree env) q)
    as [(errno & He & Hf')|[(He & Hf')|[(He & Hf')|(He & Hf')]]];
    rewrite He, Hf'; cbn [not_both negb];
    try (split; [intros p; split; [intros H|intros (H & Hf & Hin)]
                |split; [intros e H
                        |split; [intros p e H Hx
                                |split; [intros p H Hf|intros p H Hf Hnot]]]];
         try discriminate; injection H as <-; congruence).
  destruct (is_audio_suffix (suffix q)) eqn:Hsuf; cbn [negb].
  - apply is_audio_suffix_spec in Hsuf.
    split; [intros p; split; [intros H|intros (H & Hf & Hin)]
           |split; [intros e H
                   |split; [intros p e H Hx
                           |split; [intros p H Hf|intros p H Hf Hnot]]]];
      try discriminate; injection H as <-;
      try congruence; try contradiction; repeat split; assumption.
  - assert (Hnot : ~ In (Py.lower (suffix q)) AUDIO_EXTENSIONS).
    { intros Hin. apply is_audio_suffix_spec in Hin. congruence. }
    split; [intros p; split; [intros H|intros (H & Hf & Hin)]
           |split; [intros e H
                   |split; [intros p e H Hx
                           |split; [intros p H Hf|intros p H Hf Hnot']]]];
      try discriminate; try reflexivity; injection H as <-;
      try congruence; contradiction.
Qed.

(** What [get_audio_file] returns is at or below the media root. *)
Lemma get_audio_file_confined (relative_path : string) (p : Path) :
  get_audio_file env relative_path = Py.Return p ->
  (p = MEDIA_ROOT env \/ is_proper_ancestor (MEDIA_ROOT env) p)
  /\ is_file (media_tree env) p = Py.Return true
  /\ In (Py.lower (suffix p)) AUDIO_EXTENSIONS.
Proof.
  unfold get_audio_file.
  destruct (validate_within_media_root env
              (joinpath (MEDIA_ROOT env) relative_path)) as [q|e0] eqn:Hv;
    [|discriminate].
  destruct (stat_cases (media_tree env) q)
    as [(errno & -> & Hf)|[(-> & Hf)|[(-> & Hf)|(-> & Hf)]]];
    rewrite Hf; cbn [not_both negb]; try discriminate.
  destruct (is_audio_suffix (suffix q)) eqn:Hsuf; cbn [negb]; [|discriminate].
  intros [= <-]. apply validate_return_inv in Hv. destruct Hv as [_ Hunder].
  apply is_audio_suffix_spec in Hsuf. repeat split; assumption.
Qed.

(** X8. Whenever [GET /media] answers, the session is authenticated and
    the answer is a file response for a path at or below the media root
    that is a regular file with an audio suffix, with the header
    [Accept-Ranges: bytes]; the state is unchanged.  In every other case
    the route raises. *)
Theorem media_serves_confined_audio (path : string) (st st' : State)
    (response : Response) :
  media env path st = (Py.Return response, st') ->
  authenticated st = true
  /\ st' = st
  /\ exists p,
       response
       = FileResponse p (guess_type env (to_string p)) (name p)
           [("Accept-Ranges", "bytes")]
       /\ (p = MEDIA_ROOT env \/ is_proper_ancestor (MEDIA_ROOT env) p)
       /\ is_file (media_tree env) p = Py.Return true
       /\ In (Py.lower (suffix p)) AUDIO_EXTENSIONS.
Proof.
  unfold media, bind at 1. rewrite is_authenticated_returns.
  destruct (authenticated st) eqn:Hauth; cbn [negb]; [|discriminate].
  unfold bind, lift.
  destruct (get_audio_file env path) as [p|e] eqn:Hfile; [|discriminate].
  intros [= <- <-]. split; [reflexivity|]. split; [reflexivity|].
  exists p. split; [reflexivity|]. apply (get_audio_file_confined path p Hfile).
Qed.
End FileFacts.

(** In the demo [sub/notes.txt] is no audio file, and nothing below
    [.vault] can be looked at. *)
Lemma get_audio_file_exact_witness :
  get_audio_file Demo.env "sub/notes.txt"
  = Py.Raise (Py.HTTPException 400 "Unsupported file type")
  /\ get_audio_file Demo.env ".vault/x.mp3" = Py.Raise (Py.OSError 13)
  /\ get_audio_file Demo.env "sub" 
     = Py.Raise (Py.HTTPException 404 "Audio file not found").
Proof.
  destruct (get_audio_file_exact Demo.env "sub/notes.txt")
    as (_ & _ & _ & _ & Hsuffix).
  destruct (get_audio_file_exact Demo.env ".vault/x.mp3")
    as (_ & _ & Hstat & _).
  destruct (get_audio_file_exact Demo.env "sub") as (_ & _ & _ & Hkind & _).
  split; [|split].
  - apply (Hsuffix (mkPath Root ["srv"; "media"; "sub"; "notes.txt"]));
      [reflexivity|reflexivity|].
    vm_compute. intros H. repeat (destruct H as [H|H]; [discriminate|]).
    exact H.
  - apply (Hstat (mkPath Root ["srv"; "media"; ".vault"; "x.mp3"]));
      reflexivity.
  - apply (Hkind (mkPath Root ["srv"; "media"; "sub"])); reflexivity.
Defined.

(** In the demo a logged-in session streams [a.mp3]. *)
Lemma media_serves_confined_audio_witness :
  authenticated Demo.logged_in = true
  /\ exists p,
       FileResponse (mkPath Root ["srv"; "media"; "a.mp3"]) (Some "audio/mpeg")
         "a.mp3" [("Accept-Ranges", "bytes")]
       = FileResponse p (guess_type Demo.env (to_string p)) (name p)
           [("Accept-Ranges", "bytes")]
       /\ is_file (media_tree Demo.env) p = Py.Return true.
Proof.
  destruct (media_serves_confined_audio Demo.env "a.mp3" Demo.logged_in
              Demo.logged_in
              (FileResponse (mkPath Root ["srv"; "media"; "a.mp3"])
                 (Some "audio/mpeg") "a.mp3" [("Accept-Ranges", "bytes")])
              eq_refl)
    as (Hauth & _ & p & Hresp & _ & Hfile & _).
  split; [exact Hauth|]. exists p. split; assumption.
Defined.

(** ** What the routes read and what they write *)
Section Frame.
Context (env : Deployment).

(** [list_directory] changes nothing, whatever it returns or raises. *)
Lemma list_directory_state (relative_path : string) (st : State) :
  snd (list_directory env relative_path st) = st.
Proof.
  unfold list_directory, bind, lift.
  destruct (validate_within_media_root env _); [|reflexivity].
  destruct (not_both _ _) as [[|]|x]; try reflexivity.
  destruct (iterdir (media_tree env) _); [|reflexivity].
  destruct (sorted_entries env _); [|reflexivity].
  rewrite loop_is_listing_from. reflexivity.
Qed.

Lemma index_progress_file (request : Request) (path : string) (st : State) :
  progress_file (snd (index env request path st)) = progress_file st.
Proof.
  unfold index, bind at 1. rewrite is_authenticated_returns.
  destruct (authenticated st); cbn [negb]; [|reflexivity].
  unfold bind at 1.
  pose proof (list_directory_state path st) as Hstate.
  destruct (list_directory env path st) as [[listing|e] s1]; cbn [snd] in Hstate;
    subst s1; [|reflexivity].
  unfold bind.
  destruct (ensure_returns st) as (tok & st' & Hens & _ & Hfile & _).
  rewrite Hens. exact Hfile.
Qed.

Lemma login_submit_progress_file (request : Request)
    (username password token next_path : string) (st : State) :
  progress_file
    (snd (login_submit env request username password token next_path st))
  = progress_file st.
Proof.
  destruct (validate_returns token st) as [[] Hb].
  - destruct (String.eqb_spec password (AUTH_PASSWORD env)) as [->|Hpw].
    + rewrite login_success by (rewrite Hb; reflexivity). reflexivity.
    + rewrite login_failure; [reflexivity|rewrite Hb; reflexivity|exact Hpw].
  - destruct (login_submit_invalid env request username password token
                next_path st) as (tok & st' & Hens & Hsub);
      [rewrite Hb; reflexivity|].
    destruct (ensure_returns st) as (tok' & st'' & Hens' & _ & Hfile & _).
    rewrite Hens in Hens'. injection Hens' as _ <-.
    rewrite Hsub. exact Hfile.
Qed.

(** X9. Of all the routes only [POST /api/progress] can change the
    progress file: [list_directory], [GET /media] and [GET /api/progress]
    leave the whole state as it is, whatever they return or raise, and
    [GET /], [GET /login], [POST /login] and [POST /logout] change at most
    the session and the entropy pool. *)
Theorem only_set_progress_writes (request : Request)
    (path username password token next_path : string) (st : State) :
  snd (list_directory env path st) = st
  /\ snd (media env path st) = st
  /\ snd (get_progress env path st) = st
  /\ progress_file (snd (index env request path st)) = progress_file st
  /\ progress_file (snd (login_page env request next_path st)) = progress_file st
  /\ progress_file
       (snd (login_submit env request username password token next_path st))
     = progress_file st
  /\ progress_file (snd (logout request token st)) = progress_file st.
Proof.
  split; [apply list_directory_state|].
  split.
  { unfold media, bind at 1. rewrite is_authenticated_returns.
    destruct (authenticated st); cbn [negb]; [|reflexivity].
    unfold bind, lift. destruct (get_audio_file env path); reflexivity. }
  split.
  { unfold get_progress, bind at 1. rewrite is_authenticated_returns.
    destruct (authenticated st); cbn [negb]; [|reflexivity].
    unfold bind at 1, lift. destruct (get_audio_file env path); [|reflexivity].
    unfold bind. rewrite get_returns.
    destruct (stored st !! path); reflexivity. }
  split; [apply index_progress_file|].
  split.
  { unfold login_page, bind at 1. rewrite is_authenticated_returns.
    destruct (authenticated st); [reflexivity|].
    unfold bind.
    destruct (ensure_returns st) as (tok & st' & Hens & _ & Hfile & _).
    rewrite Hens. exact Hfile. }
  split; [apply login_submit_progress_file|].
  unfold logout, bind at 1.
  destruct (validate_returns token st) as [[] Hb]; rewrite Hb; reflexivity.
Qed.

(** X10. [list_directory] raises the error of the confinement check when
    the path fails it, the error of [os.stat] when it raises one that
    [exists] lets through, and 404 when the confined path is not a
    directory; for an authenticated session [GET /] raises whatever
    [list_directory] raises, and the state stays as it was. *)
Theorem list_directory_errors (request : Request) (relative_path : string)
    (st : State) :
  let checked :=
    validate_within_media_root env (joinpath (MEDIA_ROOT env) relative_path) in
  (forall e, checked = Py.Raise e ->
     list_directory env relative_path st = (Py.Raise e, st))
  /\ (forall directory e,
        checked = Py.Return directory ->
        exists_ (media_tree env) directory = Py.Raise e ->
        list_directory env relative_path st = (Py.Raise e, st))
  /\ (forall directory,
        checked = Py.Return directory ->
        is_dir (media_tree env) directory = Py.Return false ->
        list_directory env relative_path st
        = (Py.Raise (Py.HTTPException 404 "Directory not found"), st))
  /\ (forall e,
        authenticated st = true ->
        fst (list_directory env relative_path st) = Py.Raise e ->
        index env request relative_path st = (Py.Raise e, st)).
Proof.
  intros checked. subst checked. split; [|split; [|split]].
  - intros e He. unfold list_directory, bind, lift. rewrite He. reflexivity.
  - intros directory e Hd Hraise. unfold list_directory, bind, lift.
    rewrite Hd, Hraise. reflexivity.
  - intros directory Hd Hnot. unfold list_directory, bind, lift.
    rewrite Hd, Hnot.
    assert (Hexists : exists x, exists_ (media_tree env) directory = Py.Return x).
    { revert Hnot. unfold is_dir, exists_.
      destruct (has_nul (parts directory)); [eauto|].
      destruct (stat (media_tree env) (parts directory)) as [[]| | |];
        try discriminate; eauto. }
    destruct Hexists as [[|] ->]; reflexivity.
  - intros e Hauth Hraise. unfold index, bind at 1.
    rewrite is_authenticated_returns, Hauth. cbn [negb]. unfold bind at 1.
    pose proof (list_directory_state relative_path st) as Hstate.
    destruct (list_directory env relative_path st) as [o s1].
    cbn [fst snd] in *. subst o s1. reflexivity.
Qed.
End Frame.

(** In the demo a logged-in session asks for the listing of [a.mp3], which
    is a file, of [../..], which is outside, and of a path below
    [.vault]. *)
Lemma list_directory_errors_witness :
  index Demo.env Demo.request "a.mp3" Demo.logged_in
  = (Py.Raise (Py.HTTPException 404 "Directory not found"), Demo.logged_in)
  /\ list_directory Demo.env "../.." Demo.logged_in
     = (Py.Raise PathEscape, Demo.logged_in)
  /\ list_directory Demo.env ".vault/x.mp3" Demo.logged_in
     = (Py.Raise (Py.OSError 13), Demo.logged_in).
Proof.
  destruct (list_directory_errors Demo.env Demo.request "a.mp3" Demo.logged_in)
    as (_ & _ & _ & Hindex).
  destruct (list_directory_errors Demo.env Demo.request "../.." Demo.logged_in)
    as (Hescape & _).
  destruct (list_directory_errors Demo.env Demo.request ".vault/x.mp3"
              Demo.logged_in) as (_ & Hstat & _).
  split; [|split].
  - apply Hindex; [reflexivity|]. vm_compute. reflexivity.
  - apply Hescape. vm_compute. reflexivity.
  - apply (Hstat (mkPath Root ["srv"; "media"; ".vault"; "x.mp3"]));
      reflexivity.
Defined.

(** ** Progress through the routes *)
Section ProgressFacts.
Context (env : Deployment).

(** What [GET /api/progress] answers once the session is authenticated
    and the file is an audio file under the root: the stored record, or
    zeros; the response is refused when a stored number is not finite. *)
Lemma get_progress_answers (file : string) (st : State) (p : Path) :
  authenticated st = true ->
  get_audio_file env file = Py.Return p ->
  get_progress env file st
  = (JSONResponse
       match stored st !! file with
       | Some r => JSONProgress (position r) (duration r) (played r)
       | None => JSONProgress 0 0 false
       end,
     st).
Proof.
  intros Hauth Hfile. unfold get_progress, bind at 1.
  rewrite is_authenticated_returns, Hauth. cbn [negb].
  unfold bind at 1, lift. rewrite Hfile. unfold bind. rewrite get_returns.
  destruct (stored st !! file); reflexivity.
Qed.

(** X11. For an authenticated session [POST /api/progress] checks the file
    before it touches the store: when [get_audio_file] raises, the route
    raises the same error and the state is unchanged.  When the file is
    accepted the route writes one record, under the very string the client
    sent: the keys afterwards are the old keys and that string, every other
    record is as before, and session and entropy pool are unchanged. *)
Theorem set_progress_checks_file_first (payload : ProgressPayload) (st : State)
    (Hauth : authenticated st = true) :
  (forall e,
     get_audio_file env (file payload) = Py.Raise e ->
     set_progress env payload st = (Py.Raise e, st))
  /\ (forall p,
        get_audio_file env (file payload) = Py.Return p ->
        let st' := snd (set_progress env payload st) in
        dom (stored st') = {[ file payload ]} ∪ dom (stored st)
        /\ (forall k, k <> file payload -> stored st' !! k = stored st !! k)
        /\ session st' = session st
        /\ entropy st' = entropy st).
Proof.
  split.
  - intros e Hfile. unfold set_progress, bind at 1.
    rewrite is_authenticated_returns, Hauth. cbn [negb].
    unfold bind, lift. rewrite Hfile. reflexivity.
  - intros p Hfile st'. subst st'.
    rewrite (set_progress_stores env payload st p Hauth Hfile). cbn [snd].
    rewrite stored_with_document. split; [apply dom_insert_L|].
    split; [|split; reflexivity].
    intros k Hne. apply lookup_insert_ne. congruence.
Qed.

(** X12. An accepted [POST /api/progress] stores its record and then
    answers with the position, duration and played flag of that record, and
    a [GET /api/progress] for the same file afterwards answers with the
    same three values; when the position or the duration of the record is a
    NaN or an infinity, both routes raise the [ValueError] of
    [JSONResponse] instead, the record being stored all the same.  For a
    file without a record the [GET] answers zeros and false. *)
Theorem progress_routes_roundtrip (payload : ProgressPayload) (st : State)
    (p : Path)
    (Hauth : authenticated st = true)
    (Hfile : get_audio_file env (file payload) = Py.Return p) :
  let st' := snd (set_progress env payload st) in
  (exists pos dur pl,
     stored st' !! file payload = Some (mkRecord pos dur pl)
     /\ fst (set_progress env payload st)
        = (if Py.isfinite pos && Py.isfinite dur
           then Py.Return (JSONStatus "ok" pos dur pl)
           else Py.Raise out_of_range)
     /\ fst (get_progress env (file payload) st')
        = (if Py.isfinite pos && Py.isfinite dur
           then Py.Return (JSONProgress pos dur pl)
           else Py.Raise out_of_range))
  /\ (stored st !! file payload = None ->
      get_progress env (file payload) st = (Py.Return (JSONProgress 0 0 false), st)).
Proof.
  intros st'. subst st'. split.
  - rewrite (set_progress_stores env payload st p Hauth Hfile). cbn [fst snd].
    do 3 eexists. split; [|split].
    + rewrite stored_with_document. apply lookup_insert_eq.
    + cbn [JSONResponse]. reflexivity.
    + rewrite (get_progress_answers (file payload) _ p); [|exact Hauth|exact Hfile].
      cbn [fst]. rewrite stored_with_document, lookup_insert_eq.
      cbn [JSONResponse position duration played]. reflexivity.
  - intros Hnone.
    rewrite (get_progress_answers (file payload) st p Hauth Hfile), Hnone.
    reflexivity.
Qed.

Lemma max_not_below_zero (a : float) : PrimFloat.ltb (Py.max a 0) 0 = false.
Proof.
  unfold Py.max, Py.float_gt.
  destruct (PrimFloat.ltb a 0) eqn:Ha; [reflexivity|exact Ha].
Qed.

Lemma set_progress_keeps_nonnegative (payload : ProgressPayload) (st : State) :
  nonnegative_store st -> nonnegative_store (snd (set_progress env payload st)).
Proof.
  intros Hinv.
  destruct (authenticated st) eqn:Hauth.
  2:{ destruct (set_progress_refused env payload st) as [e ->]; auto. }
  destruct (get_audio_file env (file payload)) as [p|e] eqn:Hfile.
  2:{ destruct (set_progress_refused env payload st) as [e' ->]; eauto. }
  rewrite (set_progress_stores env payload st p Hauth Hfile). cbn [snd].
  intros k r. rewrite stored_with_document.
  destruct (decide (file payload = k)) as [<-|Hne].
  - rewrite lookup_insert_eq. intros [= <-]. cbn [position duration].
    split; [|apply max_not_below_zero].
    destruct (_ && _); [reflexivity|apply max_not_below_zero].
  - rewrite lookup_insert_ne by exact Hne. apply Hinv.
Qed.

(** X13. The routes never store a position or a duration below zero: when
    no record of the store has one, none has after any sequence of
    [POST /api/progress] requests, accepted or refused, whatever numbers
    they carry. *)
Theorem updates_keep_nonnegative (payloads : list ProgressPayload) (st : State) :
  nonnegative_store st -> nonnegative_store (serve_updates env payloads st).
Proof.
  revert st. induction payloads as [|payload payloads IH]; intros st Hinv;
    simpl; [exact Hinv|].
  apply IH. apply set_progress_keeps_nonnegative. exact Hinv.
Qed.
End ProgressFacts.

(** In the demo a logged-in session sends 96 of 100 for [a.mp3], and an
    anonymous one sends nonsense. *)
Lemma set_progress_checks_file_first_witness :
  set_progress Demo.env (mkPayload "../../etc/passwd" 1 2) Demo.logged_in
  = (Py.Raise PathEscape, Demo.logged_in).
Proof.
  apply (set_progress_checks_file_first Demo.env
           (mkPayload "../../etc/passwd" 1 2) Demo.logged_in eq_refl).
  vm_compute. reflexivity.
Defined.

(** In the demo a logged-in session asks for the progress of [a.mp3],
    which has no record. *)
Lemma progress_routes_roundtrip_witness :
  get_progress Demo.env "a.mp3" Demo.logged_in
  = (Py.Return (JSONProgress 0 0 false), Demo.logged_in).
Proof.
  apply (progress_routes_roundtrip Demo.env (mkPayload "a.mp3" 96 100)
           Demo.logged_in (mkPath Root ["srv"; "media"; "a.mp3"])
           eq_refl eq_refl).
  reflexivity.
Defined.

(** A position that is an infinity, with duration 0: the record is stored,
    and both routes raise. *)
Example progress_out_of_range :
  let payload := mkPayload "a.mp3" infinity 0 in
  let st' := snd (set_progress Demo.env payload Demo.logged_in) in
  stored st' !! "a.mp3" = Some (mkRecord infinity 0 false)
  /\ fst (set_progress Demo.env payload Demo.logged_in) = Py.Raise out_of_range
  /\ fst (get_progress Demo.env "a.mp3" st') = Py.Raise out_of_range.
Proof. repeat split; vm_compute; reflexivity. Qed.

Lemma updates_keep_nonnegative_witness :
  nonnegative_store
    (serve_updates Demo.env
       [mkPayload "a.mp3" (-3) (-7); mkPayload "B.wav" 96 100] Demo.logged_in).
Proof.
  apply (updates_keep_nonnegative Demo.env).
  intros k r Hk. unfold stored in Hk. simpl in Hk.
  rewrite lookup_empty in Hk. discriminate.
Defined.

(** ** Confinement without links *)
Section Lexical.
Context (env : Deployment).

Lemma parse_parts_kept (s : string) :
  Forall (fun c => keep_component c = true) (parts (parse s)).
Proof.
  unfold parse. destruct (splitroot s) as [a rel]. cbn [parts].
  apply List.Forall_forall. intros c Hc. apply filter_In in Hc. tauto.
Qed.

(** Components without [..] are kept as they are. *)
Lemma normal_components_kept (stack rest : list string) :
  Forall (fun c => keep_component c = true /\ c <> "..") rest ->
  normal_components stack rest = stack ++ rest.
Proof.
  intros Hrest. revert stack.
  induction Hrest as [|c rest [Hkeep Hdots] _ IH]; intros stack; simpl.
  - rewrite app_nil_r. reflexivity.
  - apply String.eqb_neq in Hdots. rewrite Hkeep, Hdots. cbn [negb].
    rewrite IH, <- app_assoc. reflexivity.
Qed.

(** X14. In a media tree without symbolic links, every relative path
    without a [..] component and without a NUL byte passes confinement, and
    the result is the media root followed by the components of the path
    (empty components and [.] dropped); with a NUL byte in a component the
    check raises the [ValueError] of [os.lstat]. *)
Theorem plain_paths_are_confined (p : string)
    (Hfree : link_free (media_tree env))
    (Hroot : resolve (media_tree env) (MEDIA_ROOT env)
             = Py.Return (MEDIA_ROOT env))
    (Hrel : path_anchor (parse p) = Relative)
    (Hdots : ~ In ".." (parts (parse p))) :
  (has_nul (parts (parse p)) = false ->
   validate_within_media_root env (joinpath (MEDIA_ROOT env) p)
   = Py.Return (mkPath Root (parts (MEDIA_ROOT env) ++ parts (parse p))))
  /\ (has_nul (parts (parse p)) = true ->
      validate_within_media_root env (joinpath (MEDIA_ROOT env) p)
      = Py.Raise embedded_null_byte).
Proof.
  destruct Hfree as [Hlinks Hloops].
  assert (Hanchor : path_anchor (MEDIA_ROOT env) = Root)
    by (apply (resolve_plain_anchor _ Hlinks _ _ Hroot)).
  assert (Hplain : resolve (media_tree env) (MEDIA_ROOT env)
                   = if has_nul (parts (MEDIA_ROOT env))
                     then Py.Raise embedded_null_byte
                     else Py.Return
                            (mkPath Root
                               (normal_components [] (parts (MEDIA_ROOT env)))))
    by (apply (resolve_plain _ Hlinks Hloops); rewrite Hanchor; discriminate).
  rewrite Hroot in Hplain.
  destruct (has_nul (parts (MEDIA_ROOT env))) eqn:Hrootnul; [discriminate|].
  injection Hplain as Hnormal.
  assert (Hrootparts : normal_components [] (parts (MEDIA_ROOT env))
                       = parts (MEDIA_ROOT env))
    by (rewrite Hnormal at 2; reflexivity).
  assert (Hjoin : joinpath (MEDIA_ROOT env) p
                  = mkPath Root (parts (MEDIA_ROOT env) ++ parts (parse p)))
    by (unfold joinpath; rewrite Hrel, Hanchor; reflexivity).
  assert (Hres : resolve (media_tree env) (joinpath (MEDIA_ROOT env) p)
                 = if has_nul (parts (parse p))
                   then Py.Raise embedded_null_byte
                   else Py.Return
                          (mkPath Root
                             (parts (MEDIA_ROOT env) ++ parts (parse p)))).
  { rewrite (resolve_plain _ Hlinks Hloops)
      by (rewrite Hjoin; discriminate).
    rewrite Hjoin. cbn [parts]. rewrite has_nul_app, Hrootnul. cbn [orb].
    rewrite normal_components_app, Hrootparts, normal_components_kept;
      [reflexivity|].
    pose proof (parse_parts_kept p) as Hkept.
    rewrite List.Forall_forall in Hkept |- *.
    intros c Hc. split; [apply Hkept; exact Hc|].
    intros ->. contradiction. }
  split; intros Hnul; rewrite Hnul in Hres.
  - apply (validate_resolved env _ _ Hres).
    destruct (parts (parse p)) as [|c rest] eqn:Hp.
    + left. rewrite app_nil_r. destruct (MEDIA_ROOT env) as [a ps].
      cbn in Hanchor |- *. subst a. reflexivity.
    + right. split; [exact Hanchor|]. exists c, rest. reflexivity.
  - unfold validate_within_media_root. rewrite Hres. reflexivity.
Qed.
End Lexical.

(** On the demo tree without links, [sub/./inner//x.mp3] stays inside. *)
Lemma plain_paths_are_confined_witness :
  validate_within_media_root Demo.plain_env
    (joinpath (MEDIA_ROOT Demo.plain_env) "sub/./inner//x.mp3")
  = Py.Return (mkPath Root ["srv"; "media"; "sub"; "inner"; "x.mp3"]).
Proof.
  assert (Hfree : link_free (media_tree Demo.plain_env)).
  { split; [reflexivity|]. intros q. cbn. unfold Demo.plain_stat.
    destruct (Demo.tree_stat q); discriminate. }
  apply (plain_paths_are_confined Demo.plain_env "sub/./inner//x.mp3" Hfree
           eq_refl eq_refl).
  - vm_compute. intros H. repeat (destruct H as [H|H]; [discriminate|]).
    exact H.
  - reflexivity.
Defined.

(** ** Listings and updates *)
Section ListingFacts.
Context (env : Deployment).

Lemma Forall2_map_same {A B : Type} (R : B -> B -> Prop) (f g : A -> B)
    (l : list A) :
  (forall x, In x l -> R (f x) (g x)) ->
  Forall2 R (List.map f l) (List.map g l).
Proof.
  induction l as [|x l IH]; intros H; simpl; constructor.
  - apply H. left. reflexivity.
  - apply IH. intros y Hy. apply H. right. exact Hy.
Qed.

(** X15. A listing reads the played flag under the path of the entry
    relative to the media root, while an update writes under the string the
    client sent.  So when a directory can be listed, it can be listed after
    an accepted update as well, with the same directories and the same
    audio entries, and the played flag changes at most for the entry whose
    relative path is, character for character, the submitted string. *)
Theorem listing_after_update (payload : ProgressPayload) (st : State)
    (p : Path) (relative_path : string) (before : Listing)
    (Hauth : authenticated st = true)
    (Hfile : get_audio_file env (file payload) = Py.Return p)
    (Hbefore : list_directory env relative_path st = (Py.Return before, st)) :
  let st' := snd (set_progress env payload st) in
  exists after,
    list_directory env relative_path st' = (Py.Return after, st')
    /\ directories after = directories before
    /\ Forall2
         (fun a a' =>
            audio_name a' = audio_name a
            /\ audio_path a' = audio_path a
            /\ (audio_path a <> file payload -> audio_played a' = audio_played a)
            /\ (audio_path a = file payload ->
                audio_played a' = was_played st' (file payload)))
         (audio_files before) (audio_files after).
Proof.
  intros st'.
  destruct (list_directory_inv env relative_path st before)
    as (directory & found & Hconf & Hdir & Hfound & Hexam);
    [rewrite Hbefore; reflexivity|].
  rewrite (list_directory_returns env relative_path st directory found Hconf
             Hdir Hfound Hexam) in Hbefore.
  injection Hbefore as <-.
  eexists.
  split; [apply (list_directory_returns env relative_path st' directory found
                   Hconf Hdir Hfound Hexam)|].
  cbn [directories audio_files]. split; [reflexivity|].
  apply Forall2_map_same. intros e _. unfold audio_entry.
  cbn [audio_name audio_path audio_played].
  split; [reflexivity|]. split; [reflexivity|]. split.
  - intros Hne. subst st'.
    rewrite (set_progress_stores env payload st p Hauth Hfile). cbn [snd].
    unfold was_played. rewrite stored_with_document.
    rewrite lookup_insert_ne by congruence. reflexivity.
  - intros ->. reflexivity.
Qed.
End ListingFacts.

(** In the demo [a.mp3] is reported finished under the name
    [sub/../a.mp3]: the update is accepted and the listing of the root
    still shows [a.mp3] as not played. *)
Lemma listing_after_update_witness :
  exists after st',
    list_directory Demo.env ""
      (snd (set_progress Demo.env (mkPayload "sub/../a.mp3" 96 100) Demo.logged_in))
    = (Py.Return after, st')
    /\ audio_files after
       = [mkAudioEntry "a.mp3" "a.mp3" false; mkAudioEntry "B.wav" "B.wav" false].
Proof.
  destruct (listing_after_update Demo.env (mkPayload "sub/../a.mp3" 96 100)
              Demo.logged_in (mkPath Root ["srv"; "media"; "a.mp3"]) ""
              (mkListing [mkDirectoryEntry "sub" "sub"]
                 [mkAudioEntry "a.mp3" "a.mp3" false;
                  mkAudioEntry "B.wav" "B.wav" false])
              eq_refl eq_refl eq_refl)
    as (after & Hafter & _).
  exists after. eexists. split; [exact Hafter|].
  vm_compute in Hafter. injection Hafter as <-. reflexivity.
Defined.

(** ** Breadcrumbs *)
Section Breadcrumbs.

Lemma split_no_sep (sep : ascii) (s : string) :
  Forall (fun w => Py.has_char sep w = false) (Py.split sep s).
Proof.
  induction s as [|c s IH]; simpl; [repeat constructor|].
  destruct (Ascii.eqb c sep) eqn:Hc; [constructor; [reflexivity|exact IH]|].
  destruct (Py.split sep s) as [|w ws].
  - constructor; [|constructor]. simpl. rewrite Hc. reflexivity.
  - apply Forall_cons_iff in IH. destruct IH as [Hw Hws].
    constructor; [|exact Hws]. simpl. rewrite Hc. exact Hw.
Qed.

Lemma split_whole (sep : ascii) (s : string) :
  Py.has_char sep s = false -> Py.split sep s = [s].
Proof.
  induction s as [|c s IH]; simpl; [reflexivity|].
  intros H. apply orb_false_iff in H. destruct H as [Hc Hs].
  rewrite Hc, (IH Hs). reflexivity.
Qed.

Lemma splitroot_relative (c : ascii) (w : string) :
  Ascii.eqb c "/" = false -> splitroot (String c w) = (Relative, String c w).
Proof.
  destruct c as [[] [] [] [] [] [] [] []]; intros H;
    try reflexivity; discriminate.
Qed.

Lemma parse_component (w : string) :
  clean_component w -> parse w = mkPath Relative [w].
Proof.
  intros [Hslash Hkeep]. destruct w as [|c w]; [discriminate|].
  unfold parse. simpl in Hslash. apply orb_false_iff in Hslash.
  destruct Hslash as [Hc Hw]. rewrite (splitroot_relative c w Hc).
  rewrite split_whole by (simpl; rewrite Hc; exact Hw).
  simpl List.filter. rewrite Hkeep. reflexivity.
Qed.

Lemma joinpath_component (acc : Path) (w : string) :
  clean_component w ->
  joinpath acc w = mkPath (path_anchor acc) (parts acc ++ [w]).
Proof.
  intros Hw. unfold joinpath. rewrite (parse_component w Hw). reflexivity.
Qed.

Lemma parse_parts_clean (s : string) :
  Forall clean_component (parts (parse s)).
Proof.
  unfold parse. destruct (splitroot s) as [a rel]. cbn [parts].
  apply List.Forall_forall. intros w Hw. apply filter_In in Hw.
  destruct Hw as [Hin Hkeep]. split; [|exact Hkeep].
  pose proof (split_no_sep "/" rel) as Hall.
  rewrite List.Forall_forall in Hall. apply Hall. exact Hin.
Qed.

Lemma breadcrumb_loop_clean (ps : list string) (acc : Path) :
  Forall clean_component ps ->
  breadcrumb_loop acc ps
  = List.map
      (fun k =>
         mkDirectoryEntry (List.nth k ps "")
           (to_string (mkPath (path_anchor acc)
                         (parts acc ++ firstn (S k) ps))))
      (List.seq 0 (List.length ps)).
Proof.
  intros Hps. revert acc.
  induction Hps as [|w ps Hw _ IH]; intros acc; [reflexivity|].
  cbn [breadcrumb_loop List.length]. rewrite (joinpath_component acc w Hw).
  rewrite IH. cbn [path_anchor parts List.seq List.map List.nth firstn].
  f_equal. rewrite <- seq_shift, List.map_map.
  apply List.map_ext. intros k. cbn [List.nth firstn].
  rewrite <- app_assoc. reflexivity.
Qed.

(** X16. [breadcrumb] gives one crumb for the anchor of the path, when it
    has one, and one for each component that parsing keeps (empty
    components and [.] are gone, [..] stays); a crumb is named by its
    component and its path is the text of the path up to and including that
    component.  The empty path, and any path without components such as
    [.], has no crumbs. *)
Theorem breadcrumb_spec (relative_path : string) :
  let q := parse relative_path in
  breadcrumb relative_path
  = match path_anchor q with
    | Relative => []
    | Root => [mkDirectoryEntry "/" "/"]
    | DoubleRoot => [mkDirectoryEntry "//" "//"]
    end
    ++ List.map
         (fun k =>
            mkDirectoryEntry (List.nth k (parts q) "")
              (to_string (mkPath (path_anchor q) (firstn (S k) (parts q)))))
         (List.seq 0 (List.length (parts q))).
Proof.
  intros q. unfold breadcrumb.
  destruct (String.eqb_spec relative_path "") as [->|_]; [reflexivity|].
  fold q. pose proof (parse_parts_clean relative_path) as Hclean. fold q in Hclean.
  unfold parts_with_anchor.
  destruct (path_anchor q) eqn:Hanchor.
  - rewrite (breadcrumb_loop_clean (parts q) _ Hclean). reflexivity.
  - cbn [breadcrumb_loop].
    change (joinpath (mkPath Relative []) "/") with (mkPath Root []).
    rewrite (breadcrumb_loop_clean (parts q) _ Hclean). reflexivity.
  - cbn [breadcrumb_loop].
    change (joinpath (mkPath Relative []) "//") with (mkPath DoubleRoot []).
    rewrite (breadcrumb_loop_clean (parts q) _ Hclean). reflexivity.
Qed.

(** The crumbs of [sub/./inner//x.mp3] and of [/a/b]. *)
Example breadcrumb_examples :
  breadcrumb "sub/./inner//x.mp3"
  = [mkDirectoryEntry "sub" "sub"; mkDirectoryEntry "inner" "sub/inner";
     mkDirectoryEntry "x.mp3" "sub/inner/x.mp3"]
  /\ breadcrumb "/a/b"
     = [mkDirectoryEntry "/" "/"; mkDirectoryEntry "a" "/a";
        mkDirectoryEntry "b" "/a/b"]
  /\ breadcrumb "." = [].
Proof. repeat split. Qed.
End Breadcrumbs.

(** ** Start-up configuration *)
Section Startup.
Context (environ : gmap string string).

(** A text of ASCII characters has as many characters as bytes. *)
Lemma len_ascii (v : string) :
  Py.isascii v = true -> Py.len v = String.length v.
Proof.
  unfold Py.len, Py.code_points. induction v as [|c v IH]; [reflexivity|].
  cbn [Py.isascii]. intros H. apply andb_true_iff in H. destruct H as [Hc Hv].
  cbn [Py.code_points_from Py.utf8_sequence String.length List.length].
  rewrite Hc. cbn [Nat.pred]. rewrite (IH Hv). reflexivity.
Qed.

(** X17. [require_env] returns a value exactly when the variable is set,
    its value is not empty and, with a minimum length, has at least that
    many characters; the value returned is the one in the environment.  An
    unset and an empty variable raise the same "must be set" error, a short
    one the "must be at least" error.  Characters are counted, not bytes:
    for a value of ASCII characters the two are the same. *)
Theorem require_env_exact (name : string) (min_length : option Z) :
  (forall v,
     require_env environ name min_length = Py.Return v <->
     environ !! name = Some v /\ v <> ""
     /\ forall n, min_length = Some n -> (n <= Z.of_nat (Py.len v))%Z)
  /\ (environ !! name = None \/ environ !! name = Some "" ->
      require_env environ name min_length = Py.Raise (must_be_set name))
  /\ (forall v n,
        environ !! name = Some v -> v <> "" -> min_length = Some n ->
        (Z.of_nat (Py.len v) < n)%Z ->
        require_env environ name min_length = Py.Raise (too_short name n))
  /\ (forall v, Py.isascii v = true -> Py.len v = String.length v).
Proof.
  unfold require_env. split; [|split; [|split]].
  - intros v. destruct (environ !! name) as [value|]; [|split; [discriminate|]].
    2:{ intros ([=] & _). }
    destruct (String.eqb_spec value "") as [->|Hne].
    { split; [discriminate|]. intros ([= <-] & Hv & _). contradiction. }
    destruct min_length as [n|].
    + destruct (Z.ltb_spec (Z.of_nat (Py.len value)) n) as [Hlt|Hge].
      * split; [discriminate|]. intros ([= <-] & _ & Hlen).
        specialize (Hlen n eq_refl). lia.
      * split.
        -- intros [= <-]. repeat split; [exact Hne|]. intros m [= <-]. exact Hge.
        -- intros ([= <-] & _). reflexivity.
    + split.
      * intros [= <-]. repeat split; [exact Hne|]. intros m [=].
      * intros ([= <-] & _). reflexivity.
  - intros [->| ->]; reflexivity.
  - intros v n -> Hne -> Hlt.
    apply String.eqb_neq in Hne. rewrite Hne.
    apply Z.ltb_lt in Hlt. rewrite Hlt. reflexivity.
  - exact len_ascii.
Qed.

Lemma require_env_return (name : string) (n : Z) (v : string) :
  require_env environ name (Some n) = Py.Return v <->
  environ !! name = Some v /\ v <> "" /\ (n <= Z.of_nat (Py.len v))%Z.
Proof.
  unfold require_env. destruct (environ !! name) as [value|].
  - destruct (String.eqb_spec value "") as [->|Hne].
    + split; [discriminate|]. intros ([= <-] & Hv & _). contradiction.
    + destruct (Z.ltb_spec (Z.of_nat (Py.len value)) n) as [Hlt|Hge].
      * split; [discriminate|]. intros ([= <-] & _ & Hlen). lia.
      * split.
        -- intros [= <-]. repeat split; assumption.
        -- intros ([= <-] & _). reflexivity.
  - split; [discriminate|]. intros ([=] & _).
Qed.

(** X18. The two secrets are read exactly when [PLAYER_SECRET_KEY] holds at
    least 32 characters and [PLAYER_PASSWORD] at least 8; they are then the
    values of the environment, so the password the logins are compared
    with is never empty.  When the secret key is missing or short, the
    error is the one for the secret key, whatever the password is. *)
Theorem load_secrets_exact (secret_key auth_password : string) :
  (load_secrets environ = Py.Return (secret_key, auth_password) <->
   environ !! "PLAYER_SECRET_KEY" = Some secret_key
   /\ (32 <= Py.len secret_key)%nat
   /\ environ !! "PLAYER_PASSWORD" = Some auth_password
   /\ (8 <= Py.len auth_password)%nat)
  /\ (load_secrets environ = Py.Return (secret_key, auth_password) ->
      auth_password <> "")
  /\ (forall e,
        require_env environ "PLAYER_SECRET_KEY" (Some 32%Z) = Py.Raise e ->
        load_secrets environ = Py.Raise e).
Proof.
  assert (Hiff :
    load_secrets environ = Py.Return (secret_key, auth_password) <->
    environ !! "PLAYER_SECRET_KEY" = Some secret_key
    /\ (32 <= Py.len secret_key)%nat
    /\ environ !! "PLAYER_PASSWORD" = Some auth_password
    /\ (8 <= Py.len auth_password)%nat).
  { unfold load_secrets.
    destruct (require_env environ "PLAYER_SECRET_KEY" (Some 32%Z)) as [k|e] eqn:Hk.
    - apply require_env_return in Hk. destruct Hk as (Hk & Hkne & Hklen).
      destruct (require_env environ "PLAYER_PASSWORD" (Some 8%Z)) as [pw|e] eqn:Hp.
      + apply require_env_return in Hp. destruct Hp as (Hp & Hpne & Hplen).
        split.
        * intros [= <- <-]. repeat split; try assumption; lia.
        * intros (Hk' & _ & Hp' & _). congruence.
      + split; [discriminate|]. intros (_ & _ & Hp' & Hplen).
        assert (Hret : require_env environ "PLAYER_PASSWORD" (Some 8%Z)
                       = Py.Return auth_password).
        { apply require_env_return. repeat split; [exact Hp'| |lia].
          intros ->. cbn in Hplen. lia. }
        congruence.
    - split; [discriminate|]. intros (Hk' & Hklen & _).
      assert (Hret : require_env environ "PLAYER_SECRET_KEY" (Some 32%Z)
                     = Py.Return secret_key).
      { apply require_env_return. repeat split; [exact Hk'| |lia].
        intros ->. cbn in Hklen. lia. }
      congruence. }
  split; [exact Hiff|]. split.
  - intros Hret. apply Hiff in Hret. destruct Hret as (_ & _ & _ & Hlen).
    intros ->. cbn in Hlen. lia.
  - intros e He. unfold load_secrets. rewrite He. reflexivity.
Qed.
End Startup.

(** A password of seven characters, one of them of two bytes, is too
    short; sixteen characters of two bytes each make no secret key. *)
Example require_env_counts_characters :
  Py.len "pässwor" = 7%nat
  /\ String.length "pässwor" = 8%nat
  /\ require_env {[ "PLAYER_PASSWORD" := "pässwor" ]} "PLAYER_PASSWORD" (Some 8%Z)
     = Py.Raise (too_short "PLAYER_PASSWORD" 8)
  /\ require_env {[ "PLAYER_SECRET_KEY" := "éééééééééééééééé" ]}
       "PLAYER_SECRET_KEY" (Some 32%Z)
     = Py.Raise (too_short "PLAYER_SECRET_KEY" 32).
Proof. repeat split; vm_compute; reflexivity. Qed.

(** ** Boolean settings *)
Section EnvBool.

Lemma lstrip_space (ws x : string) :
  all_space ws = true -> Py.lstrip (ws ++ x) = Py.lstrip x.
Proof.
  induction ws as [|c ws IH]; simpl; [reflexivity|].
  intros H. apply andb_true_iff in H. destruct H as [Hc Hws].
  rewrite Hc. apply IH. exact Hws.
Qed.

Lemma rstrip_all_space (ws : string) :
  all_space ws = true -> Py.rstrip ws = "".
Proof.
  induction ws as [|c ws IH]; simpl; [reflexivity|].
  intros H. apply andb_true_iff in H. destruct H as [Hc Hws].
  rewrite (IH Hws), Hc. reflexivity.
Qed.

Lemma rstrip_space (x ws : string) :
  all_space ws = true -> Py.rstrip (x ++ ws) = Py.rstrip x.
Proof.
  intros Hws. induction x as [|c x IH]; simpl.
  - apply rstrip_all_space. exact Hws.
  - rewrite IH. reflexivity.
Qed.

Lemma lstrip_all_space (ws : string) :
  all_space ws = true -> Py.lstrip ws = "".
Proof.
  induction ws as [|c ws IH]; simpl; [reflexivity|].
  intros H. apply andb_true_iff in H. destruct H as [Hc Hws].
  rewrite Hc. apply IH. exact Hws.
Qed.

Lemma lstrip_app (x ws : string) :
  all_space ws = true ->
  Py.lstrip (x ++ ws)
  = match Py.lstrip x with
    | EmptyString => EmptyString
    | String c r => (String c r ++ ws)%string
    end.
Proof.
  intros Hws. induction x as [|c x IH]; simpl.
  - apply lstrip_all_space. exact Hws.
  - destruct (Py.isspace c); [exact IH|reflexivity].
Qed.

(** White space around a text does not change what [strip] gives. *)
Lemma strip_padding (ws1 v ws2 : string) :
  all_space ws1 = true -> all_space ws2 = true ->
  Py.strip (ws1 ++ v ++ ws2) = Py.strip v.
Proof.
  intros H1 H2. unfold Py.strip.
  rewrite (lstrip_space ws1 _ H1), (lstrip_app v ws2 H2).
  destruct (Py.lstrip v) as [|c r]; [reflexivity|].
  apply rstrip_space. exact H2.
Qed.

Lemma isspace_lower (c : ascii) : Py.isspace (Py.lower_char c) = Py.isspace c.
Proof. destruct c as [[] [] [] [] [] [] [] []]; reflexivity. Qed.

Lemma lower_char_idem (c : ascii) :
  Py.lower_char (Py.lower_char c) = Py.lower_char c.
Proof. destruct c as [[] [] [] [] [] [] [] []]; reflexivity. Qed.

Lemma lower_idem (s : string) : Py.lower (Py.lower s) = Py.lower s.
Proof.
  induction s as [|c s IH]; simpl; [reflexivity|].
  rewrite lower_char_idem, IH. reflexivity.
Qed.

Lemma lstrip_lower (s : string) : Py.lstrip (Py.lower s) = Py.lower (Py.lstrip s).
Proof.
  induction s as [|c s IH]; simpl; [reflexivity|].
  rewrite isspace_lower. destruct (Py.isspace c); [exact IH|reflexivity].
Qed.

Lemma rstrip_lower (s : string) : Py.rstrip (Py.lower s) = Py.lower (Py.rstrip s).
Proof.
  induction s as [|c s IH]; simpl; [reflexivity|].
  rewrite IH, isspace_lower.
  destruct (Py.rstrip s); simpl; [destruct (Py.isspace c)|]; reflexivity.
Qed.

Lemma strip_lower (s : string) : Py.strip (Py.lower s) = Py.lower (Py.strip s).
Proof. unfold Py.strip. rewrite lstrip_lower, rstrip_lower. reflexivity. Qed.

(** X19. [env_bool] gives the default only for an unset variable.  For a
    set variable the default plays no part: the value is read without
    regard to letter case and to white space around it, and a blank value
    gives [False].  So secure cookies are on when [PLAYER_SECURE_COOKIES]
    is unset, and the warning is issued exactly when they are off. *)
Theorem env_bool_reading (environ : gmap string string) (name : string)
    (default : bool) :
  (environ !! name = None -> env_bool environ name default = default)
  /\ (is_Some (environ !! name) ->
      env_bool environ name default = env_bool environ name (negb default))
  /\ (forall v,
        environ !! name = Some v -> Py.strip v = "" ->
        env_bool environ name default = false)
  /\ (forall v ws1 ws2,
        all_space ws1 = true -> all_space ws2 = true ->
        env_bool (<[name := (ws1 ++ v ++ ws2)%string]> environ) name default
        = env_bool (<[name := v]> environ) name default)
  /\ (forall v,
        env_bool (<[name := Py.lower v]> environ) name default
        = env_bool (<[name := v]> environ) name default)
  /\ (environ !! "PLAYER_SECURE_COOKIES" = None ->
      SECURE_COOKIES environ = true)
  /\ (startup_warnings environ = [] <-> SECURE_COOKIES environ = true).
Proof.
  unfold env_bool. repeat split.
  - intros ->. reflexivity.
  - intros [v ->]. reflexivity.
  - intros v -> ->. reflexivity.
  - intros v ws1 ws2 H1 H2. rewrite !lookup_insert_eq.
    rewrite (strip_padding ws1 v ws2 H1 H2). reflexivity.
  - intros v. rewrite !lookup_insert_eq. rewrite strip_lower, lower_idem.
    reflexivity.
  - intros Hnone. unfold SECURE_COOKIES, env_bool. rewrite Hnone. reflexivity.
  - unfold startup_warnings. destruct (SECURE_COOKIES environ);
      [reflexivity|discriminate].
  - unfold startup_warnings. intros ->. reflexivity.
Qed.

(** A few settings of [PLAYER_SECURE_COOKIES]. *)
Example env_bool_examples :
  SECURE_COOKIES {[ "PLAYER_SECURE_COOKIES" := "  Yes " ]} = true
  /\ SECURE_COOKIES {[ "PLAYER_SECURE_COOKIES" := "" ]} = false
  /\ SECURE_COOKIES {[ "PLAYER_SECURE_COOKIES" := "0" ]} = false
  /\ SECURE_COOKIES ∅ = true.
Proof. repeat split; vm_compute; reflexivity. Qed.
End EnvBool.

(** ** Writes to the store, one after the other *)
Section StoreWrites.

(** X20. Two [set] calls for one key leave what the second alone would
    leave (the record is replaced as a whole), two [set] calls for
    different keys leave the same state in either order, [get] changes
    nothing, and on a missing progress file [get] returns [None] and [set]
    creates the file with the one record. *)
Theorem store_writes_compose (st : State) (k1 k2 : string)
    (p1 d1 p2 d2 : float) (b1 b2 : bool) :
  snd (ProgressStore.set k1 p2 d2 b2 (snd (ProgressStore.set k1 p1 d1 b1 st)))
  = snd (ProgressStore.set k1 p2 d2 b2 st)
  /\ (k1 <> k2 ->
      snd (ProgressStore.set k2 p2 d2 b2 (snd (ProgressStore.set k1 p1 d1 b1 st)))
      = snd (ProgressStore.set k1 p1 d1 b1 (snd (ProgressStore.set k2 p2 d2 b2 st))))
  /\ snd (ProgressStore.get k1 st) = st
  /\ (progress_file st = None ->
      ProgressStore.get k1 st = (Py.Return None, st)
      /\ progress_file (snd (ProgressStore.set k1 p1 d1 b1 st))
         = Some (Document {[ k1 := mkRecord p1 d1 b1 ]})).
Proof.
  rewrite !set_returns, !get_returns. cbn [snd].
  rewrite !stored_with_document. unfold with_progress_file. cbn [session entropy].
  split; [|split; [|split]].
  - rewrite insert_insert_eq. reflexivity.
  - intros Hne. rewrite insert_insert_ne by congruence. reflexivity.
  - reflexivity.
  - intros Hnone. unfold stored. rewrite Hnone. split; reflexivity.
Qed.
End StoreWrites.

(** ** From login to logout *)
Section Lifecycle.
Context (env : Deployment).

(** X21. A session that is not authenticated is refused by
    [GET /api/progress] with 401.  After [POST /login] with its valid token
    and the password, the same request is answered with the stored record
    (zeros and false without one), or with the [ValueError] of
    [JSONResponse] when the stored position or duration is not finite.
    After [POST /logout] with the token the login minted, the request is
    refused with 401 again. *)
Theorem login_opens_and_logout_closes (request : Request)
    (username token next_path file : string) (st : State) (p : Path)
    (Hanon : authenticated st = false)
    (Hvalid : fst (validate_csrf_token token st) = Py.Return true)
    (Hfile : get_audio_file env file = Py.Return p) :
  let st1 :=
    snd (login_submit env request username (AUTH_PASSWORD env) token next_path st) in
  let st2 := snd (logout request (next_token st) st1) in
  get_progress env file st
  = (Py.Raise (Py.HTTPException 401 "Not authenticated"), st)
  /\ get_progress env file st1
     = (match stored st !! file with
        | Some r =>
            if Py.isfinite (position r) && Py.isfinite (duration r)
            then Py.Return (JSONProgress (position r) (duration r) (played r))
            else Py.Raise out_of_range
        | None => Py.Return (JSONProgress 0 0 false)
        end,
        st1)
  /\ fst (logout request (next_token st) st1)
     = Py.Return (RedirectResponse (url_for request "login") 303)
  /\ get_progress env file st2
     = (Py.Raise (Py.HTTPException 401 "Not authenticated"), st2).
Proof.
  intros st1 st2.
  assert (Hst1 : st1 = after_login st)
    by (subst st1; rewrite login_success by exact Hvalid; reflexivity).
  assert (Hok : validate_csrf_token (next_token st) st1 = (Py.Return true, st1)).
  { apply validate_true. apply validate_accepts. rewrite Hst1.
    split; [apply after_login_token|]. split.
    - apply String.eqb_neq. apply next_token_nonempty.
    - apply urlsafe_b64encode_isascii. }
  assert (Hout : logout request (next_token st) st1
                 = (Py.Return (RedirectResponse (url_for request "login") 303),
                    mkState ∅ (progress_file st1) (entropy st1)))
    by (unfold logout, bind; rewrite Hok; reflexivity).
  split; [|split; [|split]].
  - unfold get_progress, bind. rewrite is_authenticated_returns, Hanon.
    reflexivity.
  - rewrite (get_progress_answers env file st1 p); [|rewrite Hst1; apply after_login_flag|exact Hfile].
    rewrite Hst1.
    change (stored (after_login st)) with (stored st).
    destruct (stored st !! file); reflexivity.
  - rewrite Hout. reflexivity.
  - subst st2. rewrite Hout. cbn [snd].
    unfold get_progress, bind. rewrite is_authenticated_returns. reflexivity.
Qed.
End Lifecycle.

(** In the demo the session at the login form logs in, asks for the
    progress of [a.mp3] and logs out. *)
Lemma login_opens_and_logout_closes_witness :
  fst (get_progress Demo.env "a.mp3" Demo.at_login_form)
    = Py.Raise (Py.HTTPException 401 "Not authenticated")
  /\ fst (get_progress Demo.env "a.mp3"
            (snd (login_submit Demo.env Demo.request "reader" "correct horse"
                    (next_token Demo.anonymous) "" Demo.at_login_form)))
     = Py.Return (JSONProgress 0 0 false).
Proof.
  destruct (login_opens_and_logout_closes Demo.env Demo.request "reader"
              (next_token Demo.anonymous) "" "a.mp3" Demo.at_login_form
              (mkPath Root ["srv"; "media"; "a.mp3"]) eq_refl)
    as (H401 & Hopen & _).
  - vm_compute. reflexivity.
  - reflexivity.
  - split.
    + rewrite H401. reflexivity.
    + change (AUTH_PASSWORD Demo.env) with "correct horse" in Hopen.
      rewrite Hopen. reflexivity.
Defined.

(** ** The login form *)
Section LoginForm.
Context (env : Deployment).

Lemma login_page_anonymous (request : Request) (next_path : string) (st : State) :
  authenticated st = false ->
  login_page env request next_path st
  = (match fst (ensure_csrf_token st) with
     | Py.Return token =>
         Py.Return (TemplateResponse "login.html"
                      (LoginContext next_path None token) 200)
     | Py.Raise e => Py.Raise e
     end,
     snd (ensure_csrf_token st)).
Proof.
  intros Hanon. unfold login_page, bind.
  rewrite is_authenticated_returns, Hanon.
  destruct (ensure_csrf_token st) as [[tok|e] st']; reflexivity.
Qed.

(** X22. For a session that is not authenticated [GET /login] renders the
    login form with status 200, no error and the session's CSRF token,
    minting the token if the session has none; loading the page again
    gives the same form and changes nothing more.  When the token was
    minted by the page, [POST /login] with that token and the password is
    accepted and redirects. *)
Theorem login_page_form (request : Request) (username next_path : string)
    (st : State)
    (Hanon : authenticated st = false) :
  let st' := snd (login_page env request next_path st) in
  exists form_tok,
    fst (login_page env request next_path st)
    = Py.Return
        (TemplateResponse "login.html" (LoginContext next_path None form_tok) 200)
    /\ session st' !! CSRF_SESSION_KEY = Some form_tok
    /\ authenticated st' = false
    /\ login_page env request next_path st'
       = (fst (login_page env request next_path st), st')
    /\ (Py.truthy_opt (session st !! CSRF_SESSION_KEY) = false ->
        form_tok = Py.VStr (next_token st)
        /\ fst (login_submit env request username (AUTH_PASSWORD env)
                  (next_token st) next_path st')
           = Py.Return
               (RedirectResponse (login_destination env request next_path) 303)).
Proof.
  intros st'. subst st'.
  rewrite (login_page_anonymous request next_path st Hanon). cbn [fst snd].
  destruct (ensure_returns st) as (tok & st1 & Hens & Hflag & _ & Hs).
  pose proof (ensure_idempotent st) as Hidem.
  rewrite Hens in Hidem |- *. cbn [fst snd] in Hidem |- *.
  exists tok. split; [reflexivity|]. split; [exact Hs|].
  split; [rewrite Hflag; exact Hanon|]. split.
  - rewrite (login_page_anonymous request next_path st1)
      by (rewrite Hflag; exact Hanon).
    rewrite Hidem. reflexivity.
  - intros Hnone. rewrite (ensure_mints st Hnone) in Hens.
    injection Hens as <- <-. split; [reflexivity|].
    rewrite login_success; [reflexivity|].
    apply validate_accepts. split; [exact Hs|]. split.
    + apply String.eqb_neq. apply next_token_nonempty.
    + apply urlsafe_b64encode_isascii.
Qed.
End LoginForm.

(** In the demo the anonymous session opens the login page. *)
Lemma login_page_form_witness :
  exists form_tok,
    fst (login_page Demo.env Demo.request "" Demo.anonymous)
    = Py.Return (TemplateResponse "login.html" (LoginContext "" None form_tok) 200)
    /\ form_tok = Py.VStr (next_token Demo.anonymous).
Proof.
  destruct (login_page_form Demo.env Demo.request "reader" "" Demo.anonymous
              eq_refl) as (tok & Hform & _ & _ & _ & Hminted).
  exists tok. split; [exact Hform|]. apply Hminted. reflexivity.
Defined.
